(** * DeepResearch: the polling / delta-detection / summary scripts

    A shallow embedding of [deep-research-sync.py] and
    [deep-research-async.py].  Python [str] values are sequences of Unicode
    code points; the remote agent service, the console and the file system
    are an explicit world that the scripts thread through their calls.  The
    synchronous script is embedded as state-and-exception passing functions,
    the asynchronous one as interaction trees whose events are the awaited
    calls and the side effects, run by a single-task event loop. *)

From Stdlib Require Import List NArith Arith Lia String Ascii Bool Sorted.
From ITree Require Import ITree.
Import ListNotations.

(* ===================================================================== *)
(** ** Python strings *)
(* ===================================================================== *)

Module PyStr.

(** A code point. *)
Definition char := N.
Definition pystr := list char.

(** An ASCII literal of the source. *)
Definition lit (s : string) : pystr := map N_of_ascii (list_ascii_of_string s).

(** ["\n"] *)
Definition nl : pystr := [10%N].

Fixpoint eqb (a b : pystr) : bool :=
  match a, b with
  | [], [] => true
  | x :: a', y :: b' => N.eqb x y && eqb a' b'
  | _, _ => false
  end.

(** [str.isspace] on one code point (CPython's [_PyUnicode_IsWhitespace]). *)
Definition isspace (c : char) : bool :=
  ((9 <=? c) && (c <=? 13) || (28 <=? c) && (c <=? 32)
   || (c =? 133) || (c =? 160) || (c =? 5760)
   || (8192 <=? c) && (c <=? 8202)
   || (c =? 8232) || (c =? 8233) || (c =? 8239) || (c =? 8287)
   || (c =? 12288))%N.

Fixpoint lstrip (s : pystr) : pystr :=
  match s with
  | [] => []
  | c :: s' => if isspace c then lstrip s' else s
  end.

Definition rstrip (s : pystr) : pystr := rev (lstrip (rev s)).

(** [s.strip()] *)
Definition strip (s : pystr) : pystr := rstrip (lstrip s).

(** [sep.join(parts)] *)
Fixpoint join (sep : pystr) (parts : list pystr) : pystr :=
  match parts with
  | [] => []
  | [p] => p
  | p :: rest => p ++ sep ++ join sep rest
  end.

(** [sub in s] *)
Fixpoint starts_with (p s : pystr) : bool :=
  match p, s with
  | [], _ => true
  | x :: p', y :: s' => N.eqb x y && starts_with p' s'
  | _ :: _, [] => false
  end.

Fixpoint contains (sub s : pystr) : bool :=
  starts_with sub s ||
  match s with
  | [] => false
  | _ :: s' => contains sub s'
  end.

(** The lines of a text, split at every ["\n"]. *)
Fixpoint lines (s : pystr) : list pystr :=
  match s with
  | [] => [[]]
  | c :: s' =>
      if N.eqb c 10 then [] :: lines s'
      else match lines s' with
           | l :: ls => (c :: l) :: ls
           | [] => [[c]]
           end
  end.

Definition blank (l : pystr) : bool := forallb isspace l.

(** No two blank lines in a row. *)
Fixpoint single_blank (ls : list pystr) : bool :=
  match ls with
  | l1 :: ((l2 :: _) as rest) => negb (blank l1 && blank l2) && single_blank rest
  | _ => true
  end.

Definition head_space (s : pystr) : bool :=
  match s with c :: _ => isspace c | [] => false end.

(** Neither the first nor the last character is whitespace. *)
Definition no_edge_space (s : pystr) : bool :=
  negb (head_space s) && negb (head_space (rev s)).

End PyStr.

Import PyStr.

(* ===================================================================== *)
(** ** Data model: what the scripts read from the SDK objects *)
(* ===================================================================== *)

(** [ann.url_citation]: [url] and an optional [title]. *)
Record UrlCitation := {
  url : pystr;
  title : option pystr
}.

(** [ThreadMessage]: [id], the [text.value] of every entry of
    [text_messages], and the [url_citation] of every entry of
    [url_citation_annotations]. *)
Record ThreadMessage := {
  msg_id : pystr;
  text_messages : list pystr;
  url_citation_annotations : list UrlCitation
}.

(** [ThreadRun]: [id], [status], [last_error]. *)
Record ThreadRun := {
  run_id : pystr;
  status : pystr;
  last_error : option pystr
}.

Record Connection := {
  conn_name : pystr;
  conn_id : pystr
}.

(** [f"{x}"] for an [Optional[str]]: [None] renders as the text None. *)
Definition fmt_opt (x : option pystr) : pystr :=
  match x with
  | Some s => s
  | None => lit "None"
  end.

(** [x or y] for an [Optional[str]] [x]: [None] and the empty string are
    falsy. *)
Definition or_else (x : option pystr) (y : pystr) : pystr :=
  match x with
  | Some (c :: s) => c :: s
  | _ => y
  end.

(** [a == b] for a [str] and an [Optional[str]]. *)
Definition id_eqb (a : pystr) (b : option pystr) : bool :=
  match b with
  | Some b' => PyStr.eqb a b'
  | None => false
  end.

(** [url in seen_urls] on the set kept as the list of its elements. *)
Definition mem (u : pystr) (seen : list pystr) : bool := existsb (PyStr.eqb u) seen.

(** [run.status in ("queued", "in_progress")] *)
Definition active (s : pystr) : bool :=
  PyStr.eqb s (lit "queued") || PyStr.eqb s (lit "in_progress").

(* ===================================================================== *)
(** ** The world: remote service, console, files *)
(* ===================================================================== *)

(** The message of a [log_with_timestamp] call.  The texts are fixed
    Japanese sentences with interpolated values; a message is kept as its
    sentence and its values, named here by what the sentence says, with
    the line of the call in the synchronous (s) and the asynchronous (a)
    file.  The timestamp that the call reads from the clock is not part
    of it. *)
Inductive LogMsg :=
| LogNewResponse                          (* s29 a67: a new agent response was received *)
| LogRunning (st : pystr) (count : nat)   (* s171 a177: running, status, seconds elapsed *)
| LogFinished (st rid : pystr)            (* s175 a181: run finished, status, id *)
| LogFailed (err : option pystr)          (* s178 a184: run failed, last_error *)
| LogFetchingFinal                        (* s181 a187: fetching the final message *)
| LogCreatingSummary                      (* s186 a192: creating the research summary *)
| LogAgentDeleted                         (* s192 a198: the agent was deleted *)
| LogAgentCreated (aid : pystr)           (* s129 a135 *)
| LogThreadCreated (tid : pystr)          (* s133 a139 *)
| LogMessageCreated (mid : pystr)         (* s150 a156 *)
| LogProcessingStarts                     (* s152 a158 *)
| LogConnFromEnv (cid : pystr)            (* s74: connection id taken from the environment *)
| LogConnUnset                            (* s76: BING_CONNECTION_ID is not set *)
| LogConnFound (cid : pystr)              (* s95: connection found by its name *)
| LogConnNotFound (name : pystr)          (* s97: no connection of that name *)
| LogConnFailed                           (* s101: getting the connection failed *)
| LogConnAdvice1                          (* s102 *)
| LogConnAdvice2                          (* s103 *)
| LogAsyncStart                           (* a106: the asynchronous version starts *)
| LogClientReady                          (* a112: project client initialised *)
| LogToolInit                             (* a115: initialising the tool *)
| LogToolReady (model : pystr).           (* a120: tool initialised, model *)

(** The tool that the scripts build,
    [DeepResearchTool(bing_grounding_connection_id=..., deep_research_model=...)];
    its [definitions] are what [create_agent] is given as [tools]. *)
Record DeepResearchTool := {
  bing_grounding_connection_id : pystr;
  deep_research_model : pystr
}.

(** What the process does that can be seen from outside, in the order in
    which it does it: the calls to the service and [sleep], and the lines
    on the console ([OutPrint s] is [print(s)]).  [create_agent] is
    called with the model and the tool; its [name] and [instructions] are
    constants of the scripts, as is the content of the user message. *)
Inductive Event :=
| CallSleep (secs : nat)
| CallRunsGet (tid rid : pystr)
| CallGetLastMessage (tid : pystr)
| CallConnectionsList
| CallCreateAgent (model : pystr) (tools : DeepResearchTool)
| CallThreadsCreate
| CallMessagesCreate (tid : pystr)
| CallRunsCreate (tid aid : pystr)
| CallDeleteAgent (aid : pystr)
| OutLog (m : LogMsg)
| OutPrint (s : pystr).

(** The exceptions of the scripts; [RemoteError] stands for whatever a
    failing call to the service raises, and [ValueError cid] is what the
    constructor of the tool raises for a connection id [cid] that it does
    not accept. *)
Inductive exn :=
| KeyError (name : pystr)
| SystemExit (code : nat)
| ValueError (cid : pystr)
| RemoteError.

(** The fixed answers of the service and the process environment:
    [os.environ], the project's connections ([None] when listing them
    fails), the ids of the objects that the calls creating the agent, the
    thread and the message return ([None] when the call fails), and the
    run that [runs.create] returns.  [tool_accepts cid model] says whether
    the constructor of [DeepResearchTool] accepts its two arguments: the
    class belongs to the SDK and is not part of these sources, so its
    check is left open, and what is proved holds whatever it is. *)
Record Remote := {
  environ : list (pystr * pystr);
  connections : option (list Connection);
  tool_accepts : pystr -> pystr -> bool;
  new_agent : option pystr;
  new_thread : option pystr;
  new_message : option pystr;
  new_run : ThreadRun
}.

(** What the remote service answers, and what the process has done so far.
    A poll call takes the next scripted answer; when none is left the call
    fails, the way a network or service error does. *)
Record World := {
  w_remote : Remote;
  w_runs : list ThreadRun;
  w_msgs : list (option ThreadMessage);
  w_trace : list Event;
  w_files : list (pystr * pystr)
}.

Definition set_runs (rs : list ThreadRun) (w : World) : World :=
  {| w_remote := w_remote w; w_runs := rs; w_msgs := w_msgs w;
     w_trace := w_trace w; w_files := w_files w |}.
Definition set_msgs (ms : list (option ThreadMessage)) (w : World) : World :=
  {| w_remote := w_remote w; w_runs := w_runs w; w_msgs := ms;
     w_trace := w_trace w; w_files := w_files w |}.
Definition set_trace (tr : list Event) (w : World) : World :=
  {| w_remote := w_remote w; w_runs := w_runs w; w_msgs := w_msgs w;
     w_trace := tr; w_files := w_files w |}.
Definition set_files (fs : list (pystr * pystr)) (w : World) : World :=
  {| w_remote := w_remote w; w_runs := w_runs w; w_msgs := w_msgs w;
     w_trace := w_trace w; w_files := fs |}.

Inductive Outcome (A : Type) :=
| Ok (a : A) (w : World)
| Raise (e : exn) (w : World).
Arguments Ok {A} a w.
Arguments Raise {A} e w.

Definition world_of {A} (o : Outcome A) : World :=
  match o with
  | Ok _ w => w
  | Raise _ w => w
  end.

Definition M (A : Type) := World -> Outcome A.

Definition ret {A} (a : A) : M A := fun w => Ok a w.

Definition bind {A B} (m : M A) (k : A -> M B) : M B :=
  fun w => match m w with
           | Ok a w' => k a w'
           | Raise e w' => Raise e w'
           end.

Declare Scope py_scope.
Delimit Scope py_scope with py.
Notation "x <- m ;; k" := (bind m (fun x => k))
  (at level 61, m at next level, right associativity) : py_scope.
Notation "m ;; k" := (bind m (fun _ => k))
  (at level 61, right associativity) : py_scope.

Definition emit (e : Event) : M unit :=
  fun w => Ok tt (set_trace (w_trace w ++ [e]) w).

Definition raise {A} (e : exn) : M A := fun w => Raise e w.

(** [try: body except Exception: handler].  [SystemExit] is not an
    [Exception] and passes through. *)
Definition try_except {A} (body : M A) (handler : exn -> M A) : M A :=
  fun w => match body w with
           | Ok a w' => Ok a w'
           | Raise (SystemExit c) w' => Raise (SystemExit c) w'
           | Raise e w' => handler e w'
           end.

Fixpoint assoc (k : pystr) (l : list (pystr * pystr)) : option pystr :=
  match l with
  | [] => None
  | (p, c) :: l' => if PyStr.eqb p k then Some c else assoc k l'
  end.

Fixpoint unassoc (k : pystr) (l : list (pystr * pystr)) : list (pystr * pystr) :=
  match l with
  | [] => []
  | (p, c) :: l' => if PyStr.eqb p k then unassoc k l' else (p, c) :: unassoc k l'
  end.

(** The primitive operations of the scripts. *)
Module Prim.
Local Open Scope py_scope.

Definition log_with_timestamp (m : LogMsg) : M unit := emit (OutLog m).
Definition print (s : pystr) : M unit := emit (OutPrint s).

(** [os.environ.get(name)] and [os.environ[name]] *)
Definition environ_get (name : string) : M (option pystr) :=
  fun w => Ok (assoc (lit name) (environ (w_remote w))) w.
Definition environ_at (name : string) : M pystr :=
  fun w => match assoc (lit name) (environ (w_remote w)) with
           | Some v => Ok v w
           | None => Raise (KeyError (lit name)) w
           end.

Definition sleep (secs : nat) : M unit := emit (CallSleep secs).

Definition runs_get (tid rid : pystr) : M ThreadRun :=
  emit (CallRunsGet tid rid) ;;
  fun w => match w_runs w with
           | r :: rs => Ok r (set_runs rs w)
           | [] => Raise RemoteError w
           end.

Definition get_last_message_by_role (tid : pystr) : M (option ThreadMessage) :=
  emit (CallGetLastMessage tid) ;;
  fun w => match w_msgs w with
           | m :: ms => Ok m (set_msgs ms w)
           | [] => Raise RemoteError w
           end.

Definition connections_list : M (list Connection) :=
  emit CallConnectionsList ;;
  fun w => match connections (w_remote w) with
           | Some cs => Ok cs w
           | None => Raise RemoteError w
           end.

(** [DeepResearchTool(bing_grounding_connection_id=cid, deep_research_model=model)] *)
Definition DeepResearchTool_init (cid model : pystr) : M DeepResearchTool :=
  fun w => if tool_accepts (w_remote w) cid model
           then Ok {| bing_grounding_connection_id := cid;
                      deep_research_model := model |} w
           else Raise (ValueError cid) w.

(** The answer of a call that creates an object: its id, or the failure
    of the call. *)
Definition answered (r : option pystr) : M pystr :=
  fun w => match r with
           | Some i => Ok i w
           | None => Raise RemoteError w
           end.

Definition create_agent (model : pystr) (tools : DeepResearchTool) : M pystr :=
  emit (CallCreateAgent model tools) ;; fun w => answered (new_agent (w_remote w)) w.
Definition threads_create : M pystr :=
  emit CallThreadsCreate ;; fun w => answered (new_thread (w_remote w)) w.
Definition messages_create (tid : pystr) : M pystr :=
  emit (CallMessagesCreate tid) ;; fun w => answered (new_message (w_remote w)) w.
Definition runs_create (tid aid : pystr) : M ThreadRun :=
  emit (CallRunsCreate tid aid) ;; fun w => Ok (new_run (w_remote w)) w.
Definition delete_agent (aid : pystr) : M unit := emit (CallDeleteAgent aid).

(** [open(filepath, "w")]: the file exists and is empty. *)
Definition open_w (path : pystr) : M unit :=
  fun w => Ok tt (set_files ((path, []) :: unassoc path (w_files w)) w).

(** [fp.write(s)] on the file opened at [path]. *)
Definition fp_write (path s : pystr) : M unit :=
  fun w => Ok tt (set_files ((path, match assoc path (w_files w) with
                                    | Some c => c ++ s
                                    | None => s
                                    end) :: unassoc path (w_files w)) w).
End Prim.

(* ===================================================================== *)
(** ** deep-research-sync.py *)
(* ===================================================================== *)

(** The local variables of the polling loop: [run], [last_message_id],
    [status_count]. *)
Record PollState := {
  ps_run : ThreadRun;
  ps_last : option pystr;
  ps_count : nat
}.

(** [f"- [{title}]({url})\n"] and [f"URL Citation: [{title}]({url})"] *)
Definition reference_item (t u : pystr) : pystr :=
  lit "- [" ++ t ++ lit "](" ++ u ++ lit ")" ++ nl.
Definition citation_line (t u : pystr) : pystr :=
  lit "URL Citation: [" ++ t ++ lit "](" ++ u ++ lit ")".

Definition references_heading : pystr := nl ++ nl ++ lit "## References" ++ nl.
Definition default_filepath : pystr := lit "research_summary.md".

Module SyncScript.
Import Prim.
Local Open Scope py_scope.

(** [for ann in response.url_citation_annotations: print(...)] *)
Fixpoint print_citations (anns : list UrlCitation) : M unit :=
  match anns with
  | [] => ret tt
  | ann :: rest =>
      print (citation_line (fmt_opt (title ann)) (url ann)) ;;
      print_citations rest
  end.

Definition fetch_and_print_new_agent_response
    (thread_id : pystr) (last_message_id : option pystr) : M (option pystr) :=
  response <- get_last_message_by_role thread_id ;;
  match response with
  | None => ret last_message_id
  | Some r =>
      if id_eqb (msg_id r) last_message_id then ret last_message_id
      else
        log_with_timestamp LogNewResponse ;;
        print (nl ++ lit "Agent response:") ;;
        print (join nl (text_messages r)) ;;
        print_citations (url_citation_annotations r) ;;
        ret (Some (msg_id r))
  end.

(** The [for ann in message.url_citation_annotations] loop of the
    writer, with its [seen_urls]. *)
Fixpoint write_references (filepath : pystr) (anns : list UrlCitation)
    (seen_urls : list pystr) : M unit :=
  match anns with
  | [] => ret tt
  | ann :: rest =>
      let u := url ann in
      let t := or_else (title ann) u in
      if negb (mem u seen_urls) then
        fp_write filepath (reference_item t u) ;;
        write_references filepath rest (u :: seen_urls)
      else write_references filepath rest seen_urls
  end.

Definition create_research_summary
    (message : option ThreadMessage) (filepath : pystr) : M unit :=
  match message with
  | None => print (lit "No message content provided, cannot create research summary.")
  | Some m =>
      open_w filepath ;;
      (let text_summary := join (nl ++ nl) (map strip (text_messages m)) in
       fp_write filepath text_summary) ;;
      (match url_citation_annotations m with
       | [] => ret tt
       | anns =>
           fp_write filepath references_heading ;;
           write_references filepath anns []
       end) ;;
      print (lit "Research summary written to '" ++ filepath ++ lit "'.")
  end.

(** One pass through the body of the [while] loop. *)
Definition tick (thread_id : pystr) (st : PollState) : M PollState :=
  sleep 1 ;;
  run <- runs_get thread_id (run_id (ps_run st)) ;;
  let status_count := ps_count st + 1 in
  last_message_id <- fetch_and_print_new_agent_response thread_id (ps_last st) ;;
  (if status_count mod 10 =? 0
   then log_with_timestamp (LogRunning (status run) status_count)
   else print (lit "Run status: " ++ status run)) ;;
  ret {| ps_run := run; ps_last := last_message_id; ps_count := status_count |}.

(** [while run.status in ("queued", "in_progress"): ...].  Every pass
    takes one scripted answer of [runs.get]; with none left the pass
    is the last one, its [runs.get] fails. *)
Fixpoint while_active (answers : nat) (thread_id : pystr) (st : PollState) : M PollState :=
  if active (status (ps_run st)) then
    match answers with
    | 0 => tick thread_id st
    | S answers' => st' <- tick thread_id st ;; while_active answers' thread_id st'
    end
  else ret st.

Definition poll (thread_id : pystr) (st : PollState) : M PollState :=
  fun w => while_active (List.length (w_runs w)) thread_id st w.

(** Lines 175-192: what follows the loop. *)
Definition finish (thread_id agent_id : pystr) (run : ThreadRun) : M unit :=
  log_with_timestamp (LogFinished (status run) (run_id run)) ;;
  (if PyStr.eqb (status run) (lit "failed")
   then log_with_timestamp (LogFailed (last_error run))
   else ret tt) ;;
  log_with_timestamp LogFetchingFinal ;;
  final_message <- get_last_message_by_role thread_id ;;
  (match final_message with
   | Some m =>
       log_with_timestamp LogCreatingSummary ;;
       create_research_summary (Some m) default_filepath
   | None => ret tt
   end) ;;
  delete_agent agent_id ;;
  log_with_timestamp LogAgentDeleted.

(** Lines 154-192: create the run, poll it, summarise, delete the agent. *)
Definition poll_and_summarize (thread_id agent_id : pystr) : M unit :=
  run0 <- runs_create thread_id agent_id ;;
  st <- poll thread_id {| ps_run := run0; ps_last := None; ps_count := 0 |} ;;
  finish thread_id agent_id (ps_run st).

(** [for connection in connections: if connection.name == ...: break] *)
Fixpoint find_connection (cs : list Connection) : M (option Connection) :=
  match cs with
  | [] => ret None
  | c :: rest =>
      name <- environ_at "BING_RESOURCE_NAME" ;;
      if PyStr.eqb (conn_name c) name then ret (Some c) else find_connection rest
  end.

(** Lines 71-104: the Bing connection id, from the environment or by
    the name of the resource among the project's connections. *)
Definition resolve_connection : M pystr :=
  cid <- environ_get "BING_CONNECTION_ID" ;;
  if match cid with
     | Some c => match strip c with [] => false | _ :: _ => true end
     | None => false
     end
  then
    c <- environ_at "BING_CONNECTION_ID" ;;
    log_with_timestamp (LogConnFromEnv c) ;;
    ret c
  else
    log_with_timestamp LogConnUnset ;;
    _ <- environ_at "PROJECT_ENDPOINT" ;;
    try_except
      (cs <- connections_list ;;
       bing_connection <- find_connection cs ;;
       match bing_connection with
       | Some c => log_with_timestamp (LogConnFound (conn_id c)) ;; ret (conn_id c)
       | None =>
           name <- environ_at "BING_RESOURCE_NAME" ;;
           log_with_timestamp (LogConnNotFound name) ;;
           raise (SystemExit 1)
       end)
      (fun _ =>
         log_with_timestamp LogConnFailed ;;
         log_with_timestamp LogConnAdvice1 ;;
         log_with_timestamp LogConnAdvice2 ;;
         raise (SystemExit 1)).

(** The script from its first statement to its last: the endpoint for
    the client (line 67), the connection id (71-104), the tool (108-111,
    the model is read before the constructor is called), the agent with
    the tool (121-126), the thread, the message, and the run.  The
    constructors of the clients and the [with] blocks around them do
    nothing that the world of this development records. *)
Definition main : M unit :=
  _ <- environ_at "PROJECT_ENDPOINT" ;;
  conn_id <- resolve_connection ;;
  deep_research_model <- environ_at "DEEP_RESEARCH_MODEL_DEPLOYMENT_NAME" ;;
  deep_research_tool <- DeepResearchTool_init conn_id deep_research_model ;;
  model <- environ_at "MODEL_DEPLOYMENT_NAME" ;;
  agent <- create_agent model deep_research_tool ;;
  log_with_timestamp (LogAgentCreated agent) ;;
  thread <- threads_create ;;
  log_with_timestamp (LogThreadCreated thread) ;;
  message <- messages_create thread ;;
  log_with_timestamp (LogMessageCreated message) ;;
  log_with_timestamp LogProcessingStarts ;;
  poll_and_summarize thread agent.

End SyncScript.

(* ===================================================================== *)
(** ** deep-research-async.py *)
(* ===================================================================== *)

Module AsyncScript.
Import ITreeNotations.
Local Open Scope itree_scope.

(** What a coroutine of the script does to the outside: the calls it
    awaits, and the plain calls with an effect. *)
Variant aioE : Type -> Type :=
| LogWithTimestamp (m : LogMsg) : aioE unit
| Print (s : pystr) : aioE unit
| EnvironAt (name : string) : aioE pystr
| OpenW (path : pystr) : aioE unit
| FpWrite (path s : pystr) : aioE unit
| AwaitSleep (secs : nat) : aioE unit
| AwaitRunsGet (tid rid : pystr) : aioE ThreadRun
| AwaitGetLastMessageByRole (tid : pystr) : aioE (option ThreadMessage)
| NewDeepResearchTool (cid model : pystr) : aioE DeepResearchTool
| AwaitCreateAgent (model : pystr) (tools : DeepResearchTool) : aioE pystr
| AwaitThreadsCreate : aioE pystr
| AwaitMessagesCreate (tid : pystr) : aioE pystr
| AwaitRunsCreate (tid aid : pystr) : aioE ThreadRun
| AwaitDeleteAgent (aid : pystr) : aioE unit.

Definition aio := itree aioE.

Definition log_with_timestamp (m : LogMsg) : aio unit := ITree.trigger (LogWithTimestamp m).
Definition print (s : pystr) : aio unit := ITree.trigger (Print s).

Fixpoint print_citations (anns : list UrlCitation) : aio unit :=
  match anns with
  | [] => Ret tt
  | ann :: rest =>
      print (citation_line (fmt_opt (title ann)) (url ann)) ;;
      print_citations rest
  end.

Definition fetch_and_print_new_agent_response
    (thread_id : pystr) (last_message_id : option pystr) : aio (option pystr) :=
  response <- ITree.trigger (AwaitGetLastMessageByRole thread_id) ;;
  match response with
  | None => Ret last_message_id
  | Some r =>
      if id_eqb (msg_id r) last_message_id then Ret last_message_id
      else
        log_with_timestamp LogNewResponse ;;
        print (nl ++ lit "Agent response:") ;;
        print (join nl (text_messages r)) ;;
        print_citations (url_citation_annotations r) ;;
        Ret (Some (msg_id r))
  end.

Fixpoint write_references (filepath : pystr) (anns : list UrlCitation)
    (seen_urls : list pystr) : aio unit :=
  match anns with
  | [] => Ret tt
  | ann :: rest =>
      let u := url ann in
      let t := or_else (title ann) u in
      if negb (mem u seen_urls) then
        ITree.trigger (FpWrite filepath (reference_item t u)) ;;
        write_references filepath rest (u :: seen_urls)
      else write_references filepath rest seen_urls
  end.

Definition create_research_summary
    (message : option ThreadMessage) (filepath : pystr) : aio unit :=
  match message with
  | None => print (lit "No message content provided, cannot create research summary.")
  | Some m =>
      ITree.trigger (OpenW filepath) ;;
      (let text_summary := join (nl ++ nl) (map strip (text_messages m)) in
       ITree.trigger (FpWrite filepath text_summary)) ;;
      (match url_citation_annotations m with
       | [] => Ret tt
       | anns =>
           ITree.trigger (FpWrite filepath references_heading) ;;
           write_references filepath anns []
       end) ;;
      print (lit "Research summary written to '" ++ filepath ++ lit "'.")
  end.

Definition tick (thread_id : pystr) (st : PollState) : aio PollState :=
  ITree.trigger (AwaitSleep 1) ;;
  run <- ITree.trigger (AwaitRunsGet thread_id (run_id (ps_run st))) ;;
  let status_count := ps_count st + 1 in
  last_message_id <- fetch_and_print_new_agent_response thread_id (ps_last st) ;;
  (if status_count mod 10 =? 0
   then log_with_timestamp (LogRunning (status run) status_count)
   else print (lit "Run status: " ++ status run)) ;;
  Ret {| ps_run := run; ps_last := last_message_id; ps_count := status_count |}.

(** [while run.status in ("queued", "in_progress"): ...] *)
Definition poll (thread_id : pystr) : PollState -> aio PollState :=
  ITree.iter (fun st =>
    if active (status (ps_run st))
    then st' <- tick thread_id st ;; Ret (inl st')
    else Ret (inr st)).

(** Lines 181-198 of [main]: what follows the loop. *)
Definition finish (thread_id agent_id : pystr) (run : ThreadRun) : aio unit :=
  log_with_timestamp (LogFinished (status run) (run_id run)) ;;
  (if PyStr.eqb (status run) (lit "failed")
   then log_with_timestamp (LogFailed (last_error run))
   else Ret tt) ;;
  log_with_timestamp LogFetchingFinal ;;
  final_message <- ITree.trigger (AwaitGetLastMessageByRole thread_id) ;;
  (match final_message with
   | Some m =>
       log_with_timestamp LogCreatingSummary ;;
       create_research_summary (Some m) default_filepath
   | None => Ret tt
   end) ;;
  ITree.trigger (AwaitDeleteAgent agent_id) ;;
  log_with_timestamp LogAgentDeleted.

(** Lines 160-198 of [main]. *)
Definition poll_and_summarize (thread_id agent_id : pystr) : aio unit :=
  run0 <- ITree.trigger (AwaitRunsCreate thread_id agent_id) ;;
  st <- poll thread_id {| ps_run := run0; ps_last := None; ps_count := 0 |} ;;
  finish thread_id agent_id (ps_run st).

(** [main], lines 105-198: the tool is built from
    [AZURE_BING_CONNECTION_ID] (116-119, both variables are read before
    the constructor is called), and line 120 reads the name of the model
    once more for its log line. *)
Definition main : aio unit :=
  log_with_timestamp LogAsyncStart ;;
  _ <- ITree.trigger (EnvironAt "PROJECT_ENDPOINT") ;;
  log_with_timestamp LogClientReady ;;
  log_with_timestamp LogToolInit ;;
  conn_id <- ITree.trigger (EnvironAt "AZURE_BING_CONNECTION_ID") ;;
  deep_research_model <- ITree.trigger (EnvironAt "DEEP_RESEARCH_MODEL_DEPLOYMENT_NAME") ;;
  deep_research_tool <- ITree.trigger (NewDeepResearchTool conn_id deep_research_model) ;;
  deep_model <- ITree.trigger (EnvironAt "DEEP_RESEARCH_MODEL_DEPLOYMENT_NAME") ;;
  log_with_timestamp (LogToolReady deep_model) ;;
  model <- ITree.trigger (EnvironAt "MODEL_DEPLOYMENT_NAME") ;;
  agent <- ITree.trigger (AwaitCreateAgent model deep_research_tool) ;;
  log_with_timestamp (LogAgentCreated agent) ;;
  thread <- ITree.trigger AwaitThreadsCreate ;;
  log_with_timestamp (LogThreadCreated thread) ;;
  message <- ITree.trigger (AwaitMessagesCreate thread) ;;
  log_with_timestamp (LogMessageCreated message) ;;
  log_with_timestamp LogProcessingStarts ;;
  poll_and_summarize thread agent.

(** What each event does to the world. *)
Definition perform {T} (e : aioE T) : M T :=
  match e in aioE T return M T with
  | LogWithTimestamp m => Prim.log_with_timestamp m
  | Print s => Prim.print s
  | EnvironAt name => Prim.environ_at name
  | OpenW path => Prim.open_w path
  | FpWrite path s => Prim.fp_write path s
  | AwaitSleep secs => Prim.sleep secs
  | AwaitRunsGet tid rid => Prim.runs_get tid rid
  | AwaitGetLastMessageByRole tid => Prim.get_last_message_by_role tid
  | NewDeepResearchTool cid model => Prim.DeepResearchTool_init cid model
  | AwaitCreateAgent model tools => Prim.create_agent model tools
  | AwaitThreadsCreate => Prim.threads_create
  | AwaitMessagesCreate tid => Prim.messages_create tid
  | AwaitRunsCreate tid aid => Prim.runs_create tid aid
  | AwaitDeleteAgent aid => Prim.delete_agent aid
  end.

(** [asyncio.run(coro)] with the one task [coro]: the event loop resumes
    the task after every event until it returns or raises.  [steps]
    bounds the number of resumptions; [None] when they do not suffice. *)
Fixpoint run {A} (steps : nat) (coro : aio A) (w : World) : option (Outcome A) :=
  match steps with
  | 0 => None
  | S steps' =>
      match observe coro with
      | RetF a => Some (Ok a w)
      | TauF coro' => run steps' coro' w
      | VisF e k =>
          match perform e w with
          | Ok x w' => run steps' (k x) w'
          | Raise ex w' => Some (Raise ex w')
          end
      end
  end.

(** The task run to its end. *)
Definition completes {A} (coro : aio A) (w : World) (o : Outcome A) : Prop :=
  exists steps, run steps coro w = Some o.

End AsyncScript.

(* ===================================================================== *)
(** ** Vocabulary of the statements *)
(* ===================================================================== *)

(** The world after the process has done [evs]. *)
Definition emits (evs : list Event) (w : World) : World :=
  set_trace (w_trace w ++ evs) w.

(** The console lines of the citations of a streamed message. *)
Definition citation_events (anns : list UrlCitation) : list Event :=
  map (fun a => OutPrint (citation_line (fmt_opt (title a)) (url a))) anns.

(** The text of the file at [path]. *)
Definition file_at (path : pystr) (w : World) : option pystr := assoc path (w_files w).

(** The entries [(title, url)] that the loop of the writer emits when it
    starts with [seen_urls]. *)
Fixpoint dedup (anns : list UrlCitation) (seen_urls : list pystr) : list (pystr * pystr) :=
  match anns with
  | [] => []
  | ann :: rest =>
      if negb (mem (url ann) seen_urls)
      then (or_else (title ann) (url ann), url ann) :: dedup rest (url ann :: seen_urls)
      else dedup rest seen_urls
  end.

Definition render_references (entries : list (pystr * pystr)) : pystr :=
  List.concat (map (fun e => reference_item (fst e) (snd e)) entries).

(** The position of the first [u] in [l] ([length l] when there is none). *)
Fixpoint index_of (u : pystr) (l : list pystr) : nat :=
  match l with
  | [] => 0
  | x :: l' => if PyStr.eqb x u then 0 else S (index_of u l')
  end.

(** The body the writer computes from the text segments. *)
Definition summary_body (m : ThreadMessage) : pystr :=
  join (nl ++ nl) (map strip (text_messages m)).

(** The text that the writer leaves in the file. *)
Definition summary_text (m : ThreadMessage) : pystr :=
  summary_body m ++
  match url_citation_annotations m with
  | [] => []
  | anns => references_heading ++ render_references (dedup anns [])
  end.

(** [n] passes through the loop body, one after the other. *)
Fixpoint ticks (n : nat) (thread_id : pystr) (st : PollState) : M PollState :=
  match n with
  | 0 => ret st
  | S n' => bind (SyncScript.tick thread_id st) (ticks n' thread_id)
  end.

(** The line that ends tick number [k], in which [run] was fetched. *)
Definition heartbeat_line (k : nat) (run : ThreadRun) : Event :=
  OutLog (LogRunning (status run) k).
Definition plain_status_line (run : ThreadRun) : Event :=
  OutPrint (lit "Run status: " ++ status run).

Definition tick_line (k : nat) (run : ThreadRun) : Event :=
  if k mod 10 =? 0 then heartbeat_line k run else plain_status_line run.

(** The rest of a tick once [runs.get] has answered [run]: the detector,
    then the line of the tick. *)
Definition after_fetch (tid : pystr) (st : PollState) (run : ThreadRun) : M PollState :=
  bind (SyncScript.fetch_and_print_new_agent_response tid (ps_last st)) (fun last =>
  bind (emit (tick_line (ps_count st + 1) run)) (fun _ =>
  ret {| ps_run := run; ps_last := last; ps_count := ps_count st + 1 |})).

(** The events of tick number [k]: they start with the sleep and end
    with the heartbeat line when [k] is a multiple of 10, with the plain
    status line when it is not. *)
Definition tick_shape (kr : nat * ThreadRun) (chunk : list Event) : Prop :=
  exists (mid : list Event) (line : Event),
    chunk = CallSleep 1 :: mid ++ [line] /\
    (fst kr mod 10 = 0 -> line = heartbeat_line (fst kr) (snd kr)) /\
    (fst kr mod 10 <> 0 -> line = plain_status_line (snd kr)).

(** The tick numbers of the heartbeat lines among the events [evs]. *)
Fixpoint heartbeat_ticks (evs : list Event) : list nat :=
  match evs with
  | [] => []
  | OutLog (LogRunning _ k) :: evs' => k :: heartbeat_ticks evs'
  | _ :: evs' => heartbeat_ticks evs'
  end.

Definition console (evs : list Event) : list Event :=
  filter (fun e => match e with OutLog _ | OutPrint _ => true | _ => false end) evs.

Definition collaborator_calls (evs : list Event) : list Event :=
  filter (fun e => match e with OutLog _ | OutPrint _ => false | _ => true end) evs.

(** A poll-loop event: a sleep, a status fetch, a message fetch, or a
    per-tick status or heartbeat line. *)
Definition tick_event (e : Event) : bool :=
  match e with
  | CallSleep _ | CallRunsGet _ _ | CallGetLastMessage _ => true
  | OutLog (LogRunning _ _) => true
  | OutPrint s => starts_with (lit "Run status: ") s
  | _ => false
  end.

(** The asynchronous coroutine [coro], run by the event loop, ends the way
    the synchronous function [f] does, in every world. *)
Definition agree {A} (coro : AsyncScript.aio A) (f : M A) : Prop :=
  forall w, AsyncScript.completes coro w (f w).

(** Both scripts end in [o] from [w]. *)
Definition both {A} (f : M A) (coro : AsyncScript.aio A) (w : World) (o : Outcome A) : Prop :=
  f w = o /\ AsyncScript.completes coro w o.

(** The number of status fetches among the events [evs]. *)
Fixpoint count_fetches (evs : list Event) : nat :=
  match evs with
  | [] => 0
  | CallRunsGet _ _ :: evs' => S (count_fetches evs')
  | _ :: evs' => count_fetches evs'
  end.

(** Nothing of the loop follows a status fetch whose answer is not
    active; [answers] are the answers to the fetches of [evs], in order. *)
Definition quiet_after_terminal (answers : list ThreadRun) (evs : list Event) : Prop :=
  forall before tid rid after r,
    evs = before ++ CallRunsGet tid rid :: after ->
    nth_error answers (count_fetches before) = Some r ->
    active (status r) = false ->
    Forall (fun e => tick_event e = false) after.

(** What the script logs between the loop and the fetch of the final
    message. *)
Definition finish_prelude (run : ThreadRun) : list Event :=
  [OutLog (LogFinished (status run) (run_id run))]
  ++ (if PyStr.eqb (status run) (lit "failed") then [OutLog (LogFailed (last_error run))] else [])
  ++ [OutLog LogFetchingFinal].

(** The title of the first citation of [u] in [anns]. *)
Fixpoint first_title (u : pystr) (anns : list UrlCitation) : option (option pystr) :=
  match anns with
  | [] => None
  | a :: rest => if PyStr.eqb (url a) u then Some (title a) else first_title u rest
  end.

(** *** Sample data *)

Definition sample_run (st : string) : ThreadRun :=
  {| run_id := lit "run_1"; status := lit st; last_error := None |}.

Definition failed_run : ThreadRun :=
  {| run_id := lit "run_1"; status := lit "failed"; last_error := Some (lit "server_error") |}.

(** The pieces of [s] between the occurrences of [sep]. *)
Fixpoint split_on (sep : char) (s : pystr) : list pystr :=
  match s with
  | [] => [[]]
  | c :: rest =>
      if N.eqb c sep then [] :: split_on sep rest
      else match split_on sep rest with
           | [] => [[c]]
           | piece :: pieces => (c :: piece) :: pieces
           end
  end.

(** A check of connection ids for the sample worlds: the id has the shape
    [/subscriptions/_/resourceGroups/_/providers/_/accounts/_/projects/_/connections/_]
    with no empty part. *)
Definition sample_accepts (cid model : pystr) : bool :=
  let filled (x : pystr) := match x with [] => false | _ :: _ => true end in
  match split_on 47%N cid with
  | [e; k1; sub; k2; rg; k3; prov; k4; acct; k5; proj; k6; name] =>
      PyStr.eqb e [] && PyStr.eqb k1 (lit "subscriptions") && filled sub
      && PyStr.eqb k2 (lit "resourceGroups") && filled rg
      && PyStr.eqb k3 (lit "providers") && filled prov
      && PyStr.eqb k4 (lit "accounts") && filled acct
      && PyStr.eqb k5 (lit "projects") && filled proj
      && PyStr.eqb k6 (lit "connections") && filled name
  | _ => false
  end.

Definition sample_remote_with (run0 : ThreadRun) : Remote :=
  {| environ := [(lit "PROJECT_ENDPOINT", lit "https://p.example");
                 (lit "BING_CONNECTION_ID", lit "conn_1");
                 (lit "AZURE_BING_CONNECTION_ID", lit "conn_1");
                 (lit "DEEP_RESEARCH_MODEL_DEPLOYMENT_NAME", lit "o3-deep-research");
                 (lit "MODEL_DEPLOYMENT_NAME", lit "gpt-4o")];
     connections := Some [];
     tool_accepts := sample_accepts;
     new_agent := Some (lit "agent_1");
     new_thread := Some (lit "thread_1");
     new_message := Some (lit "msg_0");
     new_run := run0 |}.

Definition sample_world_with (run0 : ThreadRun) (runs : list ThreadRun)
    (msgs : list (option ThreadMessage)) : World :=
  {| w_remote := sample_remote_with run0; w_runs := runs; w_msgs := msgs;
     w_trace := []; w_files := [] |}.

(** A world in which the run is created [queued]. *)
Definition sample_world (runs : list ThreadRun) (msgs : list (option ThreadMessage)) : World :=
  sample_world_with (sample_run "queued") runs msgs.

(** An agent message with one citation that has no title. *)
Definition untitled_message : ThreadMessage :=
  {| msg_id := lit "msg_1";
     text_messages := [lit "Findings."];
     url_citation_annotations := [{| url := lit "https://a.example"; title := None |}] |}.

(** An agent message with one citation whose title is the empty string. *)
Definition empty_title_message : ThreadMessage :=
  {| msg_id := lit "msg_1";
     text_messages := [lit "Findings."];
     url_citation_annotations := [{| url := lit "https://a.example"; title := Some [] |}] |}.

(** An agent message whose text has a heading of its own and no citation. *)
Definition heading_in_text_message : ThreadMessage :=
  {| msg_id := lit "msg_1";
     text_messages := [lit "## References"];
     url_citation_annotations := [] |}.

(** An agent message with a blank segment and a segment with two blank
    lines inside. *)
Definition loose_text_message : ThreadMessage :=
  {| msg_id := lit "msg_1";
     text_messages := [lit " "; lit "a" ++ nl ++ nl ++ nl ++ lit "b"];
     url_citation_annotations := [] |}.

(** An agent message with two paragraphs and a citation given twice. *)
Definition tidy_message : ThreadMessage :=
  {| msg_id := lit "msg_1";
     text_messages := [lit "  First. "; lit "Second." ++ nl];
     url_citation_annotations :=
       [{| url := lit "https://a.example"; title := Some (lit "A") |};
        {| url := lit "https://a.example"; title := Some (lit "Again") |}] |}.

(* ===================================================================== *)
(** ** Facts about strings *)
(* ===================================================================== *)

(** *** Vocabulary of the further properties *)

(** The variable [name] of [os.environ]. *)
Definition env_var (name : string) (w : World) : option pystr :=
  assoc (lit name) (environ (w_remote w)).

(** Kinds of events. *)
Definition is_console (e : Event) : bool :=
  match e with OutLog _ | OutPrint _ => true | _ => false end.
Definition is_sleep (e : Event) : bool :=
  match e with CallSleep _ => true | _ => false end.
Definition is_message_fetch (e : Event) : bool :=
  match e with CallGetLastMessage _ => true | _ => false end.
Definition is_delete (e : Event) : bool :=
  match e with CallDeleteAgent _ => true | _ => false end.
Definition is_create (e : Event) : bool :=
  match e with
  | CallCreateAgent _ _ | CallThreadsCreate | CallMessagesCreate _ | CallRunsCreate _ _ => true
  | _ => false
  end.
Definition is_new_response (e : Event) : bool :=
  match e with OutLog LogNewResponse => true | _ => false end.

(** How many of the events [evs] are of the kind [p]. *)
Definition count (p : Event -> bool) (evs : list Event) : nat :=
  List.length (filter p evs).

(** What the detector puts on the console for a new message. *)
Definition response_block (r : ThreadMessage) : list Event :=
  [OutLog LogNewResponse; OutPrint (nl ++ lit "Agent response:");
   OutPrint (join nl (text_messages r))]
  ++ citation_events (url_citation_annotations r).

(** The lines that end the ticks number [c + 1], [c + 2], ... in which
    the runs [rs] were fetched. *)
Definition tick_lines (c : nat) (rs : list ThreadRun) : list Event :=
  map (fun kr => tick_line (fst kr) (snd kr)) (combine (seq (c + 1) (List.length rs)) rs).

(** What the detector decides when its fetch is answered [m] and the id
    seen last is [last]: the id to remember, and what goes on the
    console. *)
Definition detect (last : option pystr) (m : option ThreadMessage)
  : option pystr * list Event :=
  match m with
  | None => (last, [])
  | Some r =>
      if id_eqb (msg_id r) last then (last, [])
      else (Some (msg_id r), response_block r)
  end.

(** An event that the polling loop can produce. *)
Definition loop_event (e : Event) : bool :=
  match e with
  | CallSleep _ | CallRunsGet _ _ | CallGetLastMessage _ | OutLog _ | OutPrint _ => true
  | _ => false
  end.

(** The connection named [name]. *)
Definition named (name : pystr) (c : Connection) : bool := PyStr.eqb (conn_name c) name.

(** [BING_CONNECTION_ID] is not set, or is set to whitespace only. *)
Definition connection_id_unset (w : World) : Prop :=
  env_var "BING_CONNECTION_ID" w = None \/
  exists c, env_var "BING_CONNECTION_ID" w = Some c /\ strip c = [].

(** The outcome [o] with [tr] put before what its world has on the trace. *)
Definition push {A} (tr : list Event) (o : Outcome A) : Outcome A :=
  match o with
  | Ok a w => Ok a (set_trace (tr ++ w_trace w) w)
  | Raise e w => Raise e (set_trace (tr ++ w_trace w) w)
  end.

(** [f] does not look at what the process has done so far. *)
Definition history_free {A} (f : M A) : Prop :=
  forall w tr, f (set_trace tr w) = push tr (f (set_trace [] w)).

(** Lines 121-192 of the synchronous script and 129-198 of [main] in the
    asynchronous one: create the agent with the tool, the thread and the
    user message, then the run, and go on with [poll_and_summarize]. *)
Definition create_and_run (model : pystr) (tools : DeepResearchTool) : M unit :=
  (agent <- Prim.create_agent model tools ;;
   Prim.log_with_timestamp (LogAgentCreated agent) ;;
   thread <- Prim.threads_create ;;
   Prim.log_with_timestamp (LogThreadCreated thread) ;;
   message <- Prim.messages_create thread ;;
   Prim.log_with_timestamp (LogMessageCreated message) ;;
   Prim.log_with_timestamp LogProcessingStarts ;;
   SyncScript.poll_and_summarize thread agent)%py.

(** What [AsyncScript.main] does to the world, event by event, from its
    first line to the creation of the agent; from there on it does what
    [create_and_run] does. *)
Definition async_main_effect : M unit :=
  (Prim.log_with_timestamp LogAsyncStart ;;
   _ <- Prim.environ_at "PROJECT_ENDPOINT" ;;
   Prim.log_with_timestamp LogClientReady ;;
   Prim.log_with_timestamp LogToolInit ;;
   conn_id <- Prim.environ_at "AZURE_BING_CONNECTION_ID" ;;
   deep_research_model <- Prim.environ_at "DEEP_RESEARCH_MODEL_DEPLOYMENT_NAME" ;;
   deep_research_tool <- Prim.DeepResearchTool_init conn_id deep_research_model ;;
   deep_model <- Prim.environ_at "DEEP_RESEARCH_MODEL_DEPLOYMENT_NAME" ;;
   Prim.log_with_timestamp (LogToolReady deep_model) ;;
   model <- Prim.environ_at "MODEL_DEPLOYMENT_NAME" ;;
   create_and_run model deep_research_tool)%py.

(** The events of creating the agent [a] with the model and the tool, the
    thread [t] and the message [m], in both scripts. *)
Definition creation_events (model : pystr) (tools : DeepResearchTool) (a t m : pystr)
    : list Event :=
  [CallCreateAgent model tools; OutLog (LogAgentCreated a);
   CallThreadsCreate; OutLog (LogThreadCreated t);
   CallMessagesCreate t; OutLog (LogMessageCreated m);
   OutLog LogProcessingStarts].

(** The three lines that the asynchronous script logs before it builds
    the tool. *)
Definition async_start_lines : list Event :=
  [OutLog LogAsyncStart; OutLog LogClientReady; OutLog LogToolInit].

(** [s'] is [s] with whitespace before and after. *)
Definition padded (s s' : pystr) : Prop :=
  exists pre post, blank pre = true /\ blank post = true /\ s' = pre ++ s ++ post.

(** An agent message that is there from the first tick on. *)
Definition steady_message : ThreadMessage :=
  {| msg_id := lit "msg_1";
     text_messages := [lit "Draft."];
     url_citation_annotations := [] |}.

(** The same message with its text changed. *)
Definition steady_message_edited : ThreadMessage :=
  {| msg_id := lit "msg_1";
     text_messages := [lit "Final."];
     url_citation_annotations := [] |}.

(** A remote with the environment [env] and the connections [cs]. *)
Definition remote_with (env : list (pystr * pystr)) (cs : option (list Connection)) : Remote :=
  {| environ := env; connections := cs; tool_accepts := sample_accepts;
     new_agent := Some (lit "agent_1"); new_thread := Some (lit "thread_1");
     new_message := Some (lit "msg_0"); new_run := sample_run "completed" |}.

Definition world_with (env : list (pystr * pystr)) (cs : option (list Connection)) : World :=
  {| w_remote := remote_with env cs; w_runs := []; w_msgs := [None];
     w_trace := []; w_files := [] |}.

(** A connection id of the shape that the sample check accepts. *)
Definition sample_connection_id : pystr :=
  lit "/subscriptions/00000000-0000-0000-0000-000000000000/resourceGroups/rg-research/providers/Microsoft.CognitiveServices/accounts/research/projects/research/connections/bingforo3deepresearch".

(** The environment with every variable that the two scripts read, and
    the same connection id for both. *)
Definition configured_environ : list (pystr * pystr) :=
  [(lit "PROJECT_ENDPOINT", lit "https://research.services.ai.azure.com/api/projects/research");
   (lit "BING_CONNECTION_ID", sample_connection_id);
   (lit "AZURE_BING_CONNECTION_ID", sample_connection_id);
   (lit "DEEP_RESEARCH_MODEL_DEPLOYMENT_NAME", lit "o3-deep-research");
   (lit "MODEL_DEPLOYMENT_NAME", lit "gpt-4o")].

(** A world with that environment, in which the run is created [queued]
    and the service answers [runs] and [msgs]. *)
Definition configured_world (runs : list ThreadRun) (msgs : list (option ThreadMessage))
    : World :=
  {| w_remote := {| environ := configured_environ; connections := Some [];
                    tool_accepts := sample_accepts;
                    new_agent := Some (lit "agent_1");
                    new_thread := Some (lit "thread_1");
                    new_message := Some (lit "msg_0");
                    new_run := sample_run "queued" |};
     w_runs := runs; w_msgs := msgs; w_trace := []; w_files := [] |}.

(** The tool that both scripts build in that world. *)
Definition sample_tool : DeepResearchTool :=
  {| bing_grounding_connection_id := sample_connection_id;
     deep_research_model := lit "o3-deep-research" |}.

Arguments lit : simpl never.
Arguments Nat.modulo : simpl never.

Module PyStrFacts.

Lemma eqb_eq (a b : pystr) : PyStr.eqb a b = true <-> a = b.
Proof.
  revert b. induction a as [|x a IH]; intros [|y b]; simpl; split; intro H;
    try reflexivity; try discriminate.
  - apply andb_true_iff in H. destruct H as [H1 H2].
    apply N.eqb_eq in H1. apply IH in H2. congruence.
  - inversion H; subst. rewrite N.eqb_refl. simpl. apply IH. reflexivity.
Qed.

Lemma eqb_refl (a : pystr) : PyStr.eqb a a = true.
Proof. apply eqb_eq. reflexivity. Qed.

Lemma eqb_neq (a b : pystr) : PyStr.eqb a b = false <-> a <> b.
Proof.
  split.
  - intros H E. apply eqb_eq in E. congruence.
  - intros H. destruct (PyStr.eqb a b) eqn:E; [|reflexivity].
    apply eqb_eq in E. contradiction.
Qed.

Lemma id_eqb_true (a : pystr) (b : option pystr) : id_eqb a b = true <-> b = Some a.
Proof.
  destruct b as [b|]; simpl.
  - rewrite eqb_eq. split; congruence.
  - split; discriminate.
Qed.

Lemma id_eqb_false (a : pystr) (b : option pystr) : id_eqb a b = false <-> b <> Some a.
Proof.
  split.
  - intros H E. apply id_eqb_true in E. congruence.
  - intros H. destruct (id_eqb a b) eqn:E; [|reflexivity].
    apply id_eqb_true in E. contradiction.
Qed.

Lemma mem_In (u : pystr) (seen : list pystr) : mem u seen = true <-> In u seen.
Proof.
  unfold mem. rewrite existsb_exists. split.
  - intros [x [Hx E]]. apply eqb_eq in E. subst. exact Hx.
  - intros H. exists u. split; [exact H | apply eqb_refl].
Qed.

Lemma mem_not_In (u : pystr) (seen : list pystr) : mem u seen = false <-> ~ In u seen.
Proof.
  split.
  - intros H E. apply mem_In in E. congruence.
  - intros H. destruct (mem u seen) eqn:E; [|reflexivity].
    apply mem_In in E. contradiction.
Qed.

(** [sep.join] with a newline as separator: the first part, then every
    further part with one newline character before it. *)
Lemma join_newline (p : pystr) (rest : list pystr) :
  join nl (p :: rest) = p ++ List.concat (map (fun s => 10%N :: s) rest).
Proof.
  revert p. induction rest as [|q rest IH]; intros p.
  - simpl. rewrite app_nil_r. reflexivity.
  - change (join nl (p :: q :: rest)) with (p ++ nl ++ join nl (q :: rest)).
    rewrite IH. reflexivity.
Qed.

End PyStrFacts.

(* ===================================================================== *)
(** ** Facts about the event loop *)
(* ===================================================================== *)

Module EventLoop.
Import AsyncScript.

Lemma run_observe {A} (n : nat) (t1 t2 : aio A) (w : World) :
  observe t1 = observe t2 -> run n t1 w = run n t2 w.
Proof.
  intros H. destruct n; simpl; [reflexivity|]. rewrite H. reflexivity.
Qed.

(** More resumptions than needed do no harm. *)
Lemma run_mono {A} (n : nat) :
  forall (t : aio A) (w : World) (o : Outcome A) (m : nat),
    run n t w = Some o -> n <= m -> run m t w = Some o.
Proof.
  induction n as [|n IH]; intros t w o m H Hle; simpl in H; [discriminate|].
  destruct m as [|m]; [lia|]. simpl.
  destruct (observe t) as [a|t'|X e k].
  - exact H.
  - apply IH; [exact H | lia].
  - destruct (perform e w) as [x w'|ex w'].
    + apply IH; [exact H | lia].
    + exact H.
Qed.

Lemma completes_unique {A} (t : aio A) (w : World) (o1 o2 : Outcome A) :
  completes t w o1 -> completes t w o2 -> o1 = o2.
Proof.
  intros [n1 H1] [n2 H2].
  apply (run_mono _ _ _ _ (n1 + n2)) in H1; [|lia].
  apply (run_mono _ _ _ _ (n1 + n2)) in H2; [|lia].
  congruence.
Qed.

Lemma run_bind {A B} (n : nat) :
  forall (t : aio A) (k : A -> aio B) (w : World) (a : A) (w' : World)
         (m : nat) (o : Outcome B),
    run n t w = Some (Ok a w') ->
    run m (k a) w' = Some o ->
    run (n + m) (ITree.bind t k) w = Some o.
Proof.
  induction n as [|n IH]; intros t k w a w' m o Ht Hk; simpl in Ht; [discriminate|].
  rewrite (run_observe _ _ _ _ (Shallow.observe_bind t k)).
  destruct (observe t) as [a0|t'|X e h] eqn:Eo.
  - inversion Ht; subst. apply (run_mono _ _ _ _ _ Hk). lia.
  - simpl. apply IH with (a := a) (w' := w'); assumption.
  - simpl. destruct (perform e w) as [x w1|ex w1]; [|discriminate].
    apply IH with (a := a) (w' := w'); assumption.
Qed.

Lemma run_bind_raise {A B} (n : nat) :
  forall (t : aio A) (k : A -> aio B) (w : World) (ex : exn) (w' : World),
    run n t w = Some (Raise ex w') ->
    run n (ITree.bind t k) w = Some (Raise ex w').
Proof.
  induction n as [|n IH]; intros t k w ex w' Ht; simpl in Ht; [discriminate|].
  rewrite (run_observe _ _ _ _ (Shallow.observe_bind t k)).
  destruct (observe t) as [a0|t'|X e h] eqn:Eo.
  - discriminate.
  - simpl. apply IH. exact Ht.
  - simpl. destruct (perform e w) as [x w1|ex1 w1].
    + apply IH. exact Ht.
    + inversion Ht; subst. reflexivity.
Qed.

Lemma agree_ret {A} (a : A) : agree (Ret a) (ret a).
Proof. intros w. exists 1. reflexivity. Qed.

Lemma agree_trigger {T} (e : aioE T) : agree (ITree.trigger e) (perform e).
Proof.
  intros w. exists 2. simpl. destruct (perform e w); reflexivity.
Qed.

Lemma agree_bind {A B} (t : aio A) (f : M A) (k : A -> aio B) (g : A -> M B) :
  agree t f -> (forall a, agree (k a) (g a)) -> agree (ITree.bind t k) (bind f g).
Proof.
  intros Ht Hk w. unfold bind. destruct (Ht w) as [n Hn].
  destruct (f w) as [a w'|ex w'].
  - destruct (Hk a w') as [m Hm]. exists (n + m).
    apply run_bind with (a := a) (w' := w'); assumption.
  - exists n. apply run_bind_raise. exact Hn.
Qed.

Lemma completes_bind {A B} (t : aio A) (k : A -> aio B) (w : World) (a : A)
    (w' : World) (o : Outcome B) :
  completes t w (Ok a w') -> completes (k a) w' o -> completes (ITree.bind t k) w o.
Proof.
  intros [n Hn] [m Hm]. exists (n + m).
  apply run_bind with (a := a) (w' := w'); assumption.
Qed.

Lemma completes_bind_raise {A B} (t : aio A) (k : A -> aio B) (w : World)
    (ex : exn) (w' : World) :
  completes t w (Raise ex w') -> completes (ITree.bind t k) w (Raise ex w').
Proof.
  intros [n Hn]. exists n. apply run_bind_raise. exact Hn.
Qed.

(** One more turn of an [iter] loop. *)
Lemma completes_iter {I R} (body : I -> aio (I + R)) (i : I) (w : World)
    (o : Outcome R) :
  completes (ITree.bind (body i)
               (fun lr => match lr with
                          | inl l => Tau (ITree.iter body l)
                          | inr r => Ret r
                          end)) w o ->
  completes (ITree.iter body i) w o.
Proof.
  intros [n Hn]. exists n. rewrite <- Hn.
  apply run_observe.
  apply (Shallow.observing_observe (Shallow.unfold_aloop_ body i)).
Qed.

Lemma completes_tau {A} (t : aio A) (w : World) (o : Outcome A) :
  completes t w o -> completes (Tau t) w o.
Proof. intros [n Hn]. exists (S n). exact Hn. Qed.

End EventLoop.

(* ===================================================================== *)
(** ** Facts about the world *)
(* ===================================================================== *)

Module WorldFacts.

Lemma emits_emits (a b : list Event) (w : World) :
  emits b (emits a w) = emits (a ++ b) w.
Proof. unfold emits, set_trace. simpl. rewrite app_assoc. reflexivity. Qed.

Lemma emits_nil (w : World) : emits [] w = w.
Proof. destruct w. unfold emits, set_trace. simpl. rewrite app_nil_r. reflexivity. Qed.

Lemma emit_eq (e : Event) (w : World) : emit e w = Ok tt (emits [e] w).
Proof. reflexivity. Qed.

Lemma assoc_put (path c : pystr) (fs : list (pystr * pystr)) :
  assoc path ((path, c) :: fs) = Some c.
Proof. simpl. rewrite PyStrFacts.eqb_refl. reflexivity. Qed.

Lemma unassoc_idem (path : pystr) (fs : list (pystr * pystr)) :
  unassoc path (unassoc path fs) = unassoc path fs.
Proof.
  induction fs as [|[p c] fs IH]; simpl; [reflexivity|].
  destruct (PyStr.eqb p path) eqn:E; [exact IH|].
  simpl. rewrite E. rewrite IH. reflexivity.
Qed.

(** Writing [s] to the file open at [path], whose text so far is [c]. *)
Lemma fp_write_after (path c s : pystr) (fs : list (pystr * pystr)) (w : World) :
  w_files w = (path, c) :: unassoc path fs ->
  Prim.fp_write path s w = Ok tt (set_files ((path, c ++ s) :: unassoc path fs) w).
Proof.
  intros H. unfold Prim.fp_write. rewrite H. rewrite assoc_put.
  simpl. rewrite PyStrFacts.eqb_refl. rewrite unassoc_idem. reflexivity.
Qed.

End WorldFacts.

(* ===================================================================== *)
(** ** Facts about deep-research-sync.py *)
(* ===================================================================== *)

Module SyncFacts.
Import SyncScript WorldFacts.

Lemma print_citations_spec (anns : list UrlCitation) (w : World) :
  print_citations anns w = Ok tt (emits (citation_events anns) w).
Proof.
  revert w. induction anns as [|a anns IH]; intros w; simpl.
  - unfold ret. rewrite emits_nil. reflexivity.
  - unfold bind, Prim.print. rewrite emit_eq. rewrite IH.
    rewrite emits_emits. reflexivity.
Qed.

(** The detector when the fetch is answered [m]. *)
Lemma fetch_answered (tid : pystr) (last : option pystr) (w : World)
    (m : option ThreadMessage) (ms : list (option ThreadMessage)) :
  w_msgs w = m :: ms ->
  fetch_and_print_new_agent_response tid last w =
  match m with
  | None => Ok last (set_msgs ms (emits [CallGetLastMessage tid] w))
  | Some r =>
      if id_eqb (msg_id r) last
      then Ok last (set_msgs ms (emits [CallGetLastMessage tid] w))
      else Ok (Some (msg_id r))
             (set_msgs ms
                (emits ([CallGetLastMessage tid; OutLog LogNewResponse;
                         OutPrint (nl ++ lit "Agent response:");
                         OutPrint (join nl (text_messages r))]
                        ++ citation_events (url_citation_annotations r)) w))
  end.
Proof.
  intros H. unfold fetch_and_print_new_agent_response, Prim.get_last_message_by_role.
  unfold bind at 1 2. rewrite emit_eq. simpl. rewrite H.
  destruct m as [r|]; [|reflexivity].
  destruct (id_eqb (msg_id r) last); [reflexivity|].
  unfold bind, Prim.log_with_timestamp, Prim.print. rewrite !emit_eq.
  rewrite print_citations_spec. unfold ret.
  unfold emits, set_msgs, set_trace. simpl.
  rewrite <- !app_assoc. reflexivity.
Qed.

(** The detector when the service has no answer left. *)
Lemma fetch_unanswered (tid : pystr) (last : option pystr) (w : World) :
  w_msgs w = [] ->
  fetch_and_print_new_agent_response tid last w =
  Raise RemoteError (emits [CallGetLastMessage tid] w).
Proof.
  intros H. unfold fetch_and_print_new_agent_response, Prim.get_last_message_by_role.
  unfold bind at 1 2. rewrite emit_eq. simpl. rewrite H. reflexivity.
Qed.

End SyncFacts.

Module PollFacts.
Import SyncScript WorldFacts SyncFacts.

Lemma tick_answered (tid : pystr) (st : PollState) (w : World)
    (r : ThreadRun) (rs : list ThreadRun) :
  w_runs w = r :: rs ->
  tick tid st w =
  after_fetch tid st r
    (set_runs rs (emits [CallSleep 1; CallRunsGet tid (run_id (ps_run st))] w)).
Proof.
  intros H. unfold tick, after_fetch, Prim.sleep, Prim.runs_get.
  unfold bind at 1 2 3. rewrite !emit_eq. cbn [fst snd]. simpl w_runs. rewrite H.
  rewrite emits_emits. cbn [app].
  unfold bind. destruct (fetch_and_print_new_agent_response _ _ _) as [l w1|e w1];
    [|reflexivity].
  unfold tick_line. destruct ((ps_count st + 1) mod 10 =? 0); reflexivity.
Qed.

Lemma tick_unanswered (tid : pystr) (st : PollState) (w : World) :
  w_runs w = [] ->
  tick tid st w =
  Raise RemoteError (emits [CallSleep 1; CallRunsGet tid (run_id (ps_run st))] w).
Proof.
  intros H. unfold tick, Prim.sleep, Prim.runs_get.
  unfold bind at 1 2 3. rewrite !emit_eq. cbn [fst snd]. simpl w_runs. rewrite H.
  rewrite emits_emits. reflexivity.
Qed.

(** The detector says nothing that looks like a heartbeat. *)
Lemma heartbeat_ticks_app (a b : list Event) :
  heartbeat_ticks (a ++ b) = heartbeat_ticks a ++ heartbeat_ticks b.
Proof.
  induction a as [|e a IH]; simpl; [reflexivity|].
  destruct e as [| | | | | | | | |m|]; try exact IH.
  destruct m; try exact IH. simpl. rewrite IH. reflexivity.
Qed.

Lemma heartbeat_ticks_citations (anns : list UrlCitation) :
  heartbeat_ticks (citation_events anns) = [].
Proof. induction anns as [|a anns IH]; simpl; [reflexivity | exact IH]. Qed.

(** What a pass that ends well has done. *)
Lemma tick_ok (tid : pystr) (st st' : PollState) (w w' : World) :
  tick tid st w = Ok st' w' ->
  exists r rs m ms det,
    w_runs w = r :: rs /\ w_msgs w = m :: ms /\
    w_runs w' = rs /\ w_msgs w' = ms /\
    w_files w' = w_files w /\ w_remote w' = w_remote w /\
    ps_run st' = r /\ ps_count st' = ps_count st + 1 /\
    heartbeat_ticks det = [] /\
    w_trace w' = w_trace w ++
      CallSleep 1 :: (CallRunsGet tid (run_id (ps_run st)) :: CallGetLastMessage tid :: det)
      ++ [tick_line (ps_count st + 1) r].
Proof.
  intros H. destruct (w_runs w) as [|r rs] eqn:Er.
  - rewrite (tick_unanswered tid st w Er) in H. discriminate.
  - rewrite (tick_answered tid st w r rs Er) in H. unfold after_fetch in H.
    set (w1 := set_runs rs (emits [CallSleep 1; CallRunsGet tid (run_id (ps_run st))] w)) in *.
    destruct (w_msgs w) as [|m ms] eqn:Em.
    + unfold bind in H. rewrite (fetch_unanswered tid (ps_last st) w1 Em) in H. discriminate.
    + assert (Em1 : w_msgs w1 = m :: ms) by exact Em.
      unfold bind in H. rewrite (fetch_answered tid (ps_last st) w1 m ms Em1) in H.
      exists r, rs, m, ms.
      destruct m as [msg|]; [destruct (id_eqb (msg_id msg) (ps_last st))|].
      * exists []. rewrite emit_eq in H. unfold ret in H. inversion H; subst; clear H.
        simpl. rewrite <- !app_assoc. simpl. repeat split; reflexivity.
      * exists ([OutLog LogNewResponse; OutPrint (nl ++ lit "Agent response:");
                 OutPrint (join nl (text_messages msg))]
                ++ citation_events (url_citation_annotations msg)).
        rewrite emit_eq in H. unfold ret in H. inversion H; subst; clear H.
        simpl. repeat rewrite <- app_assoc. simpl. repeat rewrite <- app_assoc.
        repeat split; try reflexivity.
        apply heartbeat_ticks_citations.
      * exists []. rewrite emit_eq in H. unfold ret in H. inversion H; subst; clear H.
        simpl. rewrite <- !app_assoc. simpl. repeat split; reflexivity.
Qed.

(** A pass ends well when both calls are answered. *)
Lemma tick_total (tid : pystr) (st : PollState) (w : World) :
  w_runs w <> [] -> w_msgs w <> [] -> exists st' w', tick tid st w = Ok st' w'.
Proof.
  intros Hr Hm. destruct (w_runs w) as [|r rs] eqn:Er; [contradiction|].
  destruct (w_msgs w) as [|m ms] eqn:Em; [contradiction|].
  rewrite (tick_answered tid st w r rs Er). unfold after_fetch, bind.
  set (w1 := set_runs rs (emits [CallSleep 1; CallRunsGet tid (run_id (ps_run st))] w)).
  assert (Em1 : w_msgs w1 = m :: ms) by exact Em.
  rewrite (fetch_answered tid (ps_last st) w1 m ms Em1).
  destruct m as [msg|]; [destruct (id_eqb (msg_id msg) (ps_last st))|];
    rewrite emit_eq; unfold ret; eauto.
Qed.

(** The equation of the [while] loop. *)
Lemma poll_unfold (tid : pystr) (st : PollState) (w : World) :
  poll tid st w =
  if active (status (ps_run st)) then bind (tick tid st) (poll tid) w else Ok st w.
Proof.
  unfold poll. destruct (w_runs w) as [|r rs] eqn:Er.
  - simpl. destruct (active (status (ps_run st))); [|reflexivity].
    unfold bind. rewrite (tick_unanswered tid st w Er). reflexivity.
  - simpl. destruct (active (status (ps_run st))); [|reflexivity].
    unfold bind. destruct (tick tid st w) as [st' w'|e w'] eqn:Et; [|reflexivity].
    apply tick_ok in Et. destruct Et as (r0 & rs0 & m & ms & det & E1 & _ & E2 & _).
    rewrite Er in E1. inversion E1; subst. reflexivity.
Qed.

(** The loop makes one pass per answer of [runs.get] up to the first
    answer that is not active, that one included. *)
Lemma poll_ticks (tid : pystr) (pre : list ThreadRun) :
  forall (st : PollState) (w : World) (r : ThreadRun) (rest : list ThreadRun),
    active (status (ps_run st)) = true ->
    w_runs w = pre ++ r :: rest ->
    Forall (fun x => active (status x) = true) pre ->
    active (status r) = false ->
    poll tid st w = ticks (S (List.length pre)) tid st w.
Proof.
  induction pre as [|p pre IH]; intros st w r rest Ha Hr Hpre Hterm.
  - rewrite poll_unfold, Ha. simpl. unfold bind.
    destruct (tick tid st w) as [st' w'|e w'] eqn:Et; [|reflexivity].
    apply tick_ok in Et. destruct Et as (r0 & rs0 & m & ms & det & E1 & _ & E2 & _ & _ & _ & E3 & _).
    simpl in Hr. rewrite Hr in E1. injection E1 as Hr0 Hrs0.
    rewrite poll_unfold. rewrite E3, <- Hr0, Hterm. reflexivity.
  - rewrite poll_unfold, Ha. simpl ticks. unfold bind at 1 2.
    destruct (tick tid st w) as [st' w'|e w'] eqn:Et; [|reflexivity].
    apply tick_ok in Et. destruct Et as (r0 & rs0 & m & ms & det & E1 & _ & E2 & _ & _ & _ & E3 & _).
    simpl in Hr. rewrite Hr in E1. injection E1 as Hr0 Hrs0.
    inversion Hpre as [|x l Hp Hpre']; subst x l.
    apply IH with (r := r) (rest := rest); try assumption.
    + rewrite E3, <- Hr0. exact Hp.
    + rewrite E2, <- Hrs0. reflexivity.
Qed.

Lemma last_nonempty {A} (l : list A) (x d d' : A) :
  last (x :: l) d = last (x :: l) d'.
Proof.
  revert x. induction l as [|y l IH]; intros x; [reflexivity|].
  change (last (y :: l) d = last (y :: l) d'). apply IH.
Qed.

(** What [n] passes that end well have done. *)
Lemma ticks_ok (tid : pystr) (n : nat) :
  forall (st st' : PollState) (w w' : World),
    ticks n tid st w = Ok st' w' ->
    exists rs chunks,
      w_runs w = rs ++ w_runs w' /\
      List.length rs = n /\
      ps_run st' = last rs (ps_run st) /\
      ps_count st' = ps_count st + n /\
      w_files w' = w_files w /\
      w_trace w' = w_trace w ++ List.concat chunks /\
      Forall2 tick_shape (combine (seq (ps_count st + 1) n) rs) chunks /\
      heartbeat_ticks (List.concat chunks) =
        filter (fun k => k mod 10 =? 0) (seq (ps_count st + 1) n).
Proof.
  induction n as [|n IH]; intros st st' w w' H.
  - simpl in H. unfold ret in H. inversion H; subst.
    exists [], []. simpl. rewrite app_nil_r.
    repeat split; try reflexivity; try lia. constructor.
  - simpl in H. unfold bind in H.
    destruct (tick tid st w) as [st1 w1|e w1] eqn:Et; [|discriminate].
    apply tick_ok in Et.
    destruct Et as (r & rs & m & ms & det & E1 & _ & E2 & _ & Ef & _ & Erun & Ec & Eh & Etr).
    apply IH in H.
    destruct H as (rs' & chunks & H1 & H2 & H3 & H4 & H5 & H6 & H7 & H8).
    exists (r :: rs'),
      ((CallSleep 1 :: (CallRunsGet tid (run_id (ps_run st)) :: CallGetLastMessage tid :: det)
        ++ [tick_line (ps_count st + 1) r]) :: chunks).
    rewrite Ec in *.
    replace (ps_count st + 1 + 1) with (S (ps_count st + 1)) in * by lia.
    repeat split.
    + rewrite E1. simpl. rewrite <- H1. rewrite E2. reflexivity.
    + simpl. rewrite H2. reflexivity.
    + rewrite H3, Erun. destruct rs' as [|x rs']; [reflexivity|].
      change (last (r :: x :: rs') (ps_run st)) with (last (x :: rs') (ps_run st)).
      apply last_nonempty.
    + lia.
    + congruence.
    + rewrite H6, Etr. simpl List.concat. simpl. repeat rewrite <- app_assoc.
      simpl. repeat rewrite <- app_assoc. reflexivity.
    + simpl. constructor; [|exact H7].
      exists (CallRunsGet tid (run_id (ps_run st)) :: CallGetLastMessage tid :: det),
             (tick_line (ps_count st + 1) r).
      simpl. split; [reflexivity|]. unfold tick_line. split; intros Hm.
      * rewrite Hm. reflexivity.
      * destruct ((ps_count st + 1) mod 10 =? 0) eqn:E; [|reflexivity].
        apply Nat.eqb_eq in E. contradiction.
    + simpl List.concat. simpl seq.
      change (heartbeat_ticks ((det ++ [tick_line (ps_count st + 1) r]) ++ List.concat chunks)
              = filter (fun k => k mod 10 =? 0)
                  (ps_count st + 1 :: seq (S (ps_count st + 1)) n)).
      rewrite !heartbeat_ticks_app. rewrite H8, Eh. simpl filter.
      unfold tick_line. destruct ((ps_count st + 1) mod 10 =? 0); reflexivity.
Qed.

(** [n] passes end well when [n] answers of each kind are left. *)
Lemma ticks_total (tid : pystr) (n : nat) :
  forall (st : PollState) (w : World),
    n <= List.length (w_runs w) -> n <= List.length (w_msgs w) ->
    exists st' w', ticks n tid st w = Ok st' w'.
Proof.
  induction n as [|n IH]; intros st w Hr Hm.
  - exists st, w. reflexivity.
  - destruct (tick_total tid st w) as (st1 & w1 & Et).
    + destruct (w_runs w); simpl in Hr; [lia | discriminate].
    + destruct (w_msgs w); simpl in Hm; [lia | discriminate].
    + simpl. unfold bind. rewrite Et.
      apply tick_ok in Et.
      destruct Et as (r & rs & m & ms & det & E1 & E1' & E2 & E2' & _).
      apply IH.
      * rewrite E2. rewrite E1 in Hr. simpl in Hr. lia.
      * rewrite E2'. rewrite E1' in Hm. simpl in Hm. lia.
Qed.

(** The multiples of 10 up to [n]. *)
Lemma multiples_of_ten (n : nat) :
  filter (fun k => k mod 10 =? 0) (seq 1 n) = map (fun j => 10 * j) (seq 1 (n / 10)).
Proof.
  induction n as [|n IH]; [reflexivity|].
  rewrite seq_S. rewrite filter_app. rewrite IH. cbn [filter].
  replace (1 + n) with (S n) by lia.
  destruct (S n mod 10 =? 0) eqn:E.
  - apply Nat.eqb_eq in E.
    assert (Hq : S n / 10 = S (n / 10)).
    { pose proof (Nat.div_mod_eq (S n) 10). pose proof (Nat.div_mod_eq n 10).
      pose proof (Nat.mod_upper_bound n 10). lia. }
    rewrite Hq. rewrite seq_S. rewrite map_app. cbn [map].
    replace (10 * (1 + n / 10)) with (S n); [reflexivity|].
    pose proof (Nat.div_mod_eq (S n) 10). lia.
  - apply Nat.eqb_neq in E.
    assert (Hq : S n / 10 = n / 10).
    { pose proof (Nat.div_mod_eq (S n) 10). pose proof (Nat.div_mod_eq n 10).
      pose proof (Nat.mod_upper_bound n 10). pose proof (Nat.mod_upper_bound (S n) 10). lia. }
    rewrite Hq. rewrite app_nil_r. reflexivity.
Qed.

Lemma app_same_length {A} (a : list A) :
  forall b c d, a ++ b = c ++ d -> List.length a = List.length c -> a = c /\ b = d.
Proof.
  induction a as [|x a IH]; intros b c d H Hl; destruct c as [|y c]; simpl in *;
    try discriminate.
  - split; [reflexivity | exact H].
  - injection H as Hx H. destruct (IH b c d H) as [E1 E2]; [lia|].
    subst. split; reflexivity.
Qed.

Lemma ticks_snoc (tid : pystr) (n : nat) :
  forall st w, ticks (S n) tid st w = bind (ticks n tid st) (SyncScript.tick tid) w.
Proof.
  induction n as [|n IH]; intros st w.
  - simpl. unfold bind, ret. destruct (tick tid st w); reflexivity.
  - change (ticks (S (S n)) tid st w) with (bind (tick tid st) (ticks (S n) tid) w).
    change (ticks (S n) tid st) with (bind (tick tid st) (ticks n tid)).
    unfold bind at 1 2 3. destruct (tick tid st w) as [st1 w1|e w1]; [|reflexivity].
    rewrite IH. reflexivity.
Qed.

(** The loop writes no file and leaves the fixed answers alone. *)
Lemma poll_frame (tid : pystr) (st st' : PollState) (w w' : World) :
  poll tid st w = Ok st' w' -> w_files w' = w_files w /\ w_remote w' = w_remote w.
Proof.
  remember (List.length (w_runs w)) as n eqn:En.
  revert st w En. induction n as [n IH] using lt_wf_ind. intros st w En H.
  rewrite poll_unfold in H. destruct (active (status (ps_run st))).
  - unfold bind in H. destruct (tick tid st w) as [st1 w1|e w1] eqn:Et; [|discriminate].
    apply tick_ok in Et.
    destruct Et as (r & rs & m & ms & det & E1 & _ & E2 & _ & Ef & Er & _).
    apply (IH (List.length (w_runs w1))) in H; [|rewrite En, E1, E2; simpl; lia|reflexivity].
    destruct H as [H1 H2]. split; congruence.
  - inversion H; subst. split; reflexivity.
Qed.

End PollFacts.

(* ===================================================================== *)
(** ** The two scripts agree, function by function *)
(* ===================================================================== *)

Module Agreement.
Import AsyncScript EventLoop WorldFacts PollFacts.

Lemma agree_print (s : pystr) : agree (print s) (Prim.print s).
Proof. exact (agree_trigger (Print s)). Qed.

Lemma agree_log (m : LogMsg) : agree (log_with_timestamp m) (Prim.log_with_timestamp m).
Proof. exact (agree_trigger (LogWithTimestamp m)). Qed.

Lemma agree_fp_write (path s : pystr) :
  agree (ITree.trigger (FpWrite path s)) (Prim.fp_write path s).
Proof. exact (agree_trigger (FpWrite path s)). Qed.

Lemma agree_get_last (tid : pystr) :
  agree (ITree.trigger (AwaitGetLastMessageByRole tid)) (Prim.get_last_message_by_role tid).
Proof. exact (agree_trigger (AwaitGetLastMessageByRole tid)). Qed.

Create HintDb agree.
#[local] Hint Resolve agree_print agree_log agree_fp_write agree_get_last agree_ret : agree.

Ltac step := apply agree_bind; [auto with agree | intros ?].

Lemma agree_print_citations (anns : list UrlCitation) :
  agree (print_citations anns) (SyncScript.print_citations anns).
Proof.
  induction anns as [|a anns IH]; simpl.
  - apply agree_ret.
  - step. exact IH.
Qed.

Lemma agree_fetch (tid : pystr) (last : option pystr) :
  agree (fetch_and_print_new_agent_response tid last)
        (SyncScript.fetch_and_print_new_agent_response tid last).
Proof.
  unfold fetch_and_print_new_agent_response,
    SyncScript.fetch_and_print_new_agent_response.
  apply agree_bind; [apply agree_get_last|]. intros [r|]; [|apply agree_ret].
  destruct (id_eqb (msg_id r) last); [apply agree_ret|].
  do 3 step. apply agree_bind; [apply agree_print_citations|]. intros _.
  apply agree_ret.
Qed.

Lemma agree_write_references (path : pystr) (anns : list UrlCitation) :
  forall seen, agree (write_references path anns seen)
                     (SyncScript.write_references path anns seen).
Proof.
  induction anns as [|a anns IH]; intros seen; simpl.
  - apply agree_ret.
  - destruct (negb (mem (url a) seen)); [|apply IH].
    step. apply IH.
Qed.

Lemma agree_create_research_summary (message : option ThreadMessage) (path : pystr) :
  agree (create_research_summary message path)
        (SyncScript.create_research_summary message path).
Proof.
  destruct message as [m|];
    cbv beta iota delta [create_research_summary SyncScript.create_research_summary];
    [|apply agree_print].
  apply agree_bind; [exact (agree_trigger (OpenW path))|]. intros _.
  step. apply agree_bind; [|intros _; apply agree_print].
  destruct (url_citation_annotations m) as [|ann anns]; [apply agree_ret|].
  step. apply agree_write_references.
Qed.

Lemma agree_tick (tid : pystr) (st : PollState) :
  agree (tick tid st) (SyncScript.tick tid st).
Proof.
  unfold tick, SyncScript.tick.
  apply agree_bind; [exact (agree_trigger (AwaitSleep 1))|]. intros _.
  apply agree_bind; [exact (agree_trigger (AwaitRunsGet tid (run_id (ps_run st))))|].
  intros run.
  apply agree_bind; [apply agree_fetch|]. intros last.
  apply agree_bind; [|intros _; apply agree_ret].
  destruct ((ps_count st + 1) mod 10 =? 0); auto with agree.
Qed.

Lemma agree_poll (tid : pystr) (st : PollState) :
  agree (poll tid st) (SyncScript.poll tid st).
Proof.
  intros w. remember (List.length (w_runs w)) as n eqn:En.
  revert st w En. induction n as [n IH] using lt_wf_ind. intros st w En.
  unfold poll. apply completes_iter. rewrite poll_unfold.
  destruct (active (status (ps_run st))).
  - unfold bind. pose proof (agree_tick tid st w) as Ht.
    destruct (SyncScript.tick tid st w) as [st' w'|e w'] eqn:Et.
    + eapply completes_bind.
      * eapply completes_bind; [exact Ht|]. exists 1. reflexivity.
      * apply completes_tau. apply tick_ok in Et.
        destruct Et as (r & rs & m & ms & det & E1 & _ & E2 & _).
        apply (IH (List.length (w_runs w'))); [|reflexivity].
        rewrite En, E1, E2. simpl. lia.
    + apply completes_bind_raise. apply completes_bind_raise. exact Ht.
  - eapply completes_bind; exists 1; reflexivity.
Qed.

Lemma agree_finish (tid aid : pystr) (run : ThreadRun) :
  agree (finish tid aid run) (SyncScript.finish tid aid run).
Proof.
  unfold finish, SyncScript.finish.
  step. apply agree_bind.
  { destruct (PyStr.eqb (status run) (lit "failed")); auto with agree. }
  intros _. step. apply agree_bind; [apply agree_get_last|]. intros final.
  apply agree_bind.
  { destruct final as [m|]; [|apply agree_ret].
    step. apply agree_create_research_summary. }
  intros _.
  apply agree_bind; [exact (agree_trigger (AwaitDeleteAgent aid))|]. intros _.
  apply agree_log.
Qed.

Lemma agree_poll_and_summarize (tid aid : pystr) :
  agree (poll_and_summarize tid aid) (SyncScript.poll_and_summarize tid aid).
Proof.
  unfold poll_and_summarize, SyncScript.poll_and_summarize.
  apply agree_bind; [exact (agree_trigger (AwaitRunsCreate tid aid))|]. intros run0.
  apply agree_bind; [apply agree_poll|]. intros st.
  apply agree_finish.
Qed.

(** What holds of the synchronous function holds of the coroutine. *)
Lemma both_of_sync {A} (f : M A) (coro : aio A) (w : World) (o : Outcome A) :
  agree coro f -> f w = o -> both f coro w o.
Proof. intros Ha Hf. split; [exact Hf|]. rewrite <- Hf. apply Ha. Qed.

End Agreement.

(* ===================================================================== *)
(** ** Facts about the summary writer *)
(* ===================================================================== *)

Module WriterFacts.
Import SyncScript WorldFacts PyStrFacts.

(** The loop of the writer appends the rendered entries to the file. *)
Lemma write_references_file (path : pystr) (anns : list UrlCitation) :
  forall (seen : list pystr) (c : pystr) (fs : list (pystr * pystr)) (w : World),
    w_files w = (path, c) :: unassoc path fs ->
    write_references path anns seen w =
    Ok tt (set_files ((path, c ++ render_references (dedup anns seen))
                      :: unassoc path fs) w).
Proof.
  induction anns as [|a anns IH]; intros seen c fs w H.
  - simpl. unfold ret, render_references. simpl. rewrite app_nil_r.
    destruct w; simpl in *. subst. reflexivity.
  - simpl. destruct (negb (mem (url a) seen)).
    + unfold bind. rewrite (fp_write_after path c _ fs w H).
      rewrite (IH _ (c ++ reference_item (or_else (title a) (url a)) (url a)) fs).
      * unfold render_references. simpl. rewrite <- app_assoc. reflexivity.
      * reflexivity.
    + apply IH. exact H.
Qed.

Lemma summary_written (m : ThreadMessage) (path : pystr) (w : World) :
  create_research_summary (Some m) path w =
  Ok tt (emits [OutPrint (lit "Research summary written to '" ++ path ++ lit "'.")]
           (set_files ((path, summary_text m) :: unassoc path (w_files w)) w)).
Proof.
  unfold create_research_summary, summary_text, summary_body.
  unfold bind at 1 2. unfold Prim.open_w.
  rewrite (fp_write_after path [] _ (w_files w)); [|reflexivity].
  cbn [app].
  destruct (url_citation_annotations m) as [|a anns] eqn:Ea.
  - unfold bind, ret, Prim.print. rewrite emit_eq. rewrite app_nil_r. reflexivity.
  - unfold bind at 1 2.
    rewrite (fp_write_after path (join (nl ++ nl) (map strip (text_messages m)))
               references_heading (w_files w)); [|reflexivity].
    rewrite (write_references_file path (a :: anns) []
               (join (nl ++ nl) (map strip (text_messages m)) ++ references_heading)
               (w_files w)); [|reflexivity].
    unfold Prim.print. rewrite emit_eq. rewrite <- app_assoc. reflexivity.
Qed.

End WriterFacts.

(* ===================================================================== *)
(** ** Facts about the deduplication of citations *)
(* ===================================================================== *)

Module DedupFacts.
Import PyStrFacts.

Lemma dedup_sound (anns : list UrlCitation) :
  forall (seen : list pystr) (e : pystr * pystr),
    In e (dedup anns seen) -> In (snd e) (map url anns) /\ ~ In (snd e) seen.
Proof.
  induction anns as [|a anns IH]; intros seen e H; simpl in H; [contradiction|].
  destruct (mem (url a) seen) eqn:Em; simpl in H.
  - apply IH in H. destruct H as [H1 H2]. split; [right; exact H1 | exact H2].
  - destruct H as [H|H].
    + subst e. simpl. split; [left; reflexivity|]. apply mem_not_In. exact Em.
    + apply IH in H. destruct H as [H1 H2]. split; [right; exact H1|].
      intros Hin. apply H2. right. exact Hin.
Qed.

Lemma dedup_complete (anns : list UrlCitation) :
  forall (seen : list pystr) (u : pystr),
    In u (map url anns) -> ~ In u seen -> In u (map snd (dedup anns seen)).
Proof.
  induction anns as [|a anns IH]; intros seen u H Hn; simpl in H; [contradiction|].
  simpl. destruct (mem (url a) seen) eqn:Em; simpl.
  - destruct H as [H|H].
    + subst u. apply mem_In in Em. contradiction.
    + apply IH; assumption.
  - destruct (PyStr.eqb (url a) u) eqn:E.
    + apply eqb_eq in E. left. exact E.
    + apply eqb_neq in E. right. destruct H as [H|H]; [contradiction|].
      apply IH; [exact H|]. intros [Hin|Hin]; [contradiction | apply Hn; exact Hin].
Qed.

Lemma dedup_nodup (anns : list UrlCitation) :
  forall seen, NoDup (map snd (dedup anns seen)).
Proof.
  induction anns as [|a anns IH]; intros seen; simpl; [constructor|].
  destruct (mem (url a) seen); simpl; [apply IH|].
  constructor; [|apply IH].
  intros Hin. apply in_map_iff in Hin. destruct Hin as [e [He Hin]].
  apply dedup_sound in Hin. destruct Hin as [_ Hn]. apply Hn. left. symmetry. exact He.
Qed.

Lemma dedup_length (anns : list UrlCitation) :
  forall seen, List.length (dedup anns seen) <= List.length anns.
Proof.
  induction anns as [|a anns IH]; intros seen; simpl; [lia|].
  destruct (mem (url a) seen); simpl.
  - specialize (IH seen). lia.
  - specialize (IH (url a :: seen)). lia.
Qed.

Lemma sorted_map_S (l : list nat) :
  StronglySorted lt l -> StronglySorted lt (map S l).
Proof.
  induction 1 as [|x l Hs IH Hall]; simpl; constructor; [exact IH|].
  apply Forall_map. eapply Forall_impl; [|exact Hall]. intros y Hy. simpl. lia.
Qed.

Lemma index_of_later (x u : pystr) (l : list pystr) :
  x <> u -> index_of u (x :: l) = S (index_of u l).
Proof. intros H. simpl. apply eqb_neq in H. rewrite H. reflexivity. Qed.

(** The entries come in the order in which their urls first appear. *)
Lemma dedup_order (anns : list UrlCitation) :
  forall seen,
    StronglySorted lt
      (map (fun e => index_of (snd e) (map url anns)) (dedup anns seen)).
Proof.
  induction anns as [|a anns IH]; intros seen; simpl dedup; [constructor|].
  assert (Hshift : forall seen',
             In (url a) seen' ->
             map (fun e => index_of (snd e) (map url (a :: anns))) (dedup anns seen')
             = map S (map (fun e => index_of (snd e) (map url anns)) (dedup anns seen'))).
  { intros seen' Hin. rewrite map_map. apply map_ext_in. intros e He.
    apply dedup_sound in He. destruct He as [_ Hn].
    apply index_of_later. intros E. apply Hn. rewrite <- E. exact Hin. }
  destruct (mem (url a) seen) eqn:Em; simpl negb; cbv iota.
  - rewrite Hshift; [|apply mem_In; exact Em]. apply sorted_map_S. apply IH.
  - cbn [map]. rewrite Hshift; [|left; reflexivity].
    constructor; [apply sorted_map_S; apply IH|].
    cbn [snd map index_of]. rewrite eqb_refl.
    apply Forall_map. apply Forall_forall. intros y _. lia.
Qed.

(** Every entry carries the title of the first citation of its url. *)
Lemma dedup_first (anns : list UrlCitation) :
  forall (seen : list pystr) (t u : pystr),
    In (t, u) (dedup anns seen) ->
    exists pre a post,
      anns = pre ++ a :: post /\ url a = u /\
      (forall b, In b pre -> url b <> u) /\
      t = or_else (title a) u.
Proof.
  induction anns as [|a anns IH]; intros seen t u H; simpl in H; [contradiction|].
  destruct (mem (url a) seen) eqn:Em; simpl in H.
  - pose proof (dedup_sound _ _ _ H) as [_ Hn]. simpl in Hn.
    apply IH in H. destruct H as (pre & a' & post & E & Eu & Hpre & Et).
    exists (a :: pre), a', post. subst anns. repeat split; try assumption.
    intros b [Hb|Hb]; [|apply Hpre; exact Hb].
    subst b. intros E. apply Hn. rewrite <- E. apply mem_In. exact Em.
  - destruct H as [H|H].
    + inversion H; subst. exists [], a, anns. repeat split. intros b [].
    + pose proof (dedup_sound _ _ _ H) as [_ Hn]. simpl in Hn.
      apply IH in H. destruct H as (pre & a' & post & E & Eu & Hpre & Et).
      exists (a :: pre), a', post. subst anns. repeat split; try assumption.
      intros b [Hb|Hb]; [|apply Hpre; exact Hb].
      subst b. intros E. apply Hn. left. exact E.
Qed.

End DedupFacts.

(* ===================================================================== *)
(** ** Facts about trimming, joining and lines *)
(* ===================================================================== *)

Module TextFacts.

Lemma starts_with_app (p s : pystr) : starts_with p (p ++ s) = true.
Proof.
  induction p as [|x p IH]; simpl; [reflexivity|].
  rewrite N.eqb_refl. exact IH.
Qed.

Lemma contains_prefix (p s : pystr) : contains p (p ++ s) = true.
Proof.
  destruct (p ++ s) eqn:E; simpl; rewrite <- E, starts_with_app; reflexivity.
Qed.

Lemma contains_app_r (sub a b : pystr) :
  contains sub b = true -> contains sub (a ++ b) = true.
Proof.
  intros H. induction a as [|x a IH]; simpl; [exact H|].
  rewrite IH. apply orb_true_r.
Qed.

Lemma head_space_lstrip (s : pystr) : head_space (lstrip s) = false.
Proof.
  induction s as [|c s IH]; simpl; [reflexivity|].
  destruct (isspace c) eqn:E; [exact IH|]. simpl. exact E.
Qed.

Lemma lstrip_keeps_from (x z : pystr) (c : char) :
  isspace c = false -> exists y, lstrip (x ++ c :: z) = y ++ c :: z.
Proof.
  intros Hc. induction x as [|d x IH]; simpl.
  - rewrite Hc. exists []. reflexivity.
  - destruct (isspace d).
    + exact IH.
    + exists (d :: x). reflexivity.
Qed.

(** A trimmed text neither starts nor ends with whitespace. *)
Lemma strip_no_edge_space (s : pystr) : no_edge_space (strip s) = true.
Proof.
  unfold no_edge_space, strip, rstrip. rewrite rev_involutive.
  rewrite head_space_lstrip. rewrite andb_true_r.
  pose proof (head_space_lstrip s) as H.
  destruct (lstrip s) as [|c t]; [reflexivity|]. simpl in H.
  simpl rev. destruct (lstrip_keeps_from (rev t) [] c H) as [y Hy].
  rewrite Hy. rewrite rev_app_distr. simpl. rewrite H. reflexivity.
Qed.

Lemma head_space_app (a b : pystr) : a <> [] -> head_space (a ++ b) = head_space a.
Proof. destruct a; [contradiction | reflexivity]. Qed.

Lemma join_cons2 (sep p q : pystr) (rest : list pystr) :
  join sep (p :: q :: rest) = p ++ sep ++ join sep (q :: rest).
Proof. reflexivity. Qed.

Lemma join_head (sep p : pystr) (rest : list pystr) :
  p <> [] -> head_space (join sep (p :: rest)) = head_space p.
Proof.
  intros H. destruct rest as [|q rest]; [reflexivity|].
  rewrite join_cons2. apply head_space_app. exact H.
Qed.

Lemma join_nonempty (sep p : pystr) (rest : list pystr) :
  p <> [] -> join sep (p :: rest) <> [].
Proof.
  intros H. destruct rest as [|q rest]; [exact H|].
  rewrite join_cons2. destruct p; [contradiction | discriminate].
Qed.

Lemma join_last_space (sep : pystr) (parts : list pystr) :
  forall p, Forall (fun s => s <> []) (p :: parts) ->
    head_space (rev (join sep (p :: parts))) = head_space (rev (last parts p)).
Proof.
  induction parts as [|q parts IH]; intros p H; [reflexivity|].
  rewrite join_cons2. rewrite !rev_app_distr.
  inversion H as [|x l Hp Hrest]; subst.
  rewrite <- app_assoc. rewrite head_space_app.
  - rewrite IH by exact Hrest. destruct parts as [|r parts]; [reflexivity|].
    change (last (q :: r :: parts) p) with (last (r :: parts) p).
    rewrite (PollFacts.last_nonempty parts r q p). reflexivity.
  - intros E. apply (f_equal (@rev char)) in E. rewrite rev_involutive in E.
    simpl in E. apply (join_nonempty sep q parts); [|exact E].
    inversion Hrest; assumption.
Qed.

(** Trimmed, non-empty parts joined: no whitespace at either end. *)
Lemma join_no_edge_space (sep : pystr) (parts : list pystr) :
  Forall (fun s => s <> []) parts ->
  Forall (fun s => no_edge_space s = true) parts ->
  no_edge_space (join sep parts) = true.
Proof.
  intros Hne Hed. destruct parts as [|p parts]; [reflexivity|].
  unfold no_edge_space. rewrite join_last_space by exact Hne.
  rewrite join_head by (inversion Hne; assumption).
  apply andb_true_iff. split.
  - inversion Hed as [|x l Hp _]; subst. unfold no_edge_space in Hp.
    apply andb_true_iff in Hp. apply Hp.
  - assert (Hl : In (last parts p) (p :: parts)).
    { clear. revert p. induction parts as [|q parts IH]; intros p; [left; reflexivity|].
      right. destruct parts as [|r parts]; [left; reflexivity|].
      change (In (last (r :: parts) p) (q :: r :: parts)).
      rewrite (PollFacts.last_nonempty parts r p q). apply IH. }
    rewrite Forall_forall in Hed. apply Hed in Hl. unfold no_edge_space in Hl.
    apply andb_true_iff in Hl. apply Hl.
Qed.

Lemma newline_is_space (c : char) : N.eqb c 10 = true -> isspace c = true.
Proof. intros H. apply N.eqb_eq in H. subst c. reflexivity. Qed.

Lemma lines_app_nl (a b : pystr) : lines (a ++ 10%N :: b) = lines a ++ lines b.
Proof.
  induction a as [|c a IH]; [reflexivity|].
  simpl. rewrite IH. destruct (N.eqb c 10); [reflexivity|].
  destruct (lines a) as [|l ls] eqn:E; [|reflexivity].
  destruct a as [|d a]; simpl in E; [discriminate|].
  destruct (N.eqb d 10); [discriminate|]. destruct (lines a); discriminate.
Qed.

Lemma lines_snoc (a : pystr) (c : char) :
  N.eqb c 10 = false ->
  exists ls l, lines a = ls ++ [l] /\ lines (a ++ [c]) = ls ++ [l ++ [c]].
Proof.
  intros Hc. induction a as [|d a IH].
  - simpl. rewrite Hc. exists [], []. split; reflexivity.
  - destruct IH as (ls & l & E1 & E2). simpl. rewrite E2, E1.
    destruct (N.eqb d 10).
    + exists ([] :: ls), l. split; reflexivity.
    + destruct ls as [|l0 ls]; simpl.
      * exists [], (d :: l). split; reflexivity.
      * exists ((d :: l0) :: ls), l. split; reflexivity.
Qed.

(** The first line of a text that starts with a character that is no
    whitespace is not blank. *)
Lemma first_line_not_blank (s : pystr) :
  s <> [] -> head_space s = false ->
  exists l ls, lines s = l :: ls /\ blank l = false.
Proof.
  intros Hne Hh. destruct s as [|c s]; [contradiction|]. simpl in Hh. simpl.
  destruct (N.eqb c 10) eqn:E.
  - apply newline_is_space in E. congruence.
  - destruct (lines s) as [|l ls].
    + exists [c], []. split; [reflexivity|]. simpl. rewrite Hh. reflexivity.
    + exists (c :: l), ls. split; [reflexivity|]. simpl. rewrite Hh. reflexivity.
Qed.

Lemma last_line_not_blank (s : pystr) :
  s <> [] -> head_space (rev s) = false ->
  exists ls l, lines s = ls ++ [l] /\ blank l = false.
Proof.
  intros Hne Hh.
  destruct (rev s) as [|c t] eqn:E.
  - apply (f_equal (@rev char)) in E. rewrite rev_involutive in E. contradiction.
  - apply (f_equal (@rev char)) in E. rewrite rev_involutive in E. simpl in E.
    simpl in Hh. subst s.
    assert (Hc : N.eqb c 10 = false).
    { destruct (N.eqb c 10) eqn:E10; [|reflexivity].
      apply newline_is_space in E10. congruence. }
    destruct (lines_snoc (rev t) c Hc) as (ls & l & _ & E2).
    exists ls, (l ++ [c]). split; [exact E2|].
    unfold blank. rewrite forallb_app. simpl. rewrite Hh.
    rewrite andb_false_r. reflexivity.
Qed.

Lemma single_blank_glue (l1 : list pystr) (x : pystr) (l2 : list pystr) :
  single_blank (l1 ++ [x]) = true ->
  single_blank (x :: l2) = true ->
  single_blank (l1 ++ x :: l2) = true.
Proof.
  intros H1 H2. induction l1 as [|y l1 IH]; [exact H2|].
  destruct l1 as [|z l1].
  - simpl in H1. simpl app. change (negb (blank y && blank x) && single_blank (x :: l2) = true).
    apply andb_true_iff in H1. destruct H1 as [H1 _]. rewrite H1, H2. reflexivity.
  - change (negb (blank y && blank z) && single_blank ((z :: l1) ++ [x]) = true) in H1.
    change (negb (blank y && blank z) && single_blank ((z :: l1) ++ x :: l2) = true).
    apply andb_true_iff in H1. destruct H1 as [Hyz H1].
    rewrite Hyz. rewrite (IH H1). reflexivity.
Qed.

(** Trimmed, non-empty parts joined by one blank line: never two blank
    lines in a row, when no part has two. *)
Lemma join_single_blank (parts : list pystr) :
  Forall (fun s => s <> []) parts ->
  Forall (fun s => no_edge_space s = true) parts ->
  Forall (fun s => single_blank (lines s) = true) parts ->
  single_blank (lines (join (nl ++ nl) parts)) = true.
Proof.
  induction parts as [|p parts IH]; intros Hne Hed Hsb; [reflexivity|].
  destruct parts as [|q rest].
  - inversion Hsb; assumption.
  - rewrite join_cons2.
    change (p ++ (nl ++ nl) ++ join (nl ++ nl) (q :: rest))
      with (p ++ 10%N :: ([] ++ 10%N :: join (nl ++ nl) (q :: rest))).
    rewrite !lines_app_nl.
    inversion Hne as [|? ? Hp Hne']; subst.
    inversion Hed as [|? ? Hpe Hed']; subst.
    inversion Hsb as [|? ? Hps Hsb']; subst.
    specialize (IH Hne' Hed' Hsb').
    unfold no_edge_space in Hpe. apply andb_true_iff in Hpe. destruct Hpe as [_ Hpl].
    apply negb_true_iff in Hpl.
    destruct (last_line_not_blank p Hp Hpl) as (ls & l & El & Hl).
    assert (Hq : head_space (join (nl ++ nl) (q :: rest)) = false).
    { inversion Hne'; subst. rewrite join_head by assumption.
      inversion Hed' as [|? ? Hqe _]; subst. unfold no_edge_space in Hqe.
      apply andb_true_iff in Hqe. destruct Hqe as [Hqh _].
      apply negb_true_iff in Hqh. exact Hqh. }
    assert (Hj : join (nl ++ nl) (q :: rest) <> []).
    { inversion Hne'; subst. apply join_nonempty. assumption. }
    destruct (first_line_not_blank _ Hj Hq) as (l' & ls' & El' & Hl').
    rewrite El' in *. rewrite El in *. rewrite <- app_assoc.
    apply single_blank_glue; [exact Hps|].
    simpl app.
    change (negb (blank l && blank []) && (negb (blank [] && blank l') && single_blank (l' :: ls')) = true).
    rewrite Hl, Hl', IH. reflexivity.
Qed.

End TextFacts.

(* ===================================================================== *)
(** ** Facts about the end of the script *)
(* ===================================================================== *)

Module FinishFacts.
Import SyncScript WorldFacts WriterFacts.

(** What follows the loop, case by case of the answer to the fetch of
    the final message. *)
Lemma finish_spec (tid aid : pystr) (run : ThreadRun) (w : World) :
  finish tid aid run w =
  match w_msgs w with
  | [] => Raise RemoteError (emits (finish_prelude run ++ [CallGetLastMessage tid]) w)
  | None :: ms =>
      Ok tt (set_msgs ms
               (emits (finish_prelude run
                       ++ [CallGetLastMessage tid; CallDeleteAgent aid;
                           OutLog LogAgentDeleted]) w))
  | Some m :: ms =>
      Ok tt (set_files ((default_filepath, summary_text m)
                        :: unassoc default_filepath (w_files w))
               (set_msgs ms
                  (emits (finish_prelude run
                          ++ [CallGetLastMessage tid; OutLog LogCreatingSummary;
                              OutPrint (lit "Research summary written to '"
                                        ++ default_filepath ++ lit "'.");
                              CallDeleteAgent aid; OutLog LogAgentDeleted]) w)))
  end.
Proof.
  unfold finish, finish_prelude, Prim.log_with_timestamp, Prim.delete_agent,
    Prim.get_last_message_by_role.
  unfold bind at 1 2 3 4 5. rewrite !emit_eq.
  assert (Hif : forall w0,
             (if PyStr.eqb (status run) (lit "failed")
              then emit (OutLog (LogFailed (last_error run)))
              else ret tt) w0
             = Ok tt (emits (if PyStr.eqb (status run) (lit "failed")
                             then [OutLog (LogFailed (last_error run))] else []) w0)).
  { intros w0. destruct (PyStr.eqb (status run) (lit "failed")).
    - reflexivity.
    - unfold ret. rewrite emits_nil. reflexivity. }
  rewrite Hif. rewrite !emit_eq. rewrite !emits_emits.
  cbn [w_msgs emits set_trace].
  destruct (w_msgs w) as [|[m|] ms] eqn:Em.
  - unfold emits, set_trace. cbn [w_trace w_msgs w_files w_runs w_remote].
    repeat (rewrite <- ?app_assoc; cbn [app]). reflexivity.
  - unfold bind. rewrite emit_eq.
    rewrite summary_written. rewrite !emit_eq.
    unfold emits, set_trace, set_msgs, set_files.
    cbn [w_trace w_msgs w_files w_runs w_remote].
    repeat (rewrite <- ?app_assoc; cbn [app]). reflexivity.
  - unfold bind, ret. rewrite !emit_eq.
    unfold emits, set_trace, set_msgs.
    cbn [w_trace w_msgs w_files w_runs w_remote].
    repeat (rewrite <- ?app_assoc; cbn [app]). reflexivity.
Qed.

End FinishFacts.

(* ===================================================================== *)
(** ** The properties of the specification *)
(* ===================================================================== *)

Import PyStrFacts WorldFacts SyncFacts PollFacts WriterFacts DedupFacts TextFacts Agreement
  FinishFacts.

(** C1.  The detector, when its fetch is answered.  If there is no agent
    message, or its id is the last-seen id, the detector returns the
    last-seen id and the only thing that happened is the fetch: nothing
    is printed.  Otherwise it logs the arrival, prints the header, prints
    the text segments joined by one newline (the first segment, then every
    further segment with the one character of code point 10 before it, and
    nothing for no segment), prints one citation line per annotation in
    their order, and returns the id of the message.  The coroutine of the
    asynchronous script ends the same way. *)
Theorem C1_detector_delta (tid : pystr) (last : option pystr) (w : World)
    (m : option ThreadMessage) (ms : list (option ThreadMessage))
    (Hfetch : w_msgs w = m :: ms) :
  (m = None \/ (exists r, m = Some r /\ last = Some (msg_id r)) ->
   both (SyncScript.fetch_and_print_new_agent_response tid last)
        (AsyncScript.fetch_and_print_new_agent_response tid last) w
        (Ok last (set_msgs ms (emits [CallGetLastMessage tid] w))))
  /\
  (forall r, m = Some r -> last <> Some (msg_id r) ->
   both (SyncScript.fetch_and_print_new_agent_response tid last)
        (AsyncScript.fetch_and_print_new_agent_response tid last) w
        (Ok (Some (msg_id r))
            (set_msgs ms
               (emits ([CallGetLastMessage tid; OutLog LogNewResponse;
                        OutPrint (nl ++ lit "Agent response:");
                        OutPrint (match text_messages r with
                                  | [] => []
                                  | first :: others =>
                                      first ++ List.concat (map (fun s => 10%N :: s) others)
                                  end)]
                       ++ map (fun a => OutPrint (citation_line (fmt_opt (title a)) (url a)))
                              (url_citation_annotations r)) w)))).
Proof.
  split.
  - intros H. apply both_of_sync; [apply agree_fetch|].
    rewrite (fetch_answered tid last w m ms Hfetch).
    destruct H as [H|[r [H1 H2]]]; subst m; [reflexivity|].
    apply id_eqb_true in H2. rewrite H2. reflexivity.
  - intros r H Hne. apply both_of_sync; [apply agree_fetch|].
    rewrite (fetch_answered tid last w m ms Hfetch). subst m.
    apply id_eqb_false in Hne. rewrite Hne.
    destruct (text_messages r) as [|first others] eqn:Et; [reflexivity|].
    rewrite <- (join_newline first others). reflexivity.
Qed.

Lemma C1_detector_delta_witness :
  both (SyncScript.fetch_and_print_new_agent_response (lit "thread_1") (Some (lit "msg_1")))
       (AsyncScript.fetch_and_print_new_agent_response (lit "thread_1") (Some (lit "msg_1")))
       (sample_world [] [Some tidy_message])
       (Ok (Some (lit "msg_1"))
           (set_msgs [] (emits [CallGetLastMessage (lit "thread_1")]
                           (sample_world [] [Some tidy_message]))))
  /\
  both (SyncScript.fetch_and_print_new_agent_response (lit "thread_1") None)
       (AsyncScript.fetch_and_print_new_agent_response (lit "thread_1") None)
       (sample_world [] [Some tidy_message])
       (Ok (Some (lit "msg_1"))
           (set_msgs []
              (emits [CallGetLastMessage (lit "thread_1"); OutLog LogNewResponse;
                      OutPrint (10%N :: lit "Agent response:");
                      OutPrint (lit "  First. " ++ 10%N :: lit "Second." ++ [10%N]);
                      OutPrint (lit "URL Citation: [A](https://a.example)");
                      OutPrint (lit "URL Citation: [Again](https://a.example)")]
                 (sample_world [] [Some tidy_message])))).
Proof.
  split.
  - apply (proj1 (C1_detector_delta (lit "thread_1") (Some (lit "msg_1"))
                    (sample_world [] [Some tidy_message])
                    (Some tidy_message) [] eq_refl)).
    right. exists tidy_message. split; reflexivity.
  - apply (proj2 (C1_detector_delta (lit "thread_1") None
                    (sample_world [] [Some tidy_message])
                    (Some tidy_message) [] eq_refl) tidy_message eq_refl).
    discriminate.
Defined.

(** C9, at a message whose one citation has no title.  The detector of
    either script prints the citation with the text None as its title,
    [URL Citation: [None](https://a.example)]; the url does not take the
    place of the missing title, as it does in the references that the
    summary writer writes for the same message. *)
Theorem C9_untitled_citation_streamed :
  both (SyncScript.fetch_and_print_new_agent_response (lit "thread_1") None)
       (AsyncScript.fetch_and_print_new_agent_response (lit "thread_1") None)
       (sample_world [] [Some untitled_message])
       (Ok (Some (lit "msg_1"))
           (set_msgs []
              (emits [CallGetLastMessage (lit "thread_1"); OutLog LogNewResponse;
                      OutPrint (nl ++ lit "Agent response:");
                      OutPrint (lit "Findings.");
                      OutPrint (lit "URL Citation: [None](https://a.example)")]
                 (sample_world [] [Some untitled_message]))))
  /\ lit "URL Citation: [None](https://a.example)"
     <> citation_line (lit "https://a.example") (lit "https://a.example")
  /\ file_at default_filepath
       (world_of (SyncScript.create_research_summary (Some untitled_message)
                    default_filepath (sample_world [] [])))
     = Some (lit "Findings." ++ nl ++ nl ++ lit "## References" ++ nl
             ++ lit "- [https://a.example](https://a.example)" ++ nl).
Proof.
  split; [|split].
  - apply both_of_sync; [apply agree_fetch | reflexivity].
  - intros H. vm_compute in H. discriminate.
  - reflexivity.
Qed.

(** C2, as stated, fails at a citation whose title is the empty string:
    the first-seen title of the url is the empty string, and the writer
    writes the url in its place. *)
Lemma C2_empty_title_counterexample :
  let anns := url_citation_annotations empty_title_message in
  first_title (lit "https://a.example") anns = Some (Some [])
  /\ dedup anns [] = [(lit "https://a.example", lit "https://a.example")]
  /\ file_at default_filepath
       (world_of (SyncScript.create_research_summary (Some empty_title_message)
                    default_filepath (sample_world [] [])))
     = Some (lit "Findings." ++ nl ++ nl ++ lit "## References" ++ nl
             ++ lit "- [https://a.example](https://a.example)" ++ nl)
  /\ ~ (forall t u, In (t, u) (dedup anns []) ->
          match first_title u anns with
          | Some (Some t') => t = t'
          | _ => t = u
          end).
Proof.
  split; [reflexivity|]. split; [reflexivity|]. split; [reflexivity|].
  intros H.
  specialize (H (lit "https://a.example") (lit "https://a.example") (or_introl eq_refl)).
  vm_compute in H. discriminate.
Qed.

(** C2, amended.  The loop of the summary writer appends to the open file
    one reference item per entry of the deduplicated list, and of that
    list: every url occurs once; its urls are the urls of the citations;
    they come in the order of their first appearance; there are no more
    entries than citations; and the title of an entry is the title of the
    first citation of its url, or the url itself when that title is absent
    or the empty string. *)
Theorem C2_references_deduplicated (anns : list UrlCitation) (path c : pystr)
    (fs : list (pystr * pystr)) (w : World)
    (Hopen : w_files w = (path, c) :: unassoc path fs) :
  let out := dedup anns [] in
  both (SyncScript.write_references path anns [])
       (AsyncScript.write_references path anns []) w
       (Ok tt (set_files ((path, c ++ render_references out) :: unassoc path fs) w))
  /\ NoDup (map snd out)
  /\ (forall u, In u (map snd out) <-> In u (map url anns))
  /\ StronglySorted lt (map (fun e => index_of (snd e) (map url anns)) out)
  /\ List.length out <= List.length anns
  /\ (forall t u, In (t, u) out ->
        exists pre a post,
          anns = pre ++ a :: post /\ url a = u /\
          (forall b, In b pre -> url b <> u) /\
          (title a = None \/ title a = Some [] -> t = u) /\
          (forall t', title a = Some t' -> t' <> [] -> t = t')).
Proof.
  intros out. subst out.
  split; [|split; [|split; [|split; [|split]]]].
  - apply both_of_sync; [apply agree_write_references|].
    apply write_references_file. exact Hopen.
  - apply dedup_nodup.
  - intros u. split.
    + intros H. apply in_map_iff in H. destruct H as [e [He H]].
      apply dedup_sound in H. rewrite He in H. apply H.
    + intros H. apply dedup_complete; [exact H | intros []].
  - apply dedup_order.
  - apply dedup_length.
  - intros t u H.
    apply dedup_first in H. destruct H as (pre & a & post & E1 & E2 & E3 & E4).
    exists pre, a, post. repeat split; try assumption.
    + intros [Ht|Ht]; rewrite Ht in E4; exact E4.
    + intros t' Ht Hne. rewrite Ht in E4. destruct t'; [contradiction | exact E4].
Qed.

Lemma C2_references_deduplicated_witness :
  both (SyncScript.write_references default_filepath
          (url_citation_annotations empty_title_message) [])
       (AsyncScript.write_references default_filepath
          (url_citation_annotations empty_title_message) [])
       (set_files [(default_filepath, lit "Findings.")] (sample_world [] []))
       (Ok tt (set_files
                 [(default_filepath,
                   lit "Findings." ++ lit "- [https://a.example](https://a.example)" ++ nl)]
                 (sample_world [] []))).
Proof.
  exact (proj1 (C2_references_deduplicated (url_citation_annotations empty_title_message)
                  default_filepath (lit "Findings.") []
                  (set_files [(default_filepath, lit "Findings.")] (sample_world [] []))
                  eq_refl)).
Defined.

(** C3.  A polling execution of exactly N ticks, N at least 10: the run
    is active at creation and in the first N-1 answers, the N-th answer is
    terminal, and the message fetches are answered.  The loop ends after N
    ticks; the heartbeat line is emitted N/10 times (rounded down), at the
    ticks 10, 20, 30, ...; every tick ends with the heartbeat line when its
    number is a multiple of 10 and with the plain [Run status:] line when
    it is not.  The coroutine of the asynchronous script ends the same
    way. *)
Theorem C3_heartbeat_every_tenth_tick (tid : pystr) (st : PollState) (w : World)
    (pre : list ThreadRun) (r : ThreadRun) (rest : list ThreadRun)
    (Hn : 10 <= S (List.length pre))
    (Hcount : ps_count st = 0)
    (Hactive : active (status (ps_run st)) = true)
    (Hruns : w_runs w = pre ++ r :: rest)
    (Hpre : Forall (fun x => active (status x) = true) pre)
    (Hterm : active (status r) = false)
    (Hmsgs : S (List.length pre) <= List.length (w_msgs w)) :
  let n := S (List.length pre) in
  exists st' w' chunks,
    both (SyncScript.poll tid st) (AsyncScript.poll tid st) w (Ok st' w') /\
    ps_count st' = n /\
    w_trace w' = w_trace w ++ List.concat chunks /\
    Forall2 tick_shape (combine (seq 1 n) (pre ++ [r])) chunks /\
    heartbeat_ticks (List.concat chunks) = map (fun j => 10 * j) (seq 1 (n / 10)).
Proof.
  intros n.
  pose proof (poll_ticks tid pre st w r rest Hactive Hruns Hpre Hterm) as Hp.
  destruct (ticks_total tid n st w) as (st' & w' & Ht).
  { rewrite Hruns, length_app. simpl. subst n. lia. }
  { exact Hmsgs. }
  fold n in Hp. rewrite Ht in Hp.
  destruct (ticks_ok tid n st st' w w' Ht)
    as (rs & chunks & H1 & H2 & _ & H4 & _ & H6 & H7 & H8).
  exists st', w', chunks.
  assert (Hrs : rs = pre ++ [r]).
  { rewrite Hruns in H1.
    replace (pre ++ r :: rest) with ((pre ++ [r]) ++ rest) in H1
      by (rewrite <- app_assoc; reflexivity).
    symmetry in H1. apply app_same_length in H1; [apply H1|].
    rewrite H2, length_app. simpl. subst n. lia. }
  rewrite Hcount in H4, H7, H8.
  change (0 + 1) with 1 in H7, H8. change (0 + n) with n in H4.
  split; [apply both_of_sync; [apply agree_poll | exact Hp]|].
  split; [exact H4|]. split; [exact H6|].
  split; [rewrite <- Hrs; exact H7|].
  rewrite H8. apply multiples_of_ten.
Qed.

Lemma C3_heartbeat_every_tenth_tick_witness :
  exists st' w' chunks,
    both (SyncScript.poll (lit "thread_1")
            {| ps_run := sample_run "queued"; ps_last := None; ps_count := 0 |})
         (AsyncScript.poll (lit "thread_1")
            {| ps_run := sample_run "queued"; ps_last := None; ps_count := 0 |})
         (sample_world (repeat (sample_run "in_progress") 19 ++ [sample_run "completed"])
            (repeat None 20))
         (Ok st' w') /\
    ps_count st' = 20 /\
    w_trace w' = List.concat chunks /\
    Forall2 tick_shape
      (combine (seq 1 20)
         (repeat (sample_run "in_progress") 19 ++ [sample_run "completed"]))
      chunks /\
    heartbeat_ticks (List.concat chunks) = [10; 20].
Proof.
  apply (C3_heartbeat_every_tenth_tick (lit "thread_1")
           {| ps_run := sample_run "queued"; ps_last := None; ps_count := 0 |}
           (sample_world (repeat (sample_run "in_progress") 19 ++ [sample_run "completed"])
              (repeat None 20))
           (repeat (sample_run "in_progress") 19) (sample_run "completed") []).
  - simpl. lia.
  - reflexivity.
  - reflexivity.
  - reflexivity.
  - simpl. repeat constructor.
  - reflexivity.
  - simpl. lia.
Defined.

(** C4, as stated, fails when the first status fetch is answered
    [completed]: after that fetch the same pass through the loop body
    still calls the detector, which fetches the last agent message, and
    prints the status line [Run status: completed]. *)
Lemma C4_terminal_tick_counterexample :
  let st := {| ps_run := sample_run "queued"; ps_last := None; ps_count := 0 |} in
  let w := sample_world [sample_run "completed"] [None] in
  w_trace (world_of (SyncScript.poll (lit "thread_1") st w))
  = [CallSleep 1; CallRunsGet (lit "thread_1") (lit "run_1");
     CallGetLastMessage (lit "thread_1"); OutPrint (lit "Run status: completed")]
  /\ ~ quiet_after_terminal (w_runs w)
         (w_trace (world_of (SyncScript.poll (lit "thread_1") st w))).
Proof.
  split; [reflexivity|].
  intros H.
  specialize (H [CallSleep 1] (lit "thread_1") (lit "run_1")
                [CallGetLastMessage (lit "thread_1"); OutPrint (lit "Run status: completed")]
                (sample_run "completed") eq_refl eq_refl eq_refl).
  inversion H as [|e l He _]; subst. discriminate.
Qed.

(** C4, amended.  The loop ends with the pass in which a status that is
    not active is fetched: when the answers to the status fetches are
    active ones followed by one that is not, the loop is exactly one pass
    per answer up to that one and leaves the later answers unread.  In
    that last pass, after the fetch, the detector runs once and the
    status or heartbeat line of the tick is printed; then the loop
    returns, with no further sleep, status fetch, detector call or status
    line.  The coroutine of the asynchronous script ends the same way. *)
Theorem C4_loop_ends_with_terminal_tick (tid : pystr) (st : PollState) (w : World)
    (pre : list ThreadRun) (r : ThreadRun) (rest : list ThreadRun)
    (Hactive : active (status (ps_run st)) = true)
    (Hruns : w_runs w = pre ++ r :: rest)
    (Hpre : Forall (fun x => active (status x) = true) pre)
    (Hterm : active (status r) = false) :
  both (SyncScript.poll tid st) (AsyncScript.poll tid st) w
       (ticks (S (List.length pre)) tid st w)
  /\ (forall st1 w1,
        ticks (List.length pre) tid st w = Ok st1 w1 ->
        w_runs w1 = r :: rest /\
        SyncScript.poll tid st w =
        after_fetch tid st1 r
          (set_runs rest
             (emits [CallSleep 1; CallRunsGet tid (run_id (ps_run st1))] w1)))
  /\ (forall st' w',
        SyncScript.poll tid st w = Ok st' w' ->
        w_runs w' = rest /\ ps_run st' = r /\
        ps_count st' = ps_count st + S (List.length pre)).
Proof.
  pose proof (poll_ticks tid pre st w r rest Hactive Hruns Hpre Hterm) as Hp.
  split; [apply both_of_sync; [apply agree_poll | exact Hp]|].
  split.
  - intros st1 w1 Ht.
    destruct (ticks_ok tid _ st st1 w w1 Ht) as (rs & chunks & H1 & H2 & _).
    rewrite Hruns in H1. symmetry in H1.
    apply app_same_length in H1; [|exact H2]. destruct H1 as [_ H1].
    split; [exact H1|].
    rewrite Hp, ticks_snoc. unfold bind. rewrite Ht.
    apply tick_answered. exact H1.
  - intros st' w' H. rewrite Hp in H.
    destruct (ticks_ok tid _ st st' w w' H) as (rs & chunks & H1 & H2 & H3 & H4 & _).
    rewrite Hruns in H1.
    replace (pre ++ r :: rest) with ((pre ++ [r]) ++ rest) in H1
      by (rewrite <- app_assoc; reflexivity).
    symmetry in H1. apply app_same_length in H1;
      [|rewrite H2, length_app; simpl; lia].
    destruct H1 as [Hrs Hrest]. subst rs.
    split; [exact Hrest|]. split; [|exact H4].
    rewrite H3. apply last_last.
Qed.

Lemma C4_loop_ends_with_terminal_tick_witness :
  both (SyncScript.poll (lit "thread_1")
          {| ps_run := sample_run "queued"; ps_last := None; ps_count := 0 |})
       (AsyncScript.poll (lit "thread_1")
          {| ps_run := sample_run "queued"; ps_last := None; ps_count := 0 |})
       (sample_world [sample_run "in_progress"; sample_run "completed"; sample_run "completed"]
          [None; None; None])
       (Ok {| ps_run := sample_run "completed"; ps_last := None; ps_count := 2 |}
           (set_msgs [None]
              (set_runs [sample_run "completed"]
                 (emits [CallSleep 1; CallRunsGet (lit "thread_1") (lit "run_1");
                         CallGetLastMessage (lit "thread_1");
                         OutPrint (lit "Run status: in_progress");
                         CallSleep 1; CallRunsGet (lit "thread_1") (lit "run_1");
                         CallGetLastMessage (lit "thread_1");
                         OutPrint (lit "Run status: completed")]
                    (sample_world
                       [sample_run "in_progress"; sample_run "completed"; sample_run "completed"]
                       [None; None; None]))))).
Proof.
  refine (proj1 (C4_loop_ends_with_terminal_tick (lit "thread_1")
                   {| ps_run := sample_run "queued"; ps_last := None; ps_count := 0 |}
                   (sample_world
                      [sample_run "in_progress"; sample_run "completed"; sample_run "completed"]
                      [None; None; None])
                   [sample_run "in_progress"] (sample_run "completed") [sample_run "completed"]
                   _ _ _ _)).
  - reflexivity.
  - reflexivity.
  - repeat constructor.
  - reflexivity.
Defined.

(** C5.  When the loop ends with the status [failed] and there is no
    agent message, no exception is raised: the script logs the end of the
    run and its last error, fetches the last agent message, skips the
    summary, deletes the agent and logs the deletion.  No file is written.
    The asynchronous script ends the same way. *)
Theorem C5_failed_run_continues (tid aid : pystr) (w : World) (st : PollState)
    (w1 : World) (ms : list (option ThreadMessage))
    (Hpoll : SyncScript.poll tid
               {| ps_run := new_run (w_remote w); ps_last := None; ps_count := 0 |}
               (emits [CallRunsCreate tid aid] w) = Ok st w1)
    (Hfailed : status (ps_run st) = lit "failed")
    (Hnone : w_msgs w1 = None :: ms) :
  let w' := set_msgs ms
              (emits [OutLog (LogFinished (lit "failed") (run_id (ps_run st)));
                      OutLog (LogFailed (last_error (ps_run st)));
                      OutLog LogFetchingFinal;
                      CallGetLastMessage tid;
                      CallDeleteAgent aid;
                      OutLog LogAgentDeleted] w1) in
  both (SyncScript.poll_and_summarize tid aid) (AsyncScript.poll_and_summarize tid aid) w
       (Ok tt w')
  /\ w_files w' = w_files w.
Proof.
  intros w'. split.
  - apply both_of_sync; [apply agree_poll_and_summarize|].
    unfold SyncScript.poll_and_summarize, Prim.runs_create.
    unfold bind at 1 2 3. rewrite emit_eq. cbn [w_remote emits set_trace].
    change (set_trace (w_trace w ++ [CallRunsCreate tid aid]) w)
      with (emits [CallRunsCreate tid aid] w).
    rewrite Hpoll. rewrite finish_spec. rewrite Hnone.
    unfold finish_prelude. rewrite Hfailed. reflexivity.
  - apply poll_frame in Hpoll. destruct Hpoll as [Hf _]. exact Hf.
Qed.

Lemma C5_failed_run_continues_witness :
  both (SyncScript.poll_and_summarize (lit "thread_1") (lit "agent_1"))
       (AsyncScript.poll_and_summarize (lit "thread_1") (lit "agent_1"))
       (sample_world [failed_run] [None; None])
       (Ok tt
          (set_msgs []
             (set_runs []
                (emits [CallRunsCreate (lit "thread_1") (lit "agent_1");
                        CallSleep 1; CallRunsGet (lit "thread_1") (lit "run_1");
                        CallGetLastMessage (lit "thread_1");
                        OutPrint (lit "Run status: failed");
                        OutLog (LogFinished (lit "failed") (lit "run_1"));
                        OutLog (LogFailed (Some (lit "server_error")));
                        OutLog LogFetchingFinal;
                        CallGetLastMessage (lit "thread_1");
                        CallDeleteAgent (lit "agent_1");
                        OutLog LogAgentDeleted]
                   (sample_world [failed_run] [None; None])))))
  /\ w_files (sample_world [failed_run] [None; None]) = [].
Proof.
  refine (C5_failed_run_continues (lit "thread_1") (lit "agent_1")
            (sample_world [failed_run] [None; None])
            {| ps_run := failed_run; ps_last := None; ps_count := 1 |}
            (set_msgs [None]
               (set_runs []
                  (emits [CallRunsCreate (lit "thread_1") (lit "agent_1");
                          CallSleep 1; CallRunsGet (lit "thread_1") (lit "run_1");
                          CallGetLastMessage (lit "thread_1");
                          OutPrint (lit "Run status: failed")]
                     (sample_world [failed_run] [None; None]))))
            [] _ _ _).
  - reflexivity.
  - reflexivity.
  - reflexivity.
Defined.

(** C10.  When the status of the run right after its creation is not
    active, the loop body never runs: the loop returns the state it was
    given, with tick count 0, and leaves the world as it was, so that the
    detector is not called; the script goes on with what follows the
    loop, and between the creation of the run and the fetch of the final
    message it only logs the end of the run, no status or heartbeat line.
    The asynchronous script ends the same way. *)
Theorem C10_terminal_at_creation (tid aid : pystr) (w : World)
    (Hterm : active (status (new_run (w_remote w))) = false) :
  let st0 := {| ps_run := new_run (w_remote w); ps_last := None; ps_count := 0 |} in
  let w0 := emits [CallRunsCreate tid aid] w in
  both (SyncScript.poll tid st0) (AsyncScript.poll tid st0) w0 (Ok st0 w0)
  /\ both (SyncScript.poll_and_summarize tid aid) (AsyncScript.poll_and_summarize tid aid) w
          (SyncScript.finish tid aid (new_run (w_remote w)) w0)
  /\ (exists tail,
        w_trace (world_of (SyncScript.poll_and_summarize tid aid w))
        = w_trace w ++ CallRunsCreate tid aid :: finish_prelude (new_run (w_remote w))
          ++ CallGetLastMessage tid :: tail)
  /\ Forall (fun e => tick_event e = false)
       (CallRunsCreate tid aid :: finish_prelude (new_run (w_remote w))).
Proof.
  intros st0 w0.
  assert (Hpoll : SyncScript.poll tid st0 w0 = Ok st0 w0).
  { rewrite poll_unfold. subst st0. cbn [ps_run]. rewrite Hterm. reflexivity. }
  assert (Hps : SyncScript.poll_and_summarize tid aid w
                = SyncScript.finish tid aid (new_run (w_remote w)) w0).
  { subst st0 w0.
    unfold SyncScript.poll_and_summarize, Prim.runs_create.
    unfold bind at 1 2 3. rewrite emit_eq. cbn [w_remote emits set_trace].
    change (set_trace (w_trace w ++ [CallRunsCreate tid aid]) w)
      with (emits [CallRunsCreate tid aid] w).
    rewrite Hpoll. reflexivity. }
  split; [apply both_of_sync; [apply agree_poll | exact Hpoll]|].
  split; [apply both_of_sync; [apply agree_poll_and_summarize | exact Hps]|].
  split.
  - rewrite Hps, finish_spec. subst w0.
    destruct (w_msgs (emits [CallRunsCreate tid aid] w)) as [|[m|] ms].
    + exists [].
      cbn [world_of emits set_trace w_trace]. 
      repeat (rewrite <- ?app_assoc; cbn [app]). reflexivity.
    + eexists. cbn [world_of emits set_trace set_msgs set_files w_trace].
      repeat (rewrite <- ?app_assoc; cbn [app]). reflexivity.
    + eexists. cbn [world_of emits set_trace set_msgs set_files w_trace].
      repeat (rewrite <- ?app_assoc; cbn [app]). reflexivity.
  - unfold finish_prelude.
    destruct (PyStr.eqb (status (new_run (w_remote w))) (lit "failed"));
      repeat constructor.
Qed.

Lemma C10_terminal_at_creation_witness :
  both (SyncScript.poll_and_summarize (lit "thread_1") (lit "agent_1"))
       (AsyncScript.poll_and_summarize (lit "thread_1") (lit "agent_1"))
       (sample_world_with (sample_run "completed") [] [None])
       (Ok tt
          (set_msgs []
             (emits [CallRunsCreate (lit "thread_1") (lit "agent_1");
                     OutLog (LogFinished (lit "completed") (lit "run_1"));
                     OutLog LogFetchingFinal;
                     CallGetLastMessage (lit "thread_1");
                     CallDeleteAgent (lit "agent_1");
                     OutLog LogAgentDeleted]
                (sample_world_with (sample_run "completed") [] [None])))).
Proof.
  exact (proj1 (proj2 (C10_terminal_at_creation (lit "thread_1") (lit "agent_1")
                         (sample_world_with (sample_run "completed") [] [None])
                         eq_refl))).
Defined.

(** C6, as stated, fails for a message without citations whose text has
    the heading in it: the file contains [## References] although the
    list of citations is empty. *)
Lemma C6_heading_in_body_counterexample :
  url_citation_annotations heading_in_text_message = []
  /\ file_at default_filepath
       (world_of (SyncScript.create_research_summary (Some heading_in_text_message)
                    default_filepath (sample_world [] [])))
     = Some (lit "## References")
  /\ contains (lit "## References") (lit "## References") = true.
Proof. repeat split. Qed.

(** C6, amended.  For a final message whose body does not itself contain
    [## References], the file that the writer leaves contains that heading
    if and only if the message has a citation; with a citation the file is
    the body, a blank line, the heading line and one item [- [title](url)]
    per entry of the deduplicated list, and without one it is the body
    alone.  The asynchronous script writes the same file. *)
Theorem C6_references_section (m : ThreadMessage) (path : pystr) (w : World)
    (Hbody : contains (lit "## References") (summary_body m) = false) :
  let w' := emits [OutPrint (lit "Research summary written to '" ++ path ++ lit "'.")]
              (set_files ((path, summary_text m) :: unassoc path (w_files w)) w) in
  both (SyncScript.create_research_summary (Some m) path)
       (AsyncScript.create_research_summary (Some m) path) w (Ok tt w')
  /\ file_at path w' = Some (summary_text m)
  /\ (contains (lit "## References") (summary_text m) = true
      <-> url_citation_annotations m <> [])
  /\ (url_citation_annotations m <> [] ->
      summary_text m
      = summary_body m ++ nl ++ nl ++ lit "## References" ++ nl
        ++ List.concat (map (fun e => lit "- [" ++ fst e ++ lit "](" ++ snd e ++ lit ")" ++ nl)
                          (dedup (url_citation_annotations m) [])))
  /\ (url_citation_annotations m = [] -> summary_text m = summary_body m).
Proof.
  intros w'. split; [|split; [|split; [|split]]].
  - apply both_of_sync; [apply agree_create_research_summary|].
    apply summary_written.
  - unfold file_at. subst w'. cbn [emits set_trace set_files w_files].
    apply assoc_put.
  - unfold summary_text. destruct (url_citation_annotations m) as [|a anns].
    + rewrite app_nil_r. rewrite Hbody. split; [discriminate | intros H; contradiction].
    + split; [discriminate|]. intros _.
      apply contains_app_r. unfold references_heading.
      repeat rewrite <- app_assoc.
      apply (contains_app_r _ nl). apply (contains_app_r _ nl).
      apply contains_prefix.
  - intros H. unfold summary_text.
    destruct (url_citation_annotations m) as [|a anns]; [contradiction|].
    unfold references_heading, render_references, reference_item.
    repeat rewrite <- app_assoc. reflexivity.
  - intros H. unfold summary_text. rewrite H. apply app_nil_r.
Qed.

Lemma C6_references_section_witness :
  file_at default_filepath
    (emits [OutPrint (lit "Research summary written to '" ++ default_filepath ++ lit "'.")]
       (set_files [(default_filepath, summary_text tidy_message)] (sample_world [] [])))
  = Some (lit "First." ++ nl ++ nl ++ lit "Second." ++ nl ++ nl
          ++ lit "## References" ++ nl ++ lit "- [A](https://a.example)" ++ nl).
Proof.
  exact (proj1 (proj2 (C6_references_section tidy_message default_filepath
                         (sample_world [] []) eq_refl))).
Defined.

(** C7, as stated, fails for a message with a blank segment and a
    segment with two blank lines inside: the body starts with whitespace
    and has two blank lines in a row. *)
Lemma C7_loose_body_counterexample :
  let body := nl ++ nl ++ lit "a" ++ nl ++ nl ++ nl ++ lit "b" in
  file_at default_filepath
    (world_of (SyncScript.create_research_summary (Some loose_text_message)
                 default_filepath (sample_world [] [])))
  = Some body
  /\ no_edge_space body = false
  /\ single_blank (lines body) = false.
Proof. repeat split. Qed.

(** C7, amended.  The body that the writer writes first is every segment
    trimmed of leading and trailing whitespace, joined with exactly one
    blank line.  When no trimmed segment is empty, the body neither starts
    nor ends with whitespace; when moreover no trimmed segment has two
    blank lines in a row, neither has the body.  The asynchronous script
    writes the same file. *)
Theorem C7_summary_body (m : ThreadMessage) (path : pystr) (w : World) :
  let body := join (nl ++ nl) (map strip (text_messages m)) in
  (exists refs w',
     both (SyncScript.create_research_summary (Some m) path)
          (AsyncScript.create_research_summary (Some m) path) w (Ok tt w')
     /\ file_at path w' = Some (body ++ refs)
     /\ (url_citation_annotations m = [] -> refs = []))
  /\ (Forall (fun s => strip s <> []) (text_messages m) ->
      no_edge_space body = true)
  /\ (Forall (fun s => strip s <> []) (text_messages m) ->
      Forall (fun s => single_blank (lines (strip s)) = true) (text_messages m) ->
      single_blank (lines body) = true).
Proof.
  intros body. split; [|split].
  - exists (match url_citation_annotations m with
            | [] => []
            | anns => references_heading ++ render_references (dedup anns [])
            end).
    eexists. split; [|split].
    + apply both_of_sync; [apply agree_create_research_summary|].
      apply summary_written.
    + unfold file_at. cbn [emits set_trace set_files w_files]. apply assoc_put.
    + intros H. rewrite H. reflexivity.
  - intros Hne. apply join_no_edge_space.
    + apply Forall_map. exact Hne.
    + apply Forall_map. apply Forall_forall. intros s _. apply strip_no_edge_space.
  - intros Hne Hsb. apply join_single_blank.
    + apply Forall_map. exact Hne.
    + apply Forall_map. apply Forall_forall. intros s _. apply strip_no_edge_space.
    + apply Forall_map. exact Hsb.
Qed.

Lemma C7_summary_body_witness :
  no_edge_space (join (nl ++ nl) (map strip (text_messages tidy_message))) = true
  /\ single_blank (lines (join (nl ++ nl) (map strip (text_messages tidy_message)))) = true.
Proof.
  split.
  - refine (proj1 (proj2 (C7_summary_body tidy_message default_filepath
                            (sample_world [] []))) _).
    repeat constructor; discriminate.
  - refine (proj2 (proj2 (C7_summary_body tidy_message default_filepath
                            (sample_world [] []))) _ _).
    + repeat constructor; discriminate.
    + repeat constructor.
Defined.

(** C8.  From the creation of the run on (create the run, poll it, log
    its end, fetch the final message, write the summary, delete the
    agent: lines 154-192 of the synchronous script and 160-198 of the
    asynchronous one), the asynchronous script run by the event loop ends,
    and it ends exactly as the synchronous script does, in every world,
    that is for every sequence of answers of the service: the same result
    or exception, hence the same console output, the same collaborator
    calls in the same order, and the same files. *)
Theorem C8_poll_and_summarize_agree (tid aid : pystr) (w : World) :
  exists o,
    AsyncScript.completes (AsyncScript.poll_and_summarize tid aid) w o
    /\ (forall o', AsyncScript.completes (AsyncScript.poll_and_summarize tid aid) w o' -> o' = o)
    /\ o = SyncScript.poll_and_summarize tid aid w
    /\ console (w_trace (world_of o))
       = console (w_trace (world_of (SyncScript.poll_and_summarize tid aid w)))
    /\ collaborator_calls (w_trace (world_of o))
       = collaborator_calls (w_trace (world_of (SyncScript.poll_and_summarize tid aid w)))
    /\ w_files (world_of o)
       = w_files (world_of (SyncScript.poll_and_summarize tid aid w)).
Proof.
  exists (SyncScript.poll_and_summarize tid aid w).
  split; [apply agree_poll_and_summarize|].
  split.
  - intros o' H. apply (EventLoop.completes_unique _ _ _ _ H).
    apply agree_poll_and_summarize.
  - repeat split.
Qed.

Lemma C8_poll_and_summarize_agree_witness :
  exists o,
    AsyncScript.completes
      (AsyncScript.poll_and_summarize (lit "thread_1") (lit "agent_1"))
      (sample_world [sample_run "completed"] [Some tidy_message; Some tidy_message]) o
    /\ o = SyncScript.poll_and_summarize (lit "thread_1") (lit "agent_1")
             (sample_world [sample_run "completed"] [Some tidy_message; Some tidy_message]).
Proof.
  destruct (C8_poll_and_summarize_agree (lit "thread_1") (lit "agent_1")
              (sample_world [sample_run "completed"] [Some tidy_message; Some tidy_message]))
    as (o & H1 & _ & H3 & _).
  exists o. split; [exact H1 | exact H3].
Defined.

(* ===================================================================== *)
(** ** Further properties of the scripts *)
(* ===================================================================== *)

(** X1.  The writer overwrites.  When the writing of the summary of a
    message to a path goes through, the file at that path is the body and
    the references of that message, whatever the file held before: the
    file is opened for writing, not for appending.  Writing the same
    summary once more, when that goes through as well, leaves the files as
    they are.  The asynchronous script does the same. *)
Theorem X1_summary_overwrites (m : ThreadMessage) (path : pystr) (w w' : World)
    (Hwritten : SyncScript.create_research_summary (Some m) path w = Ok tt w') :
  AsyncScript.completes (AsyncScript.create_research_summary (Some m) path) w (Ok tt w')
  /\ file_at path w' = Some (summary_text m)
  /\ forall w'',
       SyncScript.create_research_summary (Some m) path w' = Ok tt w'' ->
       w_files w'' = w_files w'.
Proof.
  pose proof (agree_create_research_summary (Some m) path w) as Ha.
  rewrite Hwritten in Ha.
  rewrite summary_written in Hwritten. injection Hwritten as Hw'.
  split; [exact Ha|]. split.
  - subst w'. unfold file_at. cbn [emits set_trace set_files w_files]. apply assoc_put.
  - intros w'' H. rewrite summary_written in H. injection H as H. subst w'' w'.
    cbn [emits set_trace set_files w_files].
    simpl unassoc. rewrite eqb_refl. rewrite unassoc_idem. reflexivity.
Qed.

Lemma X1_summary_overwrites_witness :
  file_at default_filepath
    (set_files [(default_filepath, lit "An older summary.")] (sample_world [] []))
  = Some (lit "An older summary.")
  /\ file_at default_filepath
       (world_of (SyncScript.create_research_summary (Some tidy_message) default_filepath
                    (set_files [(default_filepath, lit "An older summary.")]
                       (sample_world [] []))))
     = Some (summary_text tidy_message).
Proof.
  split; [reflexivity|].
  exact (proj1 (proj2 (X1_summary_overwrites tidy_message default_filepath
                         (set_files [(default_filepath, lit "An older summary.")]
                            (sample_world [] []))
                         _ eq_refl))).
Defined.



Module LoopFacts.
Import SyncScript.

(** A pass through the loop body, case by case of what the service
    answers. *)
Lemma tick_spec (tid : pystr) (st : PollState) (w : World) :
  tick tid st w =
  match w_runs w with
  | [] => Raise RemoteError (emits [CallSleep 1; CallRunsGet tid (run_id (ps_run st))] w)
  | r :: rs =>
      match w_msgs w with
      | [] => Raise RemoteError
                (set_runs rs
                   (emits [CallSleep 1; CallRunsGet tid (run_id (ps_run st));
                           CallGetLastMessage tid] w))
      | m :: ms =>
          Ok {| ps_run := r; ps_last := fst (detect (ps_last st) m);
                ps_count := ps_count st + 1 |}
             (set_msgs ms
                (set_runs rs
                   (emits ([CallSleep 1; CallRunsGet tid (run_id (ps_run st));
                            CallGetLastMessage tid]
                           ++ snd (detect (ps_last st) m)
                           ++ [tick_line (ps_count st + 1) r]) w)))
      end
  end.
Proof.
  destruct (w_runs w) as [|r rs] eqn:Er.
  - apply tick_unanswered. exact Er.
  - rewrite (tick_answered tid st w r rs Er). unfold after_fetch, bind.
    set (w1 := set_runs rs (emits [CallSleep 1; CallRunsGet tid (run_id (ps_run st))] w)).
    destruct (w_msgs w) as [|m ms] eqn:Em.
    + rewrite (fetch_unanswered tid (ps_last st) w1 Em).
      subst w1. unfold emits, set_trace, set_runs.
      cbn [w_trace w_msgs w_files w_runs w_remote].
      repeat (rewrite <- ?app_assoc; cbn [app]). reflexivity.
    + assert (Em1 : w_msgs w1 = m :: ms) by exact Em.
      rewrite (fetch_answered tid (ps_last st) w1 m ms Em1).
      unfold detect, response_block. subst w1.
      destruct m as [msg|]; [destruct (id_eqb (msg_id msg) (ps_last st))|];
        rewrite emit_eq; unfold ret, emits, set_trace, set_msgs, set_runs;
        cbn [w_trace w_msgs w_files w_runs w_remote fst snd];
        repeat (rewrite <- ?app_assoc; cbn [app]); reflexivity.
Qed.

Lemma count_app (p : Event -> bool) (a b : list Event) :
  count p (a ++ b) = count p a + count p b.
Proof. unfold count. rewrite filter_app, length_app. reflexivity. Qed.

Lemma count_none (p : Event -> bool) (evs : list Event) :
  Forall (fun e => p e = false) evs -> count p evs = 0.
Proof.
  unfold count. induction 1 as [|e evs He _ IH]; [reflexivity|].
  simpl. rewrite He. exact IH.
Qed.

Lemma count_fetches_app (a b : list Event) :
  count_fetches (a ++ b) = count_fetches a + count_fetches b.
Proof.
  induction a as [|e a IH]; [reflexivity|].
  destruct e; simpl; rewrite IH; reflexivity.
Qed.

Lemma count_fetches_console (evs : list Event) :
  Forall (fun e => is_console e = true) evs -> count_fetches evs = 0.
Proof.
  induction 1 as [|e evs He _ IH]; [reflexivity|].
  destruct e; simpl in *; try discriminate; exact IH.
Qed.

Lemma response_block_console (r : ThreadMessage) :
  Forall (fun e => is_console e = true) (response_block r).
Proof.
  unfold response_block. apply Forall_app. split; [repeat constructor|].
  unfold citation_events. apply Forall_map. apply Forall_forall. reflexivity.
Qed.

Lemma detect_console (last : option pystr) (m : option ThreadMessage) :
  Forall (fun e => is_console e = true) (snd (detect last m)).
Proof.
  unfold detect. destruct m as [r|]; [|constructor].
  destruct (id_eqb (msg_id r) last); [constructor | apply response_block_console].
Qed.

Lemma tick_line_console (k : nat) (r : ThreadRun) : is_console (tick_line k r) = true.
Proof. unfold tick_line. destruct (k mod 10 =? 0); reflexivity. Qed.

(** Whatever the service answers, the loop only sleeps, fetches and
    writes to the console; it writes no file; and the only exception that
    leaves it is the failure of a call. *)
Lemma poll_events (tid : pystr) (st : PollState) (w : World) :
  exists evs,
    w_trace (world_of (poll tid st w)) = w_trace w ++ evs /\
    Forall (fun e => loop_event e = true) evs /\
    w_files (world_of (poll tid st w)) = w_files w /\
    w_remote (world_of (poll tid st w)) = w_remote w /\
    (forall e w', poll tid st w = Raise e w' -> e = RemoteError).
Proof.
  remember (List.length (w_runs w)) as n eqn:En.
  revert st w En. induction n as [n IH] using lt_wf_ind. intros st w En.
  rewrite poll_unfold. destruct (active (status (ps_run st))).
  - unfold bind. rewrite tick_spec.
    destruct (w_runs w) as [|r rs] eqn:Er.
    + eexists. cbn [world_of emits set_trace w_trace w_files w_remote].
      split; [reflexivity|]. split; [repeat constructor|]. split; [reflexivity|].
      split; [reflexivity|]. intros e w' H. inversion H. reflexivity.
    + destruct (w_msgs w) as [|m ms] eqn:Em.
      * eexists. cbn [world_of emits set_trace set_runs w_trace w_files w_remote].
        split; [reflexivity|]. split; [repeat constructor|]. split; [reflexivity|].
        split; [reflexivity|]. intros e w' H. inversion H. reflexivity.
      * match goal with |- context [poll tid ?s ?x] =>
          destruct (IH (List.length rs) ltac:(rewrite En; simpl; lia) s x eq_refl)
            as (evs & H1 & H2 & H3 & H4 & H5)
        end.
        eexists. rewrite H1, H3, H4.
        cbn [emits set_trace set_runs set_msgs w_trace w_files w_remote].
        split; [rewrite <- app_assoc; reflexivity|].
        split; [|split; [reflexivity|split; [reflexivity|exact H5]]].
        apply Forall_app. split; [|exact H2].
        repeat (apply Forall_cons; [reflexivity|]).
        apply Forall_app. split.
        -- eapply Forall_impl; [|apply detect_console].
           intros e He. destruct e; simpl in *; congruence.
        -- constructor; [|constructor].
           pose proof (tick_line_console (ps_count st + 1) r) as Hc.
           destruct (tick_line (ps_count st + 1) r); simpl in *; congruence.
  - exists []. cbn [world_of]. rewrite app_nil_r.
    split; [reflexivity|]. split; [constructor|]. split; [reflexivity|].
    split; [reflexivity|]. intros e w' H. discriminate.
Qed.

End LoopFacts.

Module CountFacts.
Import SyncScript LoopFacts.

Lemma loop_event_not_delete (evs : list Event) :
  Forall (fun e => loop_event e = true) evs -> count is_delete evs = 0.
Proof.
  intros H. apply count_none. eapply Forall_impl; [|exact H].
  intros e He. destruct e; simpl in *; congruence.
Qed.

Lemma finish_prelude_not_delete (run : ThreadRun) :
  count is_delete (finish_prelude run) = 0.
Proof.
  unfold finish_prelude. destruct (PyStr.eqb (status run) (lit "failed")); reflexivity.
Qed.

Lemma console_app (a b : list Event) : console (a ++ b) = console a ++ console b.
Proof. apply filter_app. Qed.

Lemma console_all (evs : list Event) :
  Forall (fun e => is_console e = true) evs -> console evs = evs.
Proof.
  induction 1 as [|e evs He _ IH]; [reflexivity|].
  unfold console in *. simpl. destruct e; simpl in He; try discriminate; rewrite IH; reflexivity.
Qed.

Lemma tick_lines_cons (c : nat) (r : ThreadRun) (rs : list ThreadRun) :
  tick_lines c (r :: rs) = tick_line (c + 1) r :: tick_lines (c + 1) rs.
Proof.
  unfold tick_lines. simpl. replace (S (c + 1)) with (c + 1 + 1) by lia. reflexivity.
Qed.

(** While the service keeps answering messages with the id seen last,
    the loop puts nothing but the lines of its ticks on the console. *)
Lemma poll_quiet (tid : pystr) (i : pystr) (pre : list ThreadRun) :
  forall (st : PollState) (w : World) (r : ThreadRun) (rest : list ThreadRun)
         (msgs : list ThreadMessage) (ms : list (option ThreadMessage)),
    active (status (ps_run st)) = true ->
    w_runs w = pre ++ r :: rest ->
    Forall (fun x => active (status x) = true) pre ->
    active (status r) = false ->
    w_msgs w = map Some msgs ++ ms ->
    List.length msgs = S (List.length pre) ->
    Forall (fun x => msg_id x = i) msgs ->
    ps_last st = Some i ->
    exists st' w' evs,
      poll tid st w = Ok st' w' /\ ps_last st' = Some i /\ w_msgs w' = ms /\
      w_trace w' = w_trace w ++ evs /\
      console evs = tick_lines (ps_count st) (pre ++ [r]) /\
      count is_new_response evs = 0.
Proof.
  induction pre as [|p pre IH]; intros st w r rest msgs ms Ha Hr Hpre Hterm Hm Hlen Hid Hlast.
  - destruct msgs as [|m [|m2 msgs]]; try discriminate.
    rewrite poll_unfold, Ha. unfold bind. rewrite tick_spec.
    simpl in Hr, Hm. rewrite Hr, Hm.
    inversion Hid as [|x l Hmi _]; subst x l.
    assert (Hd : detect (ps_last st) (Some m) = (ps_last st, [])).
    { unfold detect. rewrite Hlast. simpl. rewrite Hmi, PyStrFacts.eqb_refl. reflexivity. }
    rewrite Hd. cbn [fst snd].
    rewrite poll_unfold. cbn [ps_run]. rewrite Hterm.
    eexists. eexists. eexists. split; [reflexivity|].
    cbn [ps_last set_msgs set_runs emits set_trace w_msgs w_trace].
    split; [exact Hlast|]. split; [reflexivity|]. split; [reflexivity|].
    split.
    + unfold tick_lines, tick_line. simpl combine. cbn [map fst snd app].
      destruct ((ps_count st + 1) mod 10 =? 0); reflexivity.
    + unfold tick_line. destruct ((ps_count st + 1) mod 10 =? 0); reflexivity.
  - destruct msgs as [|m msgs]; [discriminate|].
    rewrite poll_unfold, Ha. unfold bind. rewrite tick_spec.
    simpl in Hr, Hm. rewrite Hr, Hm.
    inversion Hid as [|x l Hmi Hid']; subst x l.
    inversion Hpre as [|x l Hp Hpre']; subst x l.
    assert (Hd : detect (ps_last st) (Some m) = (ps_last st, [])).
    { unfold detect. rewrite Hlast. simpl. rewrite Hmi, PyStrFacts.eqb_refl. reflexivity. }
    rewrite Hd. cbn [fst snd].
    match goal with |- context [poll tid ?s ?x] =>
      destruct (IH s x r rest msgs ms) as (st' & w' & evs & H1 & H2 & H3 & H4 & H5 & H6);
        try assumption; try reflexivity
    end.
    { simpl in Hlen. lia. }
    rewrite H1. exists st', w'. eexists.
    split; [reflexivity|]. split; [exact H2|]. split; [exact H3|].
    rewrite H4. cbn [set_msgs set_runs emits set_trace w_trace ps_count] in *.
    split; [rewrite <- app_assoc; reflexivity|].
    split.
    + rewrite console_app, H5. cbn [app]. rewrite tick_lines_cons.
      cbn [ps_count]. unfold tick_line.
      destruct ((ps_count st + 1) mod 10 =? 0); reflexivity.
    + rewrite count_app, H6. unfold tick_line.
      destruct ((ps_count st + 1) mod 10 =? 0); reflexivity.
Qed.

End CountFacts.

Import LoopFacts CountFacts.

(** X3.  From the creation of the run on, the agent is deleted exactly
    when the script ends well: then the deletion and its log line are the
    last two events, and the only deletion.  When a call to the service
    fails, in the loop or at the fetch of the final message, the failure
    leaves the script as it is, no deletion is attempted, and no file has
    been written.  The asynchronous script ends the same way. *)
Theorem X3_agent_deleted_only_on_success (tid aid : pystr) (w : World) :
  AsyncScript.completes (AsyncScript.poll_and_summarize tid aid) w
    (SyncScript.poll_and_summarize tid aid w)
  /\ exists evs,
       w_trace (world_of (SyncScript.poll_and_summarize tid aid w)) = w_trace w ++ evs /\
       match SyncScript.poll_and_summarize tid aid w with
       | Ok _ _ =>
           exists evs', evs = evs' ++ [CallDeleteAgent aid; OutLog LogAgentDeleted]
                        /\ count is_delete evs' = 0
       | Raise e w' =>
           e = RemoteError /\ count is_delete evs = 0 /\ w_files w' = w_files w
       end.
Proof.
  split; [apply agree_poll_and_summarize|].
  set (st0 := {| ps_run := new_run (w_remote w); ps_last := None; ps_count := 0 |}).
  set (w0 := emits [CallRunsCreate tid aid] w).
  assert (Heq : SyncScript.poll_and_summarize tid aid w
                = match SyncScript.poll tid st0 w0 with
                  | Ok st w1 => SyncScript.finish tid aid (ps_run st) w1
                  | Raise e w1 => Raise e w1
                  end) by reflexivity.
  rewrite Heq. clear Heq.
  destruct (poll_events tid st0 w0) as (evs1 & H1 & H2 & H3 & _ & H5).
  destruct (SyncScript.poll tid st0 w0) as [st w1|e w1] eqn:Ep; cbn [world_of] in *.
  - rewrite finish_spec.
    destruct (w_msgs w1) as [|[m|] ms].
    + eexists. cbn [world_of emits set_trace w_trace w_files]. rewrite H1.
      subst w0. cbn [emits set_trace w_trace w_files] in *.
      split; [repeat rewrite <- app_assoc; reflexivity|].
      split; [reflexivity|]. split; [|exact H3].
      cbn [app]. change (CallRunsCreate tid aid :: evs1 ++ finish_prelude (ps_run st) ++ [CallGetLastMessage tid])
        with ([CallRunsCreate tid aid] ++ evs1 ++ finish_prelude (ps_run st) ++ [CallGetLastMessage tid]).
      rewrite !count_app, (loop_event_not_delete evs1 H2), finish_prelude_not_delete.
      reflexivity.
    + eexists. cbn [world_of emits set_trace set_msgs set_files w_trace w_files]. rewrite H1.
      subst w0. cbn [emits set_trace w_trace w_files] in *.
      split; [repeat rewrite <- app_assoc; reflexivity|].
      exists ([CallRunsCreate tid aid] ++ evs1 ++ finish_prelude (ps_run st)
              ++ [CallGetLastMessage tid; OutLog LogCreatingSummary;
                  OutPrint (lit "Research summary written to '" ++ default_filepath ++ lit "'.")]).
      split; [repeat (rewrite <- ?app_assoc; cbn [app]); reflexivity|].
      rewrite !count_app, (loop_event_not_delete evs1 H2), finish_prelude_not_delete.
      reflexivity.
    + eexists. cbn [world_of emits set_trace set_msgs set_files w_trace w_files]. rewrite H1.
      subst w0. cbn [emits set_trace w_trace w_files] in *.
      split; [repeat rewrite <- app_assoc; reflexivity|].
      exists ([CallRunsCreate tid aid] ++ evs1 ++ finish_prelude (ps_run st)
              ++ [CallGetLastMessage tid]).
      split; [repeat (rewrite <- ?app_assoc; cbn [app]); reflexivity|].
      rewrite !count_app, (loop_event_not_delete evs1 H2), finish_prelude_not_delete.
      reflexivity.
  - eexists. rewrite H1. subst w0. cbn [emits set_trace w_trace w_files] in *.
    split; [rewrite <- app_assoc; reflexivity|].
    split; [apply (H5 e w1); reflexivity|]. split; [|exact H3].
    rewrite count_app, (loop_event_not_delete evs1 H2). reflexivity.
Qed.

(** X4.  The bookkeeping of the loop.  When the loop ends well after n
    ticks, [status_count] has grown by n, and the loop has slept n times,
    one second each time, fetched the run n times and fetched the last
    agent message n times, taking n answers of each kind from the
    service.  The asynchronous loop ends the same way. *)
Theorem X4_loop_accounting (tid : pystr) (st st' : PollState) (w w' : World)
    (Hok : SyncScript.poll tid st w = Ok st' w') :
  AsyncScript.completes (AsyncScript.poll tid st) w (Ok st' w')
  /\ exists n evs,
       w_trace w' = w_trace w ++ evs /\
       ps_count st' = ps_count st + n /\
       count is_sleep evs = n /\
       count_fetches evs = n /\
       count is_message_fetch evs = n /\
       List.length (w_runs w) = n + List.length (w_runs w') /\
       List.length (w_msgs w) = n + List.length (w_msgs w') /\
       Forall (fun e => is_sleep e = true -> e = CallSleep 1) evs.
Proof.
  split; [rewrite <- Hok; apply agree_poll|].
  remember (List.length (w_runs w)) as k eqn:Ek.
  revert st w Ek Hok. induction k as [k IH] using lt_wf_ind. intros st w Ek Hok.
  rewrite poll_unfold in Hok. destruct (active (status (ps_run st))).
  - unfold bind in Hok. rewrite tick_spec in Hok.
    destruct (w_runs w) as [|r rs] eqn:Er; [discriminate|].
    destruct (w_msgs w) as [|m ms] eqn:Em; [discriminate|].
    apply (IH (List.length rs)) in Hok; [|rewrite Ek; simpl; lia|reflexivity].
    destruct Hok as (n & evs & H1 & H2 & H3 & H4 & H5 & H6 & H7 & H8).
    cbn [ps_count set_msgs set_runs emits set_trace w_trace w_runs w_msgs] in *.
    pose proof (detect_console (ps_last st) m) as Hd.
    pose proof (tick_line_console (ps_count st + 1) r) as Hl.
    exists (S n). eexists.
    split; [rewrite H1, <- app_assoc; reflexivity|].
    split; [lia|].
    assert (Hc : forall p, (forall e, is_console e = true -> p e = false) ->
                 count p (snd (detect (ps_last st) m) ++ [tick_line (ps_count st + 1) r]) = 0).
    { intros p Hp. apply count_none. apply Forall_app. split.
      - eapply Forall_impl; [|exact Hd]. intros e He. apply Hp. exact He.
      - constructor; [apply Hp; exact Hl | constructor]. }
    split.
    { rewrite count_app.
      rewrite (count_app _ [CallSleep 1; CallRunsGet tid (run_id (ps_run st));
                            CallGetLastMessage tid]).
      rewrite Hc, H3; [reflexivity|].
      intros e He. destruct e; simpl in *; congruence. }
    split.
    { rewrite !count_fetches_app, H4.
      rewrite (count_fetches_console (snd (detect (ps_last st) m)) Hd).
      destruct (tick_line (ps_count st + 1) r); simpl in *; try discriminate; reflexivity. }
    split.
    { rewrite count_app.
      rewrite (count_app _ [CallSleep 1; CallRunsGet tid (run_id (ps_run st));
                            CallGetLastMessage tid]).
      rewrite Hc, H5; [reflexivity|].
      intros e He. destruct e; simpl in *; congruence. }
    split; [rewrite Ek; simpl; lia|]. split; [simpl; lia|].
    apply Forall_app. split; [|exact H8].
    constructor; [reflexivity|]. constructor; [discriminate|]. constructor; [discriminate|].
    apply Forall_app. split.
    + eapply Forall_impl; [|exact Hd]. intros e He Hs. destruct e; simpl in *; congruence.
    + constructor; [|constructor]. intros Hs.
      destruct (tick_line (ps_count st + 1) r); simpl in *; congruence.
  - inversion Hok; subst. exists 0, [].
    rewrite app_nil_r, Nat.add_0_r. repeat split; constructor.
Qed.

Lemma X4_loop_accounting_witness :
  exists n evs,
    evs = [CallSleep 1; CallRunsGet (lit "thread_1") (lit "run_1");
           CallGetLastMessage (lit "thread_1"); OutPrint (lit "Run status: in_progress");
           CallSleep 1; CallRunsGet (lit "thread_1") (lit "run_1");
           CallGetLastMessage (lit "thread_1"); OutPrint (lit "Run status: completed")]
    /\ n = 2 /\ count is_sleep evs = n /\ count_fetches evs = n
    /\ count is_message_fetch evs = n.
Proof.
  destruct (X4_loop_accounting (lit "thread_1")
              {| ps_run := sample_run "queued"; ps_last := None; ps_count := 0 |}
              {| ps_run := sample_run "completed"; ps_last := None; ps_count := 2 |}
              (sample_world [sample_run "in_progress"; sample_run "completed"] [None; None])
              (set_msgs []
                 (set_runs []
                    (emits [CallSleep 1; CallRunsGet (lit "thread_1") (lit "run_1");
                            CallGetLastMessage (lit "thread_1");
                            OutPrint (lit "Run status: in_progress");
                            CallSleep 1; CallRunsGet (lit "thread_1") (lit "run_1");
                            CallGetLastMessage (lit "thread_1");
                            OutPrint (lit "Run status: completed")]
                       (sample_world [sample_run "in_progress"; sample_run "completed"]
                          [None; None]))))
              eq_refl) as (_ & n & evs & H1 & H2 & H3 & H4 & H5 & _).
  exists n, evs. simpl in H1, H2. subst evs n. repeat split; assumption.
Defined.

(** X5.  The detector goes by the id alone.  When every fetch of the loop
    answers a message with one and the same id, new to the loop, the
    message is announced and printed once, on the first tick, with the
    text and the citations it had then; a later answer with that id is
    not printed, whatever its text.  The console shows the block of the
    first message and then one line per tick, and the id is the one the
    loop remembers at its end.  The asynchronous loop ends the same
    way. *)
Theorem X5_same_id_printed_once (tid : pystr) (st : PollState) (w : World)
    (pre : list ThreadRun) (r : ThreadRun) (rest : list ThreadRun)
    (first : ThreadMessage) (later : list ThreadMessage)
    (ms : list (option ThreadMessage))
    (Hactive : active (status (ps_run st)) = true)
    (Hruns : w_runs w = pre ++ r :: rest)
    (Hpre : Forall (fun x => active (status x) = true) pre)
    (Hterm : active (status r) = false)
    (Hmsgs : w_msgs w = map Some (first :: later) ++ ms)
    (Hlen : List.length later = List.length pre)
    (Hid : Forall (fun x => msg_id x = msg_id first) later)
    (Hnew : ps_last st <> Some (msg_id first)) :
  exists st' w' evs,
    both (SyncScript.poll tid st) (AsyncScript.poll tid st) w (Ok st' w')
    /\ ps_last st' = Some (msg_id first)
    /\ w_msgs w' = ms
    /\ w_trace w' = w_trace w ++ evs
    /\ console evs = response_block first ++ tick_lines (ps_count st) (pre ++ [r])
    /\ count is_new_response evs = 1.
Proof.
  assert (Hd : detect (ps_last st) (Some first) = (Some (msg_id first), response_block first)).
  { unfold detect. apply id_eqb_false in Hnew. rewrite Hnew. reflexivity. }
  assert (Hb : count is_new_response (response_block first) = 1).
  { unfold response_block. rewrite count_app. simpl.
    rewrite count_none; [reflexivity|].
    unfold citation_events. apply Forall_map. apply Forall_forall. reflexivity. }
  assert (Hsync : exists st' w' evs,
             SyncScript.poll tid st w = Ok st' w'
             /\ ps_last st' = Some (msg_id first)
             /\ w_msgs w' = ms
             /\ w_trace w' = w_trace w ++ evs
             /\ console evs = response_block first ++ tick_lines (ps_count st) (pre ++ [r])
             /\ count is_new_response evs = 1).
  { rewrite poll_unfold, Hactive. unfold bind. rewrite tick_spec.
    destruct pre as [|p pre].
    - destruct later; [|discriminate].
      simpl in Hruns, Hmsgs. rewrite Hruns, Hmsgs, Hd. cbn [fst snd].
      rewrite poll_unfold. cbn [ps_run]. rewrite Hterm.
      eexists. eexists. eexists. split; [reflexivity|].
      cbn [ps_last set_msgs set_runs emits set_trace w_msgs w_trace].
      split; [reflexivity|]. split; [reflexivity|]. split; [reflexivity|].
      split.
      + change ([CallSleep 1; CallRunsGet tid (run_id (ps_run st)); CallGetLastMessage tid]
                ++ response_block first ++ [tick_line (ps_count st + 1) r])
          with ([CallSleep 1; CallRunsGet tid (run_id (ps_run st)); CallGetLastMessage tid]
                ++ (response_block first ++ [tick_line (ps_count st + 1) r])).
        rewrite console_app. cbn [console filter is_console app].
        rewrite console_all.
        * reflexivity.
        * apply Forall_app. split; [apply response_block_console|].
          constructor; [apply tick_line_console | constructor].
      + rewrite (count_app _ [CallSleep 1; CallRunsGet tid (run_id (ps_run st));
                              CallGetLastMessage tid]).
        rewrite count_app, Hb. unfold tick_line.
        destruct ((ps_count st + 1) mod 10 =? 0); reflexivity.
    - simpl in Hruns, Hmsgs. rewrite Hruns, Hmsgs, Hd. cbn [fst snd].
      inversion Hpre as [|x l Hp Hpre']; subst x l.
      match goal with |- context [SyncScript.poll tid ?s ?x] =>
        destruct (poll_quiet tid (msg_id first) pre s x r rest later ms)
          as (st' & w' & evs & H1 & H2 & H3 & H4 & H5 & H6);
          try assumption; try reflexivity
      end.
      rewrite H1. exists st', w'. eexists.
      split; [reflexivity|]. split; [exact H2|]. split; [exact H3|].
      rewrite H4. cbn [set_msgs set_runs emits set_trace w_trace ps_count] in *.
      split; [rewrite <- app_assoc; reflexivity|].
      split.
      + rewrite console_app, H5.
        change ([CallSleep 1; CallRunsGet tid (run_id (ps_run st)); CallGetLastMessage tid]
                ++ response_block first ++ [tick_line (ps_count st + 1) p])
          with ([CallSleep 1; CallRunsGet tid (run_id (ps_run st)); CallGetLastMessage tid]
                ++ (response_block first ++ [tick_line (ps_count st + 1) p])).
        rewrite console_app. cbn [console filter is_console app].
        rewrite console_all.
        * rewrite <- app_assoc. cbn [app].
          change (p :: pre ++ [r]) with (p :: (pre ++ [r])).
          rewrite tick_lines_cons. reflexivity.
        * apply Forall_app. split; [apply response_block_console|].
          constructor; [apply tick_line_console | constructor].
      + rewrite count_app, H6.
        rewrite (count_app _ [CallSleep 1; CallRunsGet tid (run_id (ps_run st));
                              CallGetLastMessage tid]).
        rewrite count_app, Hb. unfold tick_line.
        destruct ((ps_count st + 1) mod 10 =? 0); reflexivity. }
  destruct Hsync as (st' & w' & evs & H1 & H2).
  exists st', w', evs. split; [|exact H2].
  apply both_of_sync; [apply agree_poll | exact H1].
Qed.

Lemma X5_same_id_printed_once_witness :
  exists st' w' evs,
    both (SyncScript.poll (lit "thread_1")
            {| ps_run := sample_run "queued"; ps_last := None; ps_count := 0 |})
         (AsyncScript.poll (lit "thread_1")
            {| ps_run := sample_run "queued"; ps_last := None; ps_count := 0 |})
         (sample_world [sample_run "in_progress"; sample_run "completed"]
            [Some steady_message; Some steady_message_edited])
         (Ok st' w')
    /\ ps_last st' = Some (lit "msg_1")
    /\ console evs
       = [OutLog LogNewResponse; OutPrint (nl ++ lit "Agent response:");
          OutPrint (lit "Draft.");
          OutPrint (lit "Run status: in_progress");
          OutPrint (lit "Run status: completed")].
Proof.
  destruct (X5_same_id_printed_once (lit "thread_1")
              {| ps_run := sample_run "queued"; ps_last := None; ps_count := 0 |}
              (sample_world [sample_run "in_progress"; sample_run "completed"]
                 [Some steady_message; Some steady_message_edited])
              [sample_run "in_progress"] (sample_run "completed") []
              steady_message [steady_message_edited] [])
    as (st' & w' & evs & H1 & H2 & _ & _ & H5 & _).
  - reflexivity.
  - reflexivity.
  - repeat constructor.
  - reflexivity.
  - reflexivity.
  - reflexivity.
  - repeat constructor.
  - discriminate.
  - exists st', w', evs. split; [exact H1|]. split; [exact H2 | exact H5].
Defined.

Module StartupFacts.
Import SyncScript.

Lemma environ_at_spec (name : string) (w : World) :
  Prim.environ_at name w =
  match env_var name w with
  | Some v => Ok v w
  | None => Raise (KeyError (lit name)) w
  end.
Proof. reflexivity. Qed.

(** The search for the connection: the first connection of the name in
    [BING_RESOURCE_NAME]; the variable is read once per connection looked
    at, so that with no connection at all it is not read. *)
Lemma find_connection_spec (cs : list Connection) (w : World) :
  find_connection cs w =
  match env_var "BING_RESOURCE_NAME" w with
  | Some n => Ok (find (named n) cs) w
  | None =>
      match cs with
      | [] => Ok None w
      | _ :: _ => Raise (KeyError (lit "BING_RESOURCE_NAME")) w
      end
  end.
Proof.
  induction cs as [|c cs IH].
  - simpl. unfold ret. destruct (env_var "BING_RESOURCE_NAME" w); reflexivity.
  - simpl find_connection. unfold bind. rewrite environ_at_spec.
    destruct (env_var "BING_RESOURCE_NAME" w) as [n|] eqn:E; [|reflexivity].
    simpl find. unfold named at 1.
    destruct (PyStr.eqb (conn_name c) n); [reflexivity|].
    rewrite IH. reflexivity.
Qed.

(** The connection id when [BING_CONNECTION_ID] does not give it. *)
Lemma resolve_connection_unset (w : World) :
  connection_id_unset w ->
  resolve_connection w =
  match env_var "PROJECT_ENDPOINT" w with
  | None => Raise (KeyError (lit "PROJECT_ENDPOINT")) (emits [OutLog LogConnUnset] w)
  | Some _ =>
      match connections (w_remote w), env_var "BING_RESOURCE_NAME" w with
      | Some cs, Some n =>
          match find (named n) cs with
          | Some c =>
              Ok (conn_id c)
                 (emits [OutLog LogConnUnset; CallConnectionsList;
                         OutLog (LogConnFound (conn_id c))] w)
          | None =>
              Raise (SystemExit 1)
                    (emits [OutLog LogConnUnset; CallConnectionsList;
                            OutLog (LogConnNotFound n)] w)
          end
      | _, _ =>
          Raise (SystemExit 1)
                (emits [OutLog LogConnUnset; CallConnectionsList; OutLog LogConnFailed;
                        OutLog LogConnAdvice1; OutLog LogConnAdvice2] w)
      end
  end.
Proof.
  intros Hu. unfold resolve_connection. unfold bind at 1. unfold Prim.environ_get.
  fold (env_var "BING_CONNECTION_ID" w).
  assert (Hc : match env_var "BING_CONNECTION_ID" w with
               | Some c => match strip c with [] => false | _ :: _ => true end
               | None => false
               end = false).
  { destruct Hu as [H|[c [H1 H2]]]; [rewrite H | rewrite H1, H2]; reflexivity. }
  rewrite Hc. unfold bind at 1. unfold Prim.log_with_timestamp at 1. rewrite emit_eq.
  unfold bind at 1. rewrite environ_at_spec.
  change (env_var "PROJECT_ENDPOINT" (emits [OutLog LogConnUnset] w))
    with (env_var "PROJECT_ENDPOINT" w).
  destruct (env_var "PROJECT_ENDPOINT" w) as [pe|]; [|reflexivity].
  unfold try_except, Prim.connections_list. unfold bind at 1 2. rewrite emit_eq.
  cbn [w_remote emits set_trace].
  destruct (connections (w_remote w)) as [cs|].
  - unfold bind at 1. rewrite find_connection_spec.
    match goal with |- context [env_var "BING_RESOURCE_NAME" ?x] =>
      change (env_var "BING_RESOURCE_NAME" x) with (env_var "BING_RESOURCE_NAME" w)
    end.
    destruct (env_var "BING_RESOURCE_NAME" w) as [n|] eqn:En.
    + destruct (find (named n) cs) as [c|].
      * unfold bind, ret, Prim.log_with_timestamp. rewrite emit_eq.
        unfold emits, set_trace. cbn [w_trace w_remote w_runs w_msgs w_files].
        repeat (rewrite <- ?app_assoc; cbn [app]). reflexivity.
      * unfold bind. rewrite environ_at_spec.
        match goal with |- context [env_var "BING_RESOURCE_NAME" ?x] =>
          change (env_var "BING_RESOURCE_NAME" x) with (env_var "BING_RESOURCE_NAME" w)
        end.
        rewrite En. unfold Prim.log_with_timestamp, raise. rewrite emit_eq.
        unfold emits, set_trace. cbn [w_trace w_remote w_runs w_msgs w_files].
        repeat (rewrite <- ?app_assoc; cbn [app]). reflexivity.
    + destruct cs as [|c cs].
      * unfold bind. rewrite environ_at_spec.
        match goal with |- context [env_var "BING_RESOURCE_NAME" ?x] =>
          change (env_var "BING_RESOURCE_NAME" x) with (env_var "BING_RESOURCE_NAME" w)
        end.
        rewrite En. unfold Prim.log_with_timestamp, raise. rewrite !emit_eq.
        unfold emits, set_trace. cbn [w_trace w_remote w_runs w_msgs w_files].
        repeat (rewrite <- ?app_assoc; cbn [app]). reflexivity.
      * unfold bind, Prim.log_with_timestamp, raise. rewrite !emit_eq.
        unfold emits, set_trace. cbn [w_trace w_remote w_runs w_msgs w_files].
        repeat (rewrite <- ?app_assoc; cbn [app]). reflexivity.
  - unfold bind, Prim.log_with_timestamp, raise. rewrite !emit_eq.
    unfold emits, set_trace. cbn [w_trace w_remote w_runs w_msgs w_files].
    repeat (rewrite <- ?app_assoc; cbn [app]).
    destruct (env_var "BING_RESOURCE_NAME" w); reflexivity.
Qed.

(** The connection id when [BING_CONNECTION_ID] gives it. *)
Lemma resolve_connection_set (w : World) (c : pystr) :
  env_var "BING_CONNECTION_ID" w = Some c -> strip c <> [] ->
  resolve_connection w = Ok c (emits [OutLog (LogConnFromEnv c)] w).
Proof.
  intros H Hs. unfold resolve_connection. unfold bind at 1. unfold Prim.environ_get.
  fold (env_var "BING_CONNECTION_ID" w). rewrite H.
  destruct (strip c) as [|x t]; [contradiction|].
  unfold bind. rewrite environ_at_spec, H.
  unfold Prim.log_with_timestamp, ret. rewrite emit_eq. reflexivity.
Qed.

Lemma connection_id_cases (w : World) :
  connection_id_unset w \/
  exists c, env_var "BING_CONNECTION_ID" w = Some c /\ strip c <> [].
Proof.
  unfold connection_id_unset.
  destruct (env_var "BING_CONNECTION_ID" w) as [c|]; [|left; left; reflexivity].
  destruct (strip c) eqn:E.
  - left. right. exists c. split; [reflexivity | exact E].
  - right. exists c. split; [reflexivity|]. rewrite E. discriminate.
Qed.

End StartupFacts.

Import StartupFacts.

(** X6.  With [BING_CONNECTION_ID] unset or blank, [PROJECT_ENDPOINT] and
    [BING_RESOURCE_NAME] set and the connections listed, the synchronous
    script takes the id of the first connection whose name is the
    resource name, after one listing call; when no connection has the
    name it logs that and exits with code 1, without the advice lines of
    the exception handler around it. *)
Theorem X6_connection_by_name (w : World) (e n : pystr) (cs : list Connection)
    (Hunset : connection_id_unset w)
    (Hendpoint : env_var "PROJECT_ENDPOINT" w = Some e)
    (Hlist : connections (w_remote w) = Some cs)
    (Hname : env_var "BING_RESOURCE_NAME" w = Some n) :
  (forall before c after,
     cs = before ++ c :: after -> conn_name c = n ->
     (forall b, In b before -> conn_name b <> n) ->
     SyncScript.resolve_connection w
     = Ok (conn_id c)
          (emits [OutLog LogConnUnset; CallConnectionsList;
                  OutLog (LogConnFound (conn_id c))] w))
  /\ ((forall c, In c cs -> conn_name c <> n) ->
      SyncScript.resolve_connection w
      = Raise (SystemExit 1)
              (emits [OutLog LogConnUnset; CallConnectionsList;
                      OutLog (LogConnNotFound n)] w)).
Proof.
  rewrite (resolve_connection_unset w Hunset), Hendpoint, Hlist, Hname.
  split.
  - intros before c after Hcs Hc Hb.
    assert (Hf : find (named n) cs = Some c).
    { subst cs. clear Hlist. induction before as [|b before IH]; simpl.
      - unfold named. rewrite Hc, eqb_refl. reflexivity.
      - unfold named at 1.
        assert (E : PyStr.eqb (conn_name b) n = false).
        { apply eqb_neq. apply Hb. left. reflexivity. }
        rewrite E. apply IH. intros b' Hb'. apply Hb. right. exact Hb'. }
    rewrite Hf. reflexivity.
  - intros Hno.
    assert (Hf : find (named n) cs = None).
    { clear Hlist. induction cs as [|c cs IH]; [reflexivity|]. simpl. unfold named at 1.
      assert (E : PyStr.eqb (conn_name c) n = false).
      { apply eqb_neq. apply Hno. left. reflexivity. }
      rewrite E. apply IH. intros c' Hc'. apply Hno. right. exact Hc'. }
    rewrite Hf. reflexivity.
Qed.

Lemma X6_connection_by_name_witness :
  SyncScript.resolve_connection
    (world_with [(lit "PROJECT_ENDPOINT", lit "https://p.example");
                 (lit "BING_CONNECTION_ID", lit "  ");
                 (lit "BING_RESOURCE_NAME", lit "bing")]
       (Some [{| conn_name := lit "storage"; conn_id := lit "id_1" |};
              {| conn_name := lit "bing"; conn_id := lit "id_2" |};
              {| conn_name := lit "bing"; conn_id := lit "id_3" |}]))
  = Ok (lit "id_2")
       (emits [OutLog LogConnUnset; CallConnectionsList; OutLog (LogConnFound (lit "id_2"))]
          (world_with [(lit "PROJECT_ENDPOINT", lit "https://p.example");
                       (lit "BING_CONNECTION_ID", lit "  ");
                       (lit "BING_RESOURCE_NAME", lit "bing")]
             (Some [{| conn_name := lit "storage"; conn_id := lit "id_1" |};
                    {| conn_name := lit "bing"; conn_id := lit "id_2" |};
                    {| conn_name := lit "bing"; conn_id := lit "id_3" |}]))).
Proof.
  refine (proj1 (X6_connection_by_name _ (lit "https://p.example") (lit "bing") _ _ _ _ _)
            [{| conn_name := lit "storage"; conn_id := lit "id_1" |}]
            {| conn_name := lit "bing"; conn_id := lit "id_2" |}
            [{| conn_name := lit "bing"; conn_id := lit "id_3" |}] _ _ _).
  - right. exists (lit "  "). split; reflexivity.
  - reflexivity.
  - reflexivity.
  - reflexivity.
  - reflexivity.
  - reflexivity.
  - intros b [Hb|[]]. subst b. discriminate.
Defined.

(** X7.  With [BING_CONNECTION_ID] unset or blank and [PROJECT_ENDPOINT]
    set, a failure of the lookup ends the synchronous script with exit
    code 1 after the failure line and two lines of advice: so when the
    listing of the connections fails, and so when [BING_RESOURCE_NAME]
    is not set, whose [KeyError] never leaves the script. *)
Theorem X7_connection_lookup_failure_exits (w : World) (e : pystr)
    (Hunset : connection_id_unset w)
    (Hendpoint : env_var "PROJECT_ENDPOINT" w = Some e)
    (Hfail : connections (w_remote w) = None \/ env_var "BING_RESOURCE_NAME" w = None) :
  SyncScript.resolve_connection w
  = Raise (SystemExit 1)
          (emits [OutLog LogConnUnset; CallConnectionsList; OutLog LogConnFailed;
                  OutLog LogConnAdvice1; OutLog LogConnAdvice2] w).
Proof.
  rewrite (resolve_connection_unset w Hunset), Hendpoint.
  destruct Hfail as [H|H]; rewrite H.
  - reflexivity.
  - destruct (connections (w_remote w)); reflexivity.
Qed.

Lemma X7_connection_lookup_failure_exits_witness :
  SyncScript.resolve_connection
    (world_with [(lit "PROJECT_ENDPOINT", lit "https://p.example")]
       (Some [{| conn_name := lit "bing"; conn_id := lit "id_2" |}]))
  = Raise (SystemExit 1)
          (emits [OutLog LogConnUnset; CallConnectionsList; OutLog LogConnFailed;
                  OutLog LogConnAdvice1; OutLog LogConnAdvice2]
             (world_with [(lit "PROJECT_ENDPOINT", lit "https://p.example")]
                (Some [{| conn_name := lit "bing"; conn_id := lit "id_2" |}]))).
Proof.
  refine (X7_connection_lookup_failure_exits _ (lit "https://p.example") _ _ _).
  - left. reflexivity.
  - reflexivity.
  - right. reflexivity.
Defined.

Module CallFacts.
Import SyncScript LoopFacts.

Lemma filter_none (p : Event -> bool) (evs : list Event) :
  Forall (fun e => p e = false) evs -> filter p evs = [].
Proof.
  induction 1 as [|e evs He _ IH]; [reflexivity|]. simpl. rewrite He. exact IH.
Qed.

Lemma loop_no_create (evs : list Event) :
  Forall (fun e => loop_event e = true) evs ->
  filter is_create evs = [] /\ filter is_delete evs = [].
Proof.
  intros H. split; apply filter_none; (eapply Forall_impl; [|exact H]);
    intros e He; destruct e; simpl in *; congruence.
Qed.

Lemma prelude_no_create (run : ThreadRun) :
  filter is_create (finish_prelude run) = [] /\ filter is_delete (finish_prelude run) = [].
Proof.
  unfold finish_prelude. destruct (PyStr.eqb (status run) (lit "failed")); split; reflexivity.
Qed.

(** The creations and deletions from the creation of the run on: the run
    is created, once; the agent is deleted, once, when the script ends
    well, and not at all when it does not. *)
Lemma poll_and_summarize_calls (tid aid : pystr) (w : World) :
  exists evs,
    w_trace (world_of (poll_and_summarize tid aid w)) = w_trace w ++ evs /\
    filter is_create evs = [CallRunsCreate tid aid] /\
    filter is_delete evs =
      match poll_and_summarize tid aid w with
      | Ok _ _ => [CallDeleteAgent aid]
      | Raise _ _ => []
      end.
Proof.
  set (st0 := {| ps_run := new_run (w_remote w); ps_last := None; ps_count := 0 |}).
  set (w0 := emits [CallRunsCreate tid aid] w).
  assert (Heq : poll_and_summarize tid aid w
                = match poll tid st0 w0 with
                  | Ok st w1 => finish tid aid (ps_run st) w1
                  | Raise e w1 => Raise e w1
                  end) by reflexivity.
  rewrite Heq. clear Heq.
  destruct (poll_events tid st0 w0) as (evs1 & H1 & H2 & _).
  destruct (loop_no_create evs1 H2) as [Hc Hd].
  destruct (poll tid st0 w0) as [st w1|e w1]; cbn [world_of] in H1.
  - rewrite finish_spec. destruct (prelude_no_create (ps_run st)) as [Pc Pd].
    destruct (w_msgs w1) as [|[m|] ms];
      cbn [world_of emits set_trace set_msgs set_files w_trace]; rewrite H1;
      subst w0; cbn [emits set_trace w_trace];
      eexists; (split; [repeat rewrite <- app_assoc; reflexivity|]);
      rewrite !filter_app, Hc, Hd, Pc, Pd; split; reflexivity.
  - cbn [world_of]. rewrite H1. subst w0. cbn [emits set_trace w_trace].
    eexists. split; [rewrite <- app_assoc; reflexivity|].
    rewrite !filter_app, Hc, Hd. split; reflexivity.
Qed.

End CallFacts.

Import CallFacts.

Module HistoryFacts.
Import SyncScript.

Lemma set_trace_id (w : World) : set_trace (w_trace w) w = w.
Proof. destruct w. reflexivity. Qed.

Lemma push_push {A} (a b : list Event) (o : Outcome A) :
  push a (push b o) = push (a ++ b) o.
Proof.
  destruct o as [x w|e w]; unfold push, set_trace; simpl; rewrite app_assoc; reflexivity.
Qed.

(** What a function that does not look at the history does in [w] is
    what it does after an empty history, put after the history of [w]. *)
Lemma history_free_at {A} (f : M A) (w : World) :
  history_free f -> f w = push (w_trace w) (f (set_trace [] w)).
Proof. intros H. rewrite <- (H w (w_trace w)). rewrite set_trace_id. reflexivity. Qed.

Lemma hf_ret {A} (a : A) : history_free (ret a).
Proof. intros w tr. unfold ret, push, set_trace. simpl. rewrite app_nil_r. reflexivity. Qed.

Lemma hf_bind {A B} (m : M A) (k : A -> M B) :
  history_free m -> (forall a, history_free (k a)) -> history_free (bind m k).
Proof.
  intros Hm Hk w tr. unfold bind. rewrite (Hm w tr).
  destruct (m (set_trace [] w)) as [a w1|e w1]; [|reflexivity].
  cbn [push]. rewrite (Hk a w1 (tr ++ w_trace w1)).
  rewrite (history_free_at (k a) w1 (Hk a)). rewrite push_push. reflexivity.
Qed.

Lemma hf_emit (e : Event) : history_free (emit e).
Proof. intros w tr. reflexivity. Qed.

Lemma hf_runs_get (tid rid : pystr) : history_free (Prim.runs_get tid rid).
Proof.
  intros w tr. unfold Prim.runs_get, bind, emit. cbn [w_runs set_trace].
  destruct (w_runs w); reflexivity.
Qed.

Lemma hf_get_last (tid : pystr) : history_free (Prim.get_last_message_by_role tid).
Proof.
  intros w tr. unfold Prim.get_last_message_by_role, bind, emit. cbn [w_msgs set_trace].
  destruct (w_msgs w); reflexivity.
Qed.

Lemma hf_fp_write (path s : pystr) : history_free (Prim.fp_write path s).
Proof.
  intros w tr. unfold Prim.fp_write, push, set_trace, set_files. simpl.
  rewrite app_nil_r. reflexivity.
Qed.

Lemma hf_open_w (path : pystr) : history_free (Prim.open_w path).
Proof.
  intros w tr. unfold Prim.open_w, push, set_trace, set_files. simpl.
  rewrite app_nil_r. reflexivity.
Qed.

Lemma hf_runs_create (tid aid : pystr) : history_free (Prim.runs_create tid aid).
Proof. intros w tr. reflexivity. Qed.

Lemma hf_print_citations (anns : list UrlCitation) : history_free (print_citations anns).
Proof.
  induction anns as [|a anns IH]; simpl; [apply hf_ret|].
  apply hf_bind; [apply hf_emit | intros _; exact IH].
Qed.

Lemma hf_fetch (tid : pystr) (last : option pystr) :
  history_free (fetch_and_print_new_agent_response tid last).
Proof.
  unfold fetch_and_print_new_agent_response.
  apply hf_bind; [apply hf_get_last|]. intros [r|]; [|apply hf_ret].
  destruct (id_eqb (msg_id r) last); [apply hf_ret|].
  apply hf_bind; [apply hf_emit | intros _].
  apply hf_bind; [apply hf_emit | intros _].
  apply hf_bind; [apply hf_emit | intros _].
  apply hf_bind; [apply hf_print_citations | intros _]. apply hf_ret.
Qed.

Lemma hf_write_references (path : pystr) (anns : list UrlCitation) :
  forall seen, history_free (write_references path anns seen).
Proof.
  induction anns as [|a anns IH]; intros seen; simpl; [apply hf_ret|].
  destruct (negb (mem (url a) seen)); [|apply IH].
  apply hf_bind; [apply hf_fp_write | intros _; apply IH].
Qed.

Lemma hf_create_research_summary (message : option ThreadMessage) (path : pystr) :
  history_free (create_research_summary message path).
Proof.
  destruct message as [m|];
    cbv beta iota delta [create_research_summary]; [|apply hf_emit].
  apply hf_bind; [apply hf_open_w | intros _].
  apply hf_bind; [apply hf_fp_write | intros _].
  apply hf_bind; [|intros _; apply hf_emit].
  destruct (url_citation_annotations m) as [|ann anns]; [apply hf_ret|].
  apply hf_bind; [apply hf_fp_write | intros _]. apply hf_write_references.
Qed.

Lemma hf_tick (tid : pystr) (st : PollState) : history_free (tick tid st).
Proof.
  unfold tick.
  apply hf_bind; [apply hf_emit | intros _].
  apply hf_bind; [apply hf_runs_get | intros run].
  apply hf_bind; [apply hf_fetch | intros last].
  apply hf_bind; [|intros _; apply hf_ret].
  destruct ((ps_count st + 1) mod 10 =? 0); apply hf_emit.
Qed.

Lemma hf_while_active (tid : pystr) (n : nat) :
  forall st, history_free (while_active n tid st).
Proof.
  induction n as [|n IH]; intros st; simpl;
    destruct (active (status (ps_run st))); try apply hf_ret.
  - apply hf_tick.
  - apply hf_bind; [apply hf_tick | intros st'; apply IH].
Qed.

Lemma hf_poll (tid : pystr) (st : PollState) : history_free (poll tid st).
Proof. intros w tr. unfold poll. cbn [w_runs set_trace]. apply hf_while_active. Qed.

Lemma hf_finish (tid aid : pystr) (run : ThreadRun) : history_free (finish tid aid run).
Proof.
  unfold finish.
  apply hf_bind; [apply hf_emit | intros _].
  apply hf_bind.
  { destruct (PyStr.eqb (status run) (lit "failed")); [apply hf_emit | apply hf_ret]. }
  intros _. apply hf_bind; [apply hf_emit | intros _].
  apply hf_bind; [apply hf_get_last | intros final].
  apply hf_bind.
  { destruct final as [m|]; [|apply hf_ret].
    apply hf_bind; [apply hf_emit | intros _]. apply hf_create_research_summary. }
  intros _. apply hf_bind; [apply hf_emit | intros _]. apply hf_emit.
Qed.

(** From the creation of the run on, the script does not look at what it
    has done before. *)
Lemma hf_poll_and_summarize (tid aid : pystr) :
  history_free (poll_and_summarize tid aid).
Proof.
  unfold poll_and_summarize.
  apply hf_bind; [apply hf_runs_create | intros run0].
  apply hf_bind; [apply hf_poll | intros st]. apply hf_finish.
Qed.

End HistoryFacts.

Import HistoryFacts.

Module MainFacts.
Import SyncScript.

Lemma agree_async_main : agree AsyncScript.main async_main_effect.
Proof.
  unfold AsyncScript.main, async_main_effect, create_and_run.
  repeat (apply EventLoop.agree_bind;
          [ first [ apply agree_log
                  | exact (EventLoop.agree_trigger (AsyncScript.EnvironAt _))
                  | exact (EventLoop.agree_trigger (AsyncScript.NewDeepResearchTool _ _))
                  | exact (EventLoop.agree_trigger (AsyncScript.AwaitCreateAgent _ _))
                  | exact (EventLoop.agree_trigger AsyncScript.AwaitThreadsCreate)
                  | exact (EventLoop.agree_trigger (AsyncScript.AwaitMessagesCreate _)) ]
          | intros ? ]).
  apply agree_poll_and_summarize.
Qed.

Lemma log_spec (m : LogMsg) (w : World) :
  Prim.log_with_timestamp m w = Ok tt (emits [OutLog m] w).
Proof. reflexivity. Qed.

Lemma env_var_emits (name : string) (evs : list Event) (w : World) :
  env_var name (emits evs w) = env_var name w.
Proof. reflexivity. Qed.

Lemma tool_init_spec (cid model : pystr) (w : World) :
  Prim.DeepResearchTool_init cid model w =
  if tool_accepts (w_remote w) cid model
  then Ok {| bing_grounding_connection_id := cid; deep_research_model := model |} w
  else Raise (ValueError cid) w.
Proof. reflexivity. Qed.

Lemma create_agent_spec (model : pystr) (tools : DeepResearchTool) (w : World) :
  Prim.create_agent model tools w =
  match new_agent (w_remote w) with
  | Some a => Ok a (emits [CallCreateAgent model tools] w)
  | None => Raise RemoteError (emits [CallCreateAgent model tools] w)
  end.
Proof.
  unfold Prim.create_agent, bind, Prim.answered. rewrite emit_eq.
  cbn [w_remote emits set_trace]. destruct (new_agent (w_remote w)); reflexivity.
Qed.

Lemma threads_create_spec (w : World) :
  Prim.threads_create w =
  match new_thread (w_remote w) with
  | Some t => Ok t (emits [CallThreadsCreate] w)
  | None => Raise RemoteError (emits [CallThreadsCreate] w)
  end.
Proof.
  unfold Prim.threads_create, bind, Prim.answered. rewrite emit_eq.
  cbn [w_remote emits set_trace]. destruct (new_thread (w_remote w)); reflexivity.
Qed.

Lemma messages_create_spec (tid : pystr) (w : World) :
  Prim.messages_create tid w =
  match new_message (w_remote w) with
  | Some m => Ok m (emits [CallMessagesCreate tid] w)
  | None => Raise RemoteError (emits [CallMessagesCreate tid] w)
  end.
Proof.
  unfold Prim.messages_create, bind, Prim.answered. rewrite emit_eq.
  cbn [w_remote emits set_trace]. destruct (new_message (w_remote w)); reflexivity.
Qed.

(** Creating the agent, the thread and the message, case by case of the
    answers of the service. *)
Lemma create_and_run_spec (model : pystr) (tools : DeepResearchTool) (w : World) :
  create_and_run model tools w =
  match new_agent (w_remote w) with
  | None => Raise RemoteError (emits [CallCreateAgent model tools] w)
  | Some a =>
      match new_thread (w_remote w) with
      | None =>
          Raise RemoteError
            (emits [CallCreateAgent model tools; OutLog (LogAgentCreated a);
                    CallThreadsCreate] w)
      | Some t =>
          match new_message (w_remote w) with
          | None =>
              Raise RemoteError
                (emits [CallCreateAgent model tools; OutLog (LogAgentCreated a);
                        CallThreadsCreate; OutLog (LogThreadCreated t);
                        CallMessagesCreate t] w)
          | Some m =>
              poll_and_summarize t a (emits (creation_events model tools a t m) w)
          end
      end
  end.
Proof.
  unfold create_and_run.
  unfold bind at 1. rewrite create_agent_spec.
  destruct (new_agent (w_remote w)) as [a|]; [|reflexivity].
  unfold bind at 1. rewrite log_spec, WorldFacts.emits_emits.
  unfold bind at 1. rewrite threads_create_spec. cbn [w_remote emits set_trace].
  destruct (new_thread (w_remote w)) as [t|];
    [|rewrite WorldFacts.emits_emits; reflexivity].
  rewrite WorldFacts.emits_emits.
  unfold bind at 1. rewrite log_spec, WorldFacts.emits_emits.
  unfold bind at 1. rewrite messages_create_spec. cbn [w_remote emits set_trace].
  destruct (new_message (w_remote w)) as [m|];
    [|rewrite WorldFacts.emits_emits; reflexivity].
  rewrite WorldFacts.emits_emits.
  unfold bind at 1. rewrite log_spec, WorldFacts.emits_emits.
  unfold bind at 1. rewrite log_spec, WorldFacts.emits_emits.
  reflexivity.
Qed.

(** Whatever the service answers, the first thing that [create_and_run]
    creates is the agent, with the model and the tool it was given; when
    the three creating calls are answered, the thread, the message in it
    and the run of the agent on it follow, and the agent is deleted once
    when the script ends well and not at all otherwise. *)
Lemma create_and_run_calls (model : pystr) (tools : DeepResearchTool) (w : World) :
  exists evs rest,
    w_trace (world_of (create_and_run model tools w)) = w_trace w ++ evs
    /\ filter is_create evs = CallCreateAgent model tools :: rest
    /\ forall a t m,
         new_agent (w_remote w) = Some a ->
         new_thread (w_remote w) = Some t ->
         new_message (w_remote w) = Some m ->
         rest = [CallThreadsCreate; CallMessagesCreate t; CallRunsCreate t a]
         /\ filter is_delete evs =
            match create_and_run model tools w with
            | Ok _ _ => [CallDeleteAgent a]
            | Raise _ _ => []
            end.
Proof.
  rewrite create_and_run_spec.
  destruct (new_agent (w_remote w)) as [a|].
  2:{ exists [CallCreateAgent model tools], []. split; [reflexivity|].
      split; [reflexivity|]. intros a t m H. discriminate. }
  destruct (new_thread (w_remote w)) as [t|].
  2:{ eexists. exists [CallThreadsCreate]. split; [reflexivity|].
      split; [reflexivity|]. intros a' t m _ H. discriminate. }
  destruct (new_message (w_remote w)) as [m|].
  2:{ eexists. exists [CallThreadsCreate; CallMessagesCreate t]. split; [reflexivity|].
      split; [reflexivity|]. intros a' t' m _ _ H. discriminate. }
  destruct (CallFacts.poll_and_summarize_calls t a
              (emits (creation_events model tools a t m) w)) as (evs & H1 & H2 & H3).
  cbn [emits set_trace w_trace] in H1.
  exists (creation_events model tools a t m ++ evs),
         [CallThreadsCreate; CallMessagesCreate t; CallRunsCreate t a].
  split; [rewrite H1, <- app_assoc; reflexivity|].
  split; [rewrite filter_app, H2; reflexivity|].
  intros a' t' m' Ha Ht Hm.
  injection Ha as <-. injection Ht as <-. injection Hm as <-.
  split; [reflexivity|]. rewrite filter_app, H3. reflexivity.
Qed.

Lemma hf_answered_agent : history_free (fun w => Prim.answered (new_agent (w_remote w)) w).
Proof.
  intros w tr. unfold Prim.answered. cbn [set_trace w_remote].
  destruct (new_agent (w_remote w)); unfold push, set_trace; simpl;
    rewrite app_nil_r; reflexivity.
Qed.

Lemma hf_answered_thread : history_free (fun w => Prim.answered (new_thread (w_remote w)) w).
Proof.
  intros w tr. unfold Prim.answered. cbn [set_trace w_remote].
  destruct (new_thread (w_remote w)); unfold push, set_trace; simpl;
    rewrite app_nil_r; reflexivity.
Qed.

Lemma hf_answered_message :
  history_free (fun w => Prim.answered (new_message (w_remote w)) w).
Proof.
  intros w tr. unfold Prim.answered. cbn [set_trace w_remote].
  destruct (new_message (w_remote w)); unfold push, set_trace; simpl;
    rewrite app_nil_r; reflexivity.
Qed.

Lemma hf_create_and_run (model : pystr) (tools : DeepResearchTool) :
  history_free (create_and_run model tools).
Proof.
  unfold create_and_run, Prim.create_agent, Prim.threads_create, Prim.messages_create,
    Prim.log_with_timestamp.
  apply hf_bind; [apply hf_bind; [apply hf_emit | intros _; apply hf_answered_agent]|].
  intros a. apply hf_bind; [apply hf_emit | intros _].
  apply hf_bind; [apply hf_bind; [apply hf_emit | intros _; apply hf_answered_thread]|].
  intros t. apply hf_bind; [apply hf_emit | intros _].
  apply hf_bind; [apply hf_bind; [apply hf_emit | intros _; apply hf_answered_message]|].
  intros m. apply hf_bind; [apply hf_emit | intros _].
  apply hf_bind; [apply hf_emit | intros _].
  apply hf_poll_and_summarize.
Qed.

(** The synchronous script, case by case of its configuration. *)
Lemma sync_main_spec (w : World) :
  main w =
  match env_var "PROJECT_ENDPOINT" w with
  | None => Raise (KeyError (lit "PROJECT_ENDPOINT")) w
  | Some _ =>
      match resolve_connection w with
      | Raise e w1 => Raise e w1
      | Ok c w1 =>
          match env_var "DEEP_RESEARCH_MODEL_DEPLOYMENT_NAME" w1 with
          | None => Raise (KeyError (lit "DEEP_RESEARCH_MODEL_DEPLOYMENT_NAME")) w1
          | Some d =>
              if tool_accepts (w_remote w1) c d then
                match env_var "MODEL_DEPLOYMENT_NAME" w1 with
                | None => Raise (KeyError (lit "MODEL_DEPLOYMENT_NAME")) w1
                | Some model =>
                    create_and_run model
                      {| bing_grounding_connection_id := c; deep_research_model := d |} w1
                end
              else Raise (ValueError c) w1
          end
      end
  end.
Proof.
  unfold main. unfold bind at 1. rewrite StartupFacts.environ_at_spec.
  destruct (env_var "PROJECT_ENDPOINT" w); [|reflexivity].
  unfold bind at 1. destruct (resolve_connection w) as [c w1|e w1]; [|reflexivity].
  unfold bind at 1. rewrite StartupFacts.environ_at_spec.
  destruct (env_var "DEEP_RESEARCH_MODEL_DEPLOYMENT_NAME" w1) as [d|]; [|reflexivity].
  unfold bind at 1. rewrite tool_init_spec.
  destruct (tool_accepts (w_remote w1) c d); [|reflexivity].
  unfold bind at 1. rewrite StartupFacts.environ_at_spec.
  destruct (env_var "MODEL_DEPLOYMENT_NAME" w1) as [model|]; reflexivity.
Qed.

(** The asynchronous script, case by case of its configuration. *)
Lemma async_main_spec (w : World) :
  async_main_effect w =
  match env_var "PROJECT_ENDPOINT" w with
  | None => Raise (KeyError (lit "PROJECT_ENDPOINT")) (emits [OutLog LogAsyncStart] w)
  | Some _ =>
      match env_var "AZURE_BING_CONNECTION_ID" w with
      | None => Raise (KeyError (lit "AZURE_BING_CONNECTION_ID")) (emits async_start_lines w)
      | Some c =>
          match env_var "DEEP_RESEARCH_MODEL_DEPLOYMENT_NAME" w with
          | None => Raise (KeyError (lit "DEEP_RESEARCH_MODEL_DEPLOYMENT_NAME"))
                          (emits async_start_lines w)
          | Some d =>
              if tool_accepts (w_remote w) c d then
                match env_var "MODEL_DEPLOYMENT_NAME" w with
                | None => Raise (KeyError (lit "MODEL_DEPLOYMENT_NAME"))
                                (emits (async_start_lines ++ [OutLog (LogToolReady d)]) w)
                | Some model =>
                    create_and_run model
                      {| bing_grounding_connection_id := c; deep_research_model := d |}
                      (emits (async_start_lines ++ [OutLog (LogToolReady d)]) w)
                end
              else Raise (ValueError c) (emits async_start_lines w)
          end
      end
  end.
Proof.
  unfold async_main_effect.
  unfold bind at 1. rewrite log_spec.
  unfold bind at 1. rewrite StartupFacts.environ_at_spec, env_var_emits.
  destruct (env_var "PROJECT_ENDPOINT" w); [|reflexivity].
  unfold bind at 1. rewrite log_spec, WorldFacts.emits_emits.
  unfold bind at 1. rewrite log_spec, WorldFacts.emits_emits.
  unfold bind at 1. rewrite StartupFacts.environ_at_spec, env_var_emits.
  destruct (env_var "AZURE_BING_CONNECTION_ID" w) as [c|]; [|reflexivity].
  unfold bind at 1. rewrite StartupFacts.environ_at_spec, env_var_emits.
  destruct (env_var "DEEP_RESEARCH_MODEL_DEPLOYMENT_NAME" w) as [d|] eqn:Ed; [|reflexivity].
  unfold bind at 1. rewrite tool_init_spec. cbn [w_remote emits set_trace].
  destruct (tool_accepts (w_remote w) c d); [|reflexivity].
  unfold bind at 1. rewrite StartupFacts.environ_at_spec, env_var_emits, Ed.
  unfold bind at 1. rewrite log_spec, WorldFacts.emits_emits.
  unfold bind at 1. rewrite StartupFacts.environ_at_spec, env_var_emits.
  destruct (env_var "MODEL_DEPLOYMENT_NAME" w) as [model|]; reflexivity.
Qed.

(** However the search for the connection id ends, it has created and
    deleted nothing. *)
Lemma resolve_connection_outcomes (w : World) :
  exists evs,
    world_of (resolve_connection w) = emits evs w /\
    filter is_create evs = [] /\ filter is_delete evs = [].
Proof.
  destruct (StartupFacts.connection_id_cases w) as [Hu|[c [Hc Hs]]].
  - rewrite (StartupFacts.resolve_connection_unset w Hu).
    destruct (env_var "PROJECT_ENDPOINT" w) as [pe|].
    + destruct (connections (w_remote w)) as [cs|];
        [destruct (env_var "BING_RESOURCE_NAME" w) as [n|];
         [destruct (find (named n) cs) as [cn|]|]|];
        eexists; (split; [reflexivity|]); split; reflexivity.
    + eexists. split; [reflexivity|]. split; reflexivity.
  - rewrite (StartupFacts.resolve_connection_set w c Hc Hs).
    eexists. split; [reflexivity|]. split; reflexivity.
Qed.

(** What the synchronous script has done when it ends, in terms of what
    it created: nothing, unless the configuration is complete and the
    tool was built, and then what [create_and_run] creates. *)
Lemma sync_main_creates (w : World) :
  exists evs,
    w_trace (world_of (main w)) = w_trace w ++ evs /\
    ((filter is_create evs = [] /\ filter is_delete evs = []) \/
     exists pe c d mo w1 evs0 evs1,
       env_var "PROJECT_ENDPOINT" w = Some pe
       /\ resolve_connection w = Ok c w1
       /\ env_var "DEEP_RESEARCH_MODEL_DEPLOYMENT_NAME" w = Some d
       /\ tool_accepts (w_remote w) c d = true
       /\ env_var "MODEL_DEPLOYMENT_NAME" w = Some mo
       /\ w1 = emits evs0 w
       /\ filter is_create evs0 = [] /\ filter is_delete evs0 = []
       /\ evs = evs0 ++ evs1
       /\ main w = create_and_run mo {| bing_grounding_connection_id := c;
                                        deep_research_model := d |} w1
       /\ w_trace (world_of (main w)) = w_trace w1 ++ evs1).
Proof.
  rewrite sync_main_spec.
  destruct (env_var "PROJECT_ENDPOINT" w) as [pe|] eqn:Epe.
  2:{ exists []. split; [symmetry; apply app_nil_r|]. left. split; reflexivity. }
  destruct (resolve_connection_outcomes w) as (evs0 & H0 & Hc0 & Hd0).
  destruct (resolve_connection w) as [c w1|e w1] eqn:Er; cbn [world_of] in H0; subst w1.
  2:{ exists evs0. split; [reflexivity|]. left. split; assumption. }
  rewrite !env_var_emits. cbn [w_remote emits set_trace].
  destruct (env_var "DEEP_RESEARCH_MODEL_DEPLOYMENT_NAME" w) as [d|] eqn:Ed.
  2:{ exists evs0. split; [reflexivity|]. left. split; assumption. }
  destruct (tool_accepts (w_remote w) c d) eqn:Et.
  2:{ exists evs0. split; [reflexivity|]. left. split; assumption. }
  destruct (env_var "MODEL_DEPLOYMENT_NAME" w) as [mo|] eqn:Em.
  2:{ exists evs0. split; [reflexivity|]. left. split; assumption. }
  destruct (create_and_run_calls mo {| bing_grounding_connection_id := c;
                                       deep_research_model := d |}
              (emits evs0 w)) as (evs1 & rest & H1 & _).
  exists (evs0 ++ evs1). split.
  { rewrite H1. cbn [emits set_trace w_trace]. rewrite app_assoc. reflexivity. }
  right. exists pe, c, d, mo, (emits evs0 w), evs0, evs1.
  repeat (split; [first [reflexivity | assumption]|]). exact H1.
Qed.

End MainFacts.

Import MainFacts.

(** X8.  The synchronous script creates nothing at the service unless
    its configuration is complete.  If anything was created by the time
    the script ends, however it ends, then [PROJECT_ENDPOINT] and the two
    model names were set, the search for the connection id had given an
    id, the constructor of the tool had accepted that id with the name of
    the deep-research model, and the first thing created was the agent,
    with the model of [MODEL_DEPLOYMENT_NAME] and the tool made of that id
    and that name. *)
Theorem X8_sync_creates_only_when_configured (w : World) (evs : list Event)
    (Htrace : w_trace (world_of (SyncScript.main w)) = w_trace w ++ evs)
    (Hcreated : filter is_create evs <> []) :
  exists pe c d mo w1 rest,
    env_var "PROJECT_ENDPOINT" w = Some pe
    /\ SyncScript.resolve_connection w = Ok c w1
    /\ env_var "DEEP_RESEARCH_MODEL_DEPLOYMENT_NAME" w = Some d
    /\ tool_accepts (w_remote w) c d = true
    /\ env_var "MODEL_DEPLOYMENT_NAME" w = Some mo
    /\ filter is_create evs
       = CallCreateAgent mo {| bing_grounding_connection_id := c;
                               deep_research_model := d |} :: rest.
Proof.
  destruct (sync_main_creates w) as (evs' & Ht & Hcases).
  rewrite Ht in Htrace. apply app_inv_head in Htrace. subst evs'.
  destruct Hcases as [[Hc _]|(pe & c & d & mo & w1 & evs0 & evs1 & Hpe & Hres & Hd & Hacc
                              & Hmo & Hw1 & Hc0 & _ & Hevs & Hmain & Ht1)].
  - contradiction.
  - destruct (create_and_run_calls mo {| bing_grounding_connection_id := c;
                                         deep_research_model := d |} w1)
      as (evs1' & rest & H1 & H2 & _).
    rewrite <- Hmain, Ht1 in H1. apply app_inv_head in H1. subst evs1'.
    exists pe, c, d, mo, w1, rest.
    repeat (split; [assumption|]).
    rewrite Hevs, filter_app, Hc0. exact H2.
Qed.

Lemma X8_sync_creates_only_when_configured_witness :
  exists pe c d mo w1 rest,
    env_var "PROJECT_ENDPOINT" (configured_world [sample_run "completed"] [None; None])
    = Some pe
    /\ SyncScript.resolve_connection (configured_world [sample_run "completed"] [None; None])
       = Ok c w1
    /\ env_var "DEEP_RESEARCH_MODEL_DEPLOYMENT_NAME"
         (configured_world [sample_run "completed"] [None; None]) = Some d
    /\ tool_accepts (w_remote (configured_world [sample_run "completed"] [None; None])) c d
       = true
    /\ env_var "MODEL_DEPLOYMENT_NAME" (configured_world [sample_run "completed"] [None; None])
       = Some mo
    /\ filter is_create
         (w_trace (world_of (SyncScript.main
                               (configured_world [sample_run "completed"] [None; None]))))
       = CallCreateAgent mo {| bing_grounding_connection_id := c;
                               deep_research_model := d |} :: rest.
Proof.
  refine (X8_sync_creates_only_when_configured
            (configured_world [sample_run "completed"] [None; None])
            (w_trace (world_of (SyncScript.main
                                  (configured_world [sample_run "completed"] [None; None]))))
            _ _).
  - reflexivity.
  - vm_compute. discriminate.
Defined.

(** X9.  The asynchronous script creates nothing at the service unless
    its configuration is complete.  If anything was created by the time
    [main] ends, however it ends, then [PROJECT_ENDPOINT],
    [AZURE_BING_CONNECTION_ID] and the two model names were set, the
    constructor of the tool had accepted the id of
    [AZURE_BING_CONNECTION_ID] with the name of the deep-research model,
    the first thing created was the agent, with the model of
    [MODEL_DEPLOYMENT_NAME] and the tool made of that id and that name,
    and the console output starts with the four start-up lines. *)
Theorem X9_async_creates_only_when_configured (w : World) (o : Outcome unit)
    (evs : list Event)
    (Hends : AsyncScript.completes AsyncScript.main w o)
    (Htrace : w_trace (world_of o) = w_trace w ++ evs)
    (Hcreated : filter is_create evs <> []) :
  exists pe c d mo rest later,
    env_var "PROJECT_ENDPOINT" w = Some pe
    /\ env_var "AZURE_BING_CONNECTION_ID" w = Some c
    /\ env_var "DEEP_RESEARCH_MODEL_DEPLOYMENT_NAME" w = Some d
    /\ tool_accepts (w_remote w) c d = true
    /\ env_var "MODEL_DEPLOYMENT_NAME" w = Some mo
    /\ filter is_create evs
       = CallCreateAgent mo {| bing_grounding_connection_id := c;
                               deep_research_model := d |} :: rest
    /\ console evs
       = [OutLog LogAsyncStart; OutLog LogClientReady; OutLog LogToolInit;
          OutLog (LogToolReady d)] ++ later.
Proof.
  pose proof (EventLoop.completes_unique _ _ _ _ Hends (agree_async_main w)) as Ho.
  subst o. rewrite async_main_spec in Htrace.
  assert (Hno : forall lines : list Event,
             filter is_create lines = [] ->
             w_trace w ++ lines = w_trace w ++ evs -> False).
  { intros lines Hl H. apply app_inv_head in H. subst evs. contradiction. }
  destruct (env_var "PROJECT_ENDPOINT" w) as [pe|] eqn:Epe.
  2:{ exfalso. refine (Hno _ _ Htrace). reflexivity. }
  destruct (env_var "AZURE_BING_CONNECTION_ID" w) as [c|] eqn:Eaz.
  2:{ exfalso. refine (Hno _ _ Htrace). reflexivity. }
  destruct (env_var "DEEP_RESEARCH_MODEL_DEPLOYMENT_NAME" w) as [d|] eqn:Ed.
  2:{ exfalso. refine (Hno _ _ Htrace). reflexivity. }
  destruct (tool_accepts (w_remote w) c d) eqn:Eacc.
  2:{ exfalso. refine (Hno _ _ Htrace). reflexivity. }
  destruct (env_var "MODEL_DEPLOYMENT_NAME" w) as [mo|] eqn:Emo.
  2:{ exfalso. refine (Hno _ _ Htrace). reflexivity. }
  destruct (create_and_run_calls mo {| bing_grounding_connection_id := c;
                                       deep_research_model := d |}
              (emits (async_start_lines ++ [OutLog (LogToolReady d)]) w))
    as (evs1 & rest & H1 & H2 & _).
  rewrite H1 in Htrace. cbn [emits set_trace w_trace] in Htrace.
  rewrite <- app_assoc in Htrace. apply app_inv_head in Htrace. subst evs.
  exists pe, c, d, mo, rest, (console evs1).
  do 5 (split; [first [reflexivity | assumption]|]). split.
  - rewrite filter_app, H2. reflexivity.
  - unfold console. rewrite filter_app. reflexivity.
Qed.

Lemma X9_async_creates_only_when_configured_witness :
  exists pe c d mo rest later,
    env_var "PROJECT_ENDPOINT" (configured_world [sample_run "completed"] [None; None])
    = Some pe
    /\ env_var "AZURE_BING_CONNECTION_ID"
         (configured_world [sample_run "completed"] [None; None]) = Some c
    /\ env_var "DEEP_RESEARCH_MODEL_DEPLOYMENT_NAME"
         (configured_world [sample_run "completed"] [None; None]) = Some d
    /\ tool_accepts (w_remote (configured_world [sample_run "completed"] [None; None])) c d
       = true
    /\ env_var "MODEL_DEPLOYMENT_NAME" (configured_world [sample_run "completed"] [None; None])
       = Some mo
    /\ filter is_create
         (w_trace (world_of (async_main_effect
                               (configured_world [sample_run "completed"] [None; None]))))
       = CallCreateAgent mo {| bing_grounding_connection_id := c;
                               deep_research_model := d |} :: rest
    /\ console
         (w_trace (world_of (async_main_effect
                               (configured_world [sample_run "completed"] [None; None]))))
       = [OutLog LogAsyncStart; OutLog LogClientReady; OutLog LogToolInit;
          OutLog (LogToolReady d)] ++ later.
Proof.
  refine (X9_async_creates_only_when_configured
            (configured_world [sample_run "completed"] [None; None])
            (async_main_effect (configured_world [sample_run "completed"] [None; None]))
            (w_trace (world_of (async_main_effect
                                  (configured_world [sample_run "completed"] [None; None]))))
            _ _ _).
  - exists 200. vm_compute. reflexivity.
  - reflexivity.
  - vm_compute. discriminate.
Defined.

(** X10.  With [PROJECT_ENDPOINT] and the two model names set and the
    same connection id, not blank, in [BING_CONNECTION_ID] and in
    [AZURE_BING_CONNECTION_ID], the two entry points do the same to the
    service: they end both well or both with the same exception (that of
    the constructor of the tool when it does not accept the id, that of a
    failing call otherwise), after the same collaborator calls in the
    same order, the agent created with the same model and tool, and with
    the same files.  On the console the synchronous script first logs the
    connection id and the asynchronous one its start-up lines, the fourth
    of them when the tool has been built; from there on the lines are the
    same. *)
Theorem X10_entry_points_agree_when_configured (w : World) (pe c d mo : pystr)
    (Hpe : env_var "PROJECT_ENDPOINT" w = Some pe)
    (Hc : env_var "BING_CONNECTION_ID" w = Some c)
    (Hs : strip c <> [])
    (Haz : env_var "AZURE_BING_CONNECTION_ID" w = Some c)
    (Hd : env_var "DEEP_RESEARCH_MODEL_DEPLOYMENT_NAME" w = Some d)
    (Hmo : env_var "MODEL_DEPLOYMENT_NAME" w = Some mo) :
  exists oa,
    AsyncScript.completes AsyncScript.main w oa
    /\ match SyncScript.main w, oa with
       | Ok _ _, Ok _ _ => True
       | Raise e1 _, Raise e2 _ => e1 = e2
       | _, _ => False
       end
    /\ w_files (world_of (SyncScript.main w)) = w_files (world_of oa)
    /\ collaborator_calls (w_trace (world_of (SyncScript.main w)))
       = collaborator_calls (w_trace (world_of oa))
    /\ exists rest,
         console (w_trace (world_of (SyncScript.main w)))
         = console (w_trace w) ++ OutLog (LogConnFromEnv c) :: rest
         /\ console (w_trace (world_of oa))
            = console (w_trace w)
              ++ [OutLog LogAsyncStart; OutLog LogClientReady; OutLog LogToolInit]
              ++ (if tool_accepts (w_remote w) c d then [OutLog (LogToolReady d)] else [])
              ++ rest.
Proof.
  exists (async_main_effect w). split; [apply agree_async_main|].
  rewrite sync_main_spec, async_main_spec, Hpe, Haz, Hd.
  rewrite (StartupFacts.resolve_connection_set w c Hc Hs).
  rewrite !env_var_emits, Hd, Hmo. cbn [w_remote emits set_trace].
  destruct (tool_accepts (w_remote w) c d).
  - set (tool := {| bing_grounding_connection_id := c; deep_research_model := d |}).
    rewrite (history_free_at _ (emits [OutLog (LogConnFromEnv c)] w)
               (hf_create_and_run mo tool)).
    rewrite (history_free_at _ (emits (async_start_lines ++ [OutLog (LogToolReady d)]) w)
               (hf_create_and_run mo tool)).
    change (set_trace [] (emits _ w)) with (set_trace [] w).
    cbn [emits set_trace w_trace].
    destruct (create_and_run mo tool (set_trace [] w)) as [u w1|e w1];
      cbn [push world_of set_trace w_files w_trace].
    all: split; [reflexivity|]; split; [reflexivity|]; split.
    all: unfold collaborator_calls, console, async_start_lines; rewrite ?filter_app;
      try reflexivity.
    all: eexists; rewrite <- !app_assoc; split; cbn [filter app]; reflexivity.
  - cbn [world_of emits set_trace w_files w_trace].
    split; [reflexivity|]. split; [reflexivity|]. split.
    + unfold collaborator_calls. rewrite !filter_app. reflexivity.
    + exists []. unfold console. rewrite !filter_app. split; reflexivity.
Qed.

Lemma X10_entry_points_agree_when_configured_witness :
  exists oa,
    AsyncScript.completes AsyncScript.main
      (configured_world [sample_run "completed"] [None; Some tidy_message]) oa
    /\ w_files (world_of (SyncScript.main
                            (configured_world [sample_run "completed"]
                               [None; Some tidy_message])))
       = w_files (world_of oa)
    /\ collaborator_calls
         (w_trace (world_of (SyncScript.main
                               (configured_world [sample_run "completed"]
                                  [None; Some tidy_message]))))
       = collaborator_calls (w_trace (world_of oa)).
Proof.
  destruct (X10_entry_points_agree_when_configured
              (configured_world [sample_run "completed"] [None; Some tidy_message])
              (lit "https://research.services.ai.azure.com/api/projects/research")
              sample_connection_id (lit "o3-deep-research") (lit "gpt-4o"))
    as (oa & H1 & _ & H3 & H4 & _).
  - reflexivity.
  - reflexivity.
  - vm_compute. discriminate.
  - reflexivity.
  - reflexivity.
  - reflexivity.
  - exists oa. split; [exact H1|]. split; [exact H3 | exact H4].
Defined.

Module PaddingFacts.

Lemma lstrip_blank (p : pystr) : blank p = true -> lstrip p = [].
Proof.
  induction p as [|c p IH]; [reflexivity|]. simpl. intros H.
  apply andb_true_iff in H. destruct H as [Hc Hp]. rewrite Hc. apply IH. exact Hp.
Qed.

Lemma lstrip_app (s t : pystr) :
  lstrip (s ++ t) = if blank s then lstrip t else lstrip s ++ t.
Proof.
  induction s as [|c s IH]; [reflexivity|]. simpl.
  destruct (isspace c); [exact IH | reflexivity].
Qed.

Lemma blank_rev (p : pystr) : blank (rev p) = blank p.
Proof.
  unfold blank. induction p as [|c p IH]; [reflexivity|].
  simpl. rewrite forallb_app, IH. simpl. rewrite andb_true_r. apply andb_comm.
Qed.

Lemma rstrip_blank_suffix (x post : pystr) :
  blank post = true -> rstrip (x ++ post) = rstrip x.
Proof.
  intros H. unfold rstrip. rewrite rev_app_distr, lstrip_app, blank_rev, H. reflexivity.
Qed.

(** Whitespace around a text does not survive the trimming. *)
Lemma strip_padded (s s' : pystr) : padded s s' -> strip s' = strip s.
Proof.
  intros (pre & post & Hpre & Hpost & E). subst s'. unfold strip.
  rewrite lstrip_app, Hpre. rewrite lstrip_app.
  destruct (blank s) eqn:Es.
  - rewrite (lstrip_blank post Hpost), (lstrip_blank s Es). reflexivity.
  - apply rstrip_blank_suffix. exact Hpost.
Qed.

Lemma map_strip_padded (l l' : list pystr) :
  Forall2 padded l l' -> map strip l' = map strip l.
Proof.
  induction 1 as [|s s' l l' H _ IH]; [reflexivity|].
  simpl. rewrite IH, (strip_padded s s' H). reflexivity.
Qed.

End PaddingFacts.

(** X11.  Whitespace around the text segments never reaches the file:
    two messages with the same citations whose segments differ only by
    whitespace before and after each segment make the writer end in the
    same world, with the same file.  The asynchronous script does the
    same. *)
Theorem X11_padding_does_not_reach_the_file (m m' : ThreadMessage) (path : pystr) (w : World)
    (Hanns : url_citation_annotations m' = url_citation_annotations m)
    (Htexts : Forall2 padded (text_messages m) (text_messages m')) :
  both (SyncScript.create_research_summary (Some m') path)
       (AsyncScript.create_research_summary (Some m') path) w
       (SyncScript.create_research_summary (Some m) path w)
  /\ file_at path (world_of (SyncScript.create_research_summary (Some m') path w))
     = Some (summary_text m).
Proof.
  assert (Ht : summary_text m' = summary_text m).
  { unfold summary_text, summary_body. rewrite Hanns.
    rewrite (PaddingFacts.map_strip_padded _ _ Htexts). reflexivity. }
  split.
  - apply both_of_sync; [apply agree_create_research_summary|].
    rewrite !summary_written, Ht. reflexivity.
  - rewrite summary_written, Ht. unfold file_at.
    cbn [world_of emits set_trace set_files w_files]. apply assoc_put.
Qed.

Lemma X11_padding_does_not_reach_the_file_witness :
  file_at default_filepath
    (world_of (SyncScript.create_research_summary (Some tidy_message) default_filepath
                 (sample_world [] [])))
  = Some (summary_text
            {| msg_id := lit "msg_1";
               text_messages := [lit "First."; lit "Second."];
               url_citation_annotations := url_citation_annotations tidy_message |}).
Proof.
  refine (proj2 (X11_padding_does_not_reach_the_file
                   {| msg_id := lit "msg_1";
                      text_messages := [lit "First."; lit "Second."];
                      url_citation_annotations := url_citation_annotations tidy_message |}
                   tidy_message default_filepath (sample_world [] []) eq_refl _)).
  constructor; [|constructor; [|constructor]].
  - exists (lit "  "), (lit " "). repeat split.
  - exists [], nl. repeat split.
Defined.

Module DistinctFacts.
Import DedupFacts.

Lemma dedup_distinct (anns : list UrlCitation) :
  forall seen,
    NoDup (map url anns) ->
    (forall a, In a anns -> ~ In (url a) seen) ->
    dedup anns seen = map (fun a => (or_else (title a) (url a), url a)) anns.
Proof.
  induction anns as [|a anns IH]; intros seen Hnd Hseen; [reflexivity|].
  simpl. inversion Hnd as [|x l Hnot Hnd']; subst x l.
  assert (Em : mem (url a) seen = false).
  { apply PyStrFacts.mem_not_In. apply Hseen. left. reflexivity. }
  rewrite Em. simpl. f_equal. apply IH; [exact Hnd'|].
  intros b Hb [Hin|Hin].
  - apply Hnot. rewrite Hin. apply in_map. exact Hb.
  - apply (Hseen b); [right; exact Hb | exact Hin].
Qed.

(** A citation of a url seen before costs an entry. *)
Lemma dedup_short (u : pystr) (anns : list UrlCitation) :
  forall seen,
    In u seen -> In u (map url anns) ->
    List.length (dedup anns seen) < List.length anns.
Proof.
  induction anns as [|b anns IH]; intros seen Hs Hin; [contradiction|].
  simpl in Hin. simpl.
  destruct (mem (url b) seen) eqn:Eb; simpl.
  - pose proof (dedup_length anns seen). lia.
  - destruct Hin as [Hin|Hin].
    + subst u. apply PyStrFacts.mem_not_In in Eb. contradiction.
    + assert (Hlt : List.length (dedup anns (url b :: seen)) < List.length anns).
      { apply IH; [right; exact Hs | exact Hin]. }
      lia.
Qed.

Lemma dedup_full (anns : list UrlCitation) :
  forall seen,
    List.length (dedup anns seen) = List.length anns -> NoDup (map url anns).
Proof.
  induction anns as [|a anns IH]; intros seen H; [constructor|].
  simpl in H. destruct (mem (url a) seen) eqn:Em; simpl in H.
  - pose proof (dedup_length anns seen). lia.
  - injection H as H. simpl. constructor; [|apply (IH _ H)].
    intros Hin.
    pose proof (dedup_short (url a) anns (url a :: seen) (or_introl eq_refl) Hin).
    lia.
Qed.

End DistinctFacts.

(** X12.  No citation is dropped exactly when no url repeats: the
    references have as many entries as there are citations if and only if
    the urls of the citations are pairwise distinct, and then the loop of
    the writer appends one item per citation, in the order of the
    citations, each with its own title or, for want of one, its url.  The
    asynchronous script does the same. *)
Theorem X12_distinct_urls_all_written (anns : list UrlCitation) (path c : pystr)
    (fs : list (pystr * pystr)) (w : World)
    (Hopen : w_files w = (path, c) :: unassoc path fs) :
  (List.length (dedup anns []) = List.length anns <-> NoDup (map url anns))
  /\ (NoDup (map url anns) ->
      both (SyncScript.write_references path anns [])
           (AsyncScript.write_references path anns []) w
           (Ok tt (set_files
                     ((path, c ++ List.concat
                                    (map (fun a => reference_item (or_else (title a) (url a))
                                                     (url a)) anns))
                      :: unassoc path fs) w))).
Proof.
  split.
  - split; [apply DistinctFacts.dedup_full|].
    intros H. rewrite (DistinctFacts.dedup_distinct anns [] H); [apply length_map|].
    intros a _ [].
  - intros H. apply both_of_sync; [apply agree_write_references|].
    rewrite (write_references_file path anns [] c fs w Hopen).
    rewrite (DistinctFacts.dedup_distinct anns [] H); [|intros a _ []].
    unfold render_references. rewrite map_map. reflexivity.
Qed.

Lemma X12_distinct_urls_all_written_witness :
  both (SyncScript.write_references default_filepath
          [{| url := lit "https://a.example"; title := Some (lit "A") |};
           {| url := lit "https://b.example"; title := None |}] [])
       (AsyncScript.write_references default_filepath
          [{| url := lit "https://a.example"; title := Some (lit "A") |};
           {| url := lit "https://b.example"; title := None |}] [])
       (set_files [(default_filepath, lit "Findings.")] (sample_world [] []))
       (Ok tt (set_files
                 [(default_filepath,
                   lit "Findings." ++ lit "- [A](https://a.example)" ++ nl
                   ++ lit "- [https://b.example](https://b.example)" ++ nl)]
                 (sample_world [] []))).
Proof.
  refine (proj2 (X12_distinct_urls_all_written
                   [{| url := lit "https://a.example"; title := Some (lit "A") |};
                    {| url := lit "https://b.example"; title := None |}]
                   default_filepath (lit "Findings.") []
                   (set_files [(default_filepath, lit "Findings.")] (sample_world [] []))
                   eq_refl) _).
  simpl. constructor.
  - intros [H|[]]. vm_compute in H. discriminate.
  - constructor; [intros [] | constructor].
Defined.

(** X13.  One invocation, one of each.  With the configuration complete
    (the variables set, an id given by the search for the connection, the
    tool accepted by its constructor) and the three calls that create the
    agent, the thread and the message answered, either entry point
    creates one agent, one thread, one message in that thread and one run
    of that agent on that thread, in this order and with the ids that the
    service gave back; the tool of the agent holds the connection id that
    the script found (the synchronous one by its search, the asynchronous
    one in [AZURE_BING_CONNECTION_ID]); and the agent it deletes is the one
    it created, deleted once when the script ends well and not at all
    when a later call fails. *)
Theorem X13_one_of_each (w w1 : World) (pe c az d mo a t m : pystr)
    (Hpe : env_var "PROJECT_ENDPOINT" w = Some pe)
    (Hres : SyncScript.resolve_connection w = Ok c w1)
    (Haz : env_var "AZURE_BING_CONNECTION_ID" w = Some az)
    (Hd : env_var "DEEP_RESEARCH_MODEL_DEPLOYMENT_NAME" w = Some d)
    (Hmo : env_var "MODEL_DEPLOYMENT_NAME" w = Some mo)
    (Hsync_tool : tool_accepts (w_remote w) c d = true)
    (Hasync_tool : tool_accepts (w_remote w) az d = true)
    (Hagent : new_agent (w_remote w) = Some a)
    (Hthread : new_thread (w_remote w) = Some t)
    (Hmessage : new_message (w_remote w) = Some m) :
  let created (cid : pystr) :=
    [CallCreateAgent mo {| bing_grounding_connection_id := cid; deep_research_model := d |};
     CallThreadsCreate; CallMessagesCreate t; CallRunsCreate t a] in
  let deleted (o : Outcome unit) :=
    match o with
    | Ok _ _ => [CallDeleteAgent a]
    | Raise _ _ => []
    end in
  (exists evs,
     w_trace (world_of (SyncScript.main w)) = w_trace w ++ evs
     /\ filter is_create evs = created c
     /\ filter is_delete evs = deleted (SyncScript.main w))
  /\ (exists oa evs,
        AsyncScript.completes AsyncScript.main w oa
        /\ w_trace (world_of oa) = w_trace w ++ evs
        /\ filter is_create evs = created az
        /\ filter is_delete evs = deleted oa).
Proof.
  intros created deleted. split.
  - destruct (resolve_connection_outcomes w) as (evs0 & H0 & Hc0 & Hd0).
    rewrite Hres in H0. cbn [world_of] in H0. subst w1.
    rewrite sync_main_spec, Hpe, Hres, !env_var_emits, Hd, Hmo.
    change (w_remote (emits evs0 w)) with (w_remote w). rewrite Hsync_tool.
    destruct (create_and_run_calls mo {| bing_grounding_connection_id := c;
                                         deep_research_model := d |}
                (emits evs0 w)) as (evs1 & rest & H1 & H2 & H3).
    destruct (H3 a t m Hagent Hthread Hmessage) as [Hrest Hdel].
    exists (evs0 ++ evs1). split.
    { rewrite H1. cbn [emits set_trace w_trace]. rewrite app_assoc. reflexivity. }
    rewrite !filter_app, Hc0, Hd0, H2, Hdel, Hrest. split; reflexivity.
  - exists (async_main_effect w).
    pose proof (agree_async_main w) as Ha.
    rewrite async_main_spec, Hpe, Haz, Hd, Hmo, Hasync_tool in *.
    destruct (create_and_run_calls mo {| bing_grounding_connection_id := az;
                                         deep_research_model := d |}
                (emits (async_start_lines ++ [OutLog (LogToolReady d)]) w))
      as (evs1 & rest & H1 & H2 & H3).
    destruct (H3 a t m Hagent Hthread Hmessage) as [Hrest Hdel].
    cbn [emits set_trace w_trace] in H1.
    exists ((async_start_lines ++ [OutLog (LogToolReady d)]) ++ evs1).
    split; [exact Ha|].
    split; [rewrite H1, <- app_assoc; reflexivity|].
    rewrite !filter_app, H2, Hdel, Hrest. split; reflexivity.
Qed.

Lemma X13_one_of_each_witness :
  exists evs,
    w_trace (world_of (SyncScript.main
                         (configured_world [sample_run "completed"] [None; None]))) = evs
    /\ filter is_create evs
       = [CallCreateAgent (lit "gpt-4o") sample_tool; CallThreadsCreate;
          CallMessagesCreate (lit "thread_1");
          CallRunsCreate (lit "thread_1") (lit "agent_1")]
    /\ filter is_delete evs = [CallDeleteAgent (lit "agent_1")].
Proof.
  destruct (X13_one_of_each (configured_world [sample_run "completed"] [None; None])
              (emits [OutLog (LogConnFromEnv sample_connection_id)]
                 (configured_world [sample_run "completed"] [None; None]))
              (lit "https://research.services.ai.azure.com/api/projects/research")
              sample_connection_id sample_connection_id
              (lit "o3-deep-research") (lit "gpt-4o")
              (lit "agent_1") (lit "thread_1") (lit "msg_0"))
    as [(evs & H1 & H2 & H3) _].
  - reflexivity.
  - reflexivity.
  - reflexivity.
  - reflexivity.
  - reflexivity.
  - reflexivity.
  - reflexivity.
  - reflexivity.
  - reflexivity.
  - reflexivity.
  - exists evs. split; [exact H1|]. split; [exact H2 | exact H3].
Defined.

(** X14.  The loop has no limit of its own.  While every answer of the
    service says the run is active, the loop goes on: with k such answers
    and then none (and the message fetches answered), it makes k complete
    ticks, sleeps once more, and it is the failure of the next status
    fetch that ends it, with that exception.  The asynchronous loop ends
    the same way. *)
Theorem X14_loop_polls_until_failure (tid : pystr) (st : PollState) (w : World)
    (Hactive : active (status (ps_run st)) = true)
    (Hall : Forall (fun r => active (status r) = true) (w_runs w))
    (Hmsgs : List.length (w_runs w) <= List.length (w_msgs w)) :
  exists w' evs rid,
    both (SyncScript.poll tid st) (AsyncScript.poll tid st) w (Raise RemoteError w')
    /\ w_trace w' = w_trace w ++ evs ++ [CallSleep 1; CallRunsGet tid rid]
    /\ count is_sleep evs = List.length (w_runs w)
    /\ count_fetches evs = List.length (w_runs w)
    /\ count is_message_fetch evs = List.length (w_runs w)
    /\ w_runs w' = [].
Proof.
  assert (Hsync : exists w' evs rid,
             SyncScript.poll tid st w = Raise RemoteError w'
             /\ w_trace w' = w_trace w ++ evs ++ [CallSleep 1; CallRunsGet tid rid]
             /\ count is_sleep evs = List.length (w_runs w)
             /\ count_fetches evs = List.length (w_runs w)
             /\ count is_message_fetch evs = List.length (w_runs w)
             /\ w_runs w' = []).
  { remember (w_runs w) as rs eqn:Ers. revert st w Hactive Ers Hmsgs.
    induction rs as [|r rs IH]; intros st w Hactive Ers Hmsgs.
    - rewrite poll_unfold, Hactive. unfold bind. rewrite tick_spec, <- Ers.
      exists (emits [CallSleep 1; CallRunsGet tid (run_id (ps_run st))] w), [],
             (run_id (ps_run st)).
      cbn [emits set_trace w_trace w_runs]. repeat split; auto.
    - rewrite poll_unfold, Hactive. unfold bind. rewrite tick_spec, <- Ers.
      destruct (w_msgs w) as [|m ms] eqn:Em; [simpl in Hmsgs; lia|].
      inversion Hall as [|x l Hr Hrs]; subst x l.
      match goal with |- context [SyncScript.poll tid ?s ?x] =>
        destruct (IH Hrs s x) as (w' & evs & rid & H1 & H2 & H3 & H4 & H5 & H6);
          [exact Hr | reflexivity | simpl in Hmsgs |- *; lia |]
      end.
      exists w'.
      exists (([CallSleep 1; CallRunsGet tid (run_id (ps_run st)); CallGetLastMessage tid]
               ++ snd (detect (ps_last st) m) ++ [tick_line (ps_count st + 1) r]) ++ evs).
      exists rid. split; [exact H1|].
      cbn [set_msgs set_runs emits set_trace w_trace] in H2.
      split; [rewrite H2, <- !app_assoc; reflexivity|].
      pose proof (detect_console (ps_last st) m) as Hd.
      pose proof (tick_line_console (ps_count st + 1) r) as Hl.
      assert (Hc : forall p, (forall e, is_console e = true -> p e = false) ->
                   count p (snd (detect (ps_last st) m) ++ [tick_line (ps_count st + 1) r]) = 0).
      { intros p Hp. apply count_none. apply Forall_app. split.
        - eapply Forall_impl; [|exact Hd]. intros e He. apply Hp. exact He.
        - constructor; [apply Hp; exact Hl | constructor]. }
      split.
      { rewrite count_app.
        rewrite (count_app _ [CallSleep 1; CallRunsGet tid (run_id (ps_run st));
                              CallGetLastMessage tid]).
        rewrite Hc, H3; [reflexivity|].
        intros e He. destruct e; simpl in He |- *; congruence. }
      split.
      { rewrite !count_fetches_app, H4.
        rewrite (count_fetches_console (snd (detect (ps_last st) m)) Hd).
        rewrite (count_fetches_console [tick_line (ps_count st + 1) r]
                   (Forall_cons _ Hl (Forall_nil _))).
        reflexivity. }
      split; [|exact H6].
      rewrite count_app.
      rewrite (count_app _ [CallSleep 1; CallRunsGet tid (run_id (ps_run st));
                            CallGetLastMessage tid]).
      rewrite Hc, H5; [reflexivity|].
      intros e He. destruct e; simpl in He |- *; congruence. }
  destruct Hsync as (w' & evs & rid & H1 & H2).
  exists w', evs, rid. split; [|exact H2].
  apply both_of_sync; [apply agree_poll | exact H1].
Qed.

Lemma X14_loop_polls_until_failure_witness :
  exists w' evs rid,
    both (SyncScript.poll (lit "thread_1")
            {| ps_run := sample_run "queued"; ps_last := None; ps_count := 0 |})
         (AsyncScript.poll (lit "thread_1")
            {| ps_run := sample_run "queued"; ps_last := None; ps_count := 0 |})
         (sample_world [sample_run "in_progress"; sample_run "queued"] [None; None])
         (Raise RemoteError w')
    /\ w_trace w' = evs ++ [CallSleep 1; CallRunsGet (lit "thread_1") rid]
    /\ count_fetches evs = 2.
Proof.
  destruct (X14_loop_polls_until_failure (lit "thread_1")
              {| ps_run := sample_run "queued"; ps_last := None; ps_count := 0 |}
              (sample_world [sample_run "in_progress"; sample_run "queued"] [None; None]))
    as (w' & evs & rid & H1 & H2 & _ & H4 & _).
  - reflexivity.
  - repeat constructor.
  - simpl. lia.
  - exists w', evs, rid. split; [exact H1|]. split; [exact H2 | exact H4].
Defined.
